(** * MuseumHub: the multi-channel session core and the booking dialogue

    A shallow embedding of [models.py], [channels/base.py],
    [channels/website.py], [channels/instagram.py], [session_manager.py]
    and the booking wizard of [app.py] (the [chatbot] view), followed by
    the properties of the specification that are settled against it.

    Conventions of the embedding.
    - The relational store is a record of tables; a table is the list of
      its rows in insertion order.  Primary keys come from a counter kept
      with each table.
    - An ORM object handed to an operation is named by its primary key and
      read from the store, so that two references to one row alias.
    - [datetime.utcnow()] and [uuid.uuid4()] are readings of the
      environment: every operation that needs them takes them as
      arguments.  Timestamps are microseconds as [Z].
    - Python values held in JSON payloads and in the cookie session are
      the type [pyval]; [None] is [VNone].
    - A raised exception is a distinguished result ([None] for the
      operations that can only raise one kind, a [Raised] outcome in the
      view). *)

From Stdlib Require Import Ascii String.
From stdpp Require Import base option numbers list sorting strings gmap pretty.

Local Open Scope string_scope.
Local Open Scope Z_scope.
Local Open Scope list_scope.

(** ** Python values *)

Inductive pyval : Type :=
| VNone
| VBool (b : bool)
| VInt (z : Z)
| VStr (s : string).

#[global] Instance pyval_eq_dec : EqDecision pyval.
Proof. solve_decision. Defined.

(** [bool(v)]: [None], [False], [0] and the empty string are falsy. *)
Definition truthy (v : pyval) : bool :=
  match v with
  | VNone => false
  | VBool b => b
  | VInt z => negb (z =? 0)
  | VStr s => negb (bool_decide (s = ""))
  end.

(** [a or b] *)
Definition py_or (a b : pyval) : pyval := if truthy a then a else b.

(** Truthiness of an optional string argument ([None] and [''] are falsy). *)
Definition truthy_str (o : option string) : bool :=
  match o with
  | None => false
  | Some s => negb (bool_decide (s = ""))
  end.

(** A [dict] with string keys; [d.get(k)] is [None] for a missing key. *)
Abbreviation dict := (gmap string pyval).

Definition dict_get (d : dict) (k : string) : pyval := default VNone (d !! k).

(** [bool(d)] of a dict: empty is falsy. *)
Definition truthy_dict (d : dict) : bool := negb (bool_decide (d = ∅)).

(** [d.update(u)]: keys of [u] overwrite those of [d]. *)
Definition dict_update (d u : dict) : dict := u ∪ d.

(** ** JSON values and raised exceptions *)

(** A parsed JSON document (a webhook payload). *)
#[warnings="-register-all"]
Inductive json : Type :=
| JNull
| JBool (b : bool)
| JNum (z : Z)
| JStr (s : string)
| JArr (l : list json)
| JObj (m : gmap string json).

(** What a call yields: a value, a raised exception, or [Unembedded]
    when it meets a value of a type the embedding leaves out. *)
Inductive result (A : Type) : Type :=
| Ret (a : A)
| Exn (e : string)
| Unembedded.

Arguments Ret {A} a.
Arguments Exn {A} e.
Arguments Unembedded {A}.

#[global] Instance result_ret : MRet result := λ A a, Ret a.
#[global] Instance result_bind : MBind result :=
  λ A B f r, match r with
             | Ret a => f a
             | Exn e => Exn e
             | Unembedded => Unembedded
             end.

(** [bool(v)] *)
Definition json_truthy (v : json) : bool :=
  match v with
  | JNull => false
  | JBool b => b
  | JNum z => negb (z =? 0)
  | JStr s => negb (bool_decide (s = ""))
  | JArr l => match l with [] => false | _ => true end
  | JObj m => negb (bool_decide (map_to_list m = []))
  end.

(** [v.get(k, dflt)]: only a dict has [get]. *)
Definition json_get (k : string) (dflt : json) (v : json) : result json :=
  match v with
  | JObj m => Ret (default dflt (m !! k))
  | _ => Exn "AttributeError"
  end.

(** [v[0]] *)
Definition json_first (v : json) : result json :=
  match v with
  | JArr (x :: _) => Ret x
  | JArr [] => Exn "IndexError"
  | JStr (String c _) => Ret (JStr (String c EmptyString))
  | JStr EmptyString => Exn "IndexError"
  | JObj _ => Exn "KeyError"
  | _ => Exn "TypeError"
  end.

(** The values [for x in v] runs through: the items of a list, the keys
    of a dict, the characters of a string. *)
Definition json_iter (v : json) : result (list json) :=
  match v with
  | JArr l => Ret l
  | JObj m => Ret (JStr <$> (map_to_list m).*1)
  | JStr s => Ret ((λ c, JStr (String c EmptyString)) <$> list_ascii_of_string s)
  | _ => Exn "TypeError"
  end.

(** ** models.py *)

Record Channel : Type := mkChannel {
  ch_id : nat;
  ch_name : string;
  ch_type : string;
  ch_is_active : bool
}.

Record ConversationSession : Type := mkSession {
  cs_id : nat;
  cs_session_id : string;
  cs_user_id : option nat;
  cs_channel_id : nat;
  cs_channel_user_id : option string;
  cs_status : string;
  (** the [context] column: [None] is NULL, [Some d] the stored dict
      (the JSON text is kept decoded: [json.loads (json.dumps d) = d] on
      [dict]) *)
  cs_context : option dict;
  cs_created_at : Z;
  cs_updated_at : Z;
  cs_last_activity : Z
}.

Record ConversationMessage : Type := mkMessage {
  cm_id : nat;
  cm_session_id : nat;
  cm_message_type : string;
  cm_direction : string;
  cm_content : string;
  cm_content_url : option string;
  cm_channel_message_id : option string;
  cm_created_at : Z
}.

Record AuthenticationToken : Type := mkToken {
  at_id : nat;
  at_token : string;
  at_user_id : option nat;
  at_channel_id : option nat;
  at_expires_at : option Z;
  at_is_active : bool;
  at_last_used : option Z
}.

Record Booking : Type := mkBooking {
  bk_id : nat;
  bk_user_id : nat;
  bk_date : Z;               (* a calendar day, as its ordinal *)
  bk_time_slot : pyval;
  bk_visitors : Z;
  bk_payment_status : string;
  bk_amount : Z;
  bk_payment_method : option string
}.

#[global] Instance Channel_eq_dec : EqDecision Channel.
Proof. solve_decision. Defined.
#[global] Instance ConversationSession_eq_dec : EqDecision ConversationSession.
Proof. solve_decision. Defined.
#[global] Instance ConversationMessage_eq_dec : EqDecision ConversationMessage.
Proof. solve_decision. Defined.
#[global] Instance AuthenticationToken_eq_dec : EqDecision AuthenticationToken.
Proof. solve_decision. Defined.
#[global] Instance Booking_eq_dec : EqDecision Booking.
Proof. solve_decision. Defined.

(** [ConversationSession.get_context] *)
Definition get_context (s : ConversationSession) : dict :=
  match cs_context s with
  | Some d => if truthy_dict d then d else ∅
  | None => ∅
  end.

(** [ConversationSession.set_context] *)
Definition set_context (now : Z) (context_dict : dict) (s : ConversationSession)
  : ConversationSession :=
  mkSession (cs_id s) (cs_session_id s) (cs_user_id s) (cs_channel_id s)
    (cs_channel_user_id s) (cs_status s) (Some context_dict)
    (cs_created_at s) now now.

Definition set_status (st : string) (s : ConversationSession) : ConversationSession :=
  mkSession (cs_id s) (cs_session_id s) (cs_user_id s) (cs_channel_id s)
    (cs_channel_user_id s) st (cs_context s)
    (cs_created_at s) (cs_updated_at s) (cs_last_activity s).

Definition set_updated_at (t : Z) (s : ConversationSession) : ConversationSession :=
  mkSession (cs_id s) (cs_session_id s) (cs_user_id s) (cs_channel_id s)
    (cs_channel_user_id s) (cs_status s) (cs_context s)
    (cs_created_at s) t (cs_last_activity s).

Definition set_last_activity (t : Z) (s : ConversationSession) : ConversationSession :=
  mkSession (cs_id s) (cs_session_id s) (cs_user_id s) (cs_channel_id s)
    (cs_channel_user_id s) (cs_status s) (cs_context s)
    (cs_created_at s) (cs_updated_at s) t.

(** [AuthenticationToken.is_valid] *)
Definition is_valid (now : Z) (t : AuthenticationToken) : bool :=
  if negb (at_is_active t) then false
  else match at_expires_at t with
       | Some e => if e <? now then false else true
       | None => true
       end.

Definition set_last_used (now : Z) (t : AuthenticationToken) : AuthenticationToken :=
  mkToken (at_id t) (at_token t) (at_user_id t) (at_channel_id t)
    (at_expires_at t) (at_is_active t) (Some now).

(** ** The store *)

Record DB : Type := mkDB {
  channels : list Channel;
  sessions : list ConversationSession;
  messages : list ConversationMessage;
  tokens : list AuthenticationToken;
  bookings : list Booking;
  next_channel_id : nat;
  next_session_id : nat;
  next_message_id : nat;
  next_booking_id : nat
}.

Definition empty_db : DB := mkDB [] [] [] [] [] 1 1 1 1.

Definition with_channels (cs : list Channel) (n : nat) (db : DB) : DB :=
  mkDB cs (sessions db) (messages db) (tokens db) (bookings db)
    n (next_session_id db) (next_message_id db) (next_booking_id db).

Definition with_sessions (ss : list ConversationSession) (n : nat) (db : DB) : DB :=
  mkDB (channels db) ss (messages db) (tokens db) (bookings db)
    (next_channel_id db) n (next_message_id db) (next_booking_id db).

Definition with_messages (ms : list ConversationMessage) (n : nat) (db : DB) : DB :=
  mkDB (channels db) (sessions db) ms (tokens db) (bookings db)
    (next_channel_id db) (next_session_id db) n (next_booking_id db).

Definition with_tokens (ts : list AuthenticationToken) (db : DB) : DB :=
  mkDB (channels db) (sessions db) (messages db) ts (bookings db)
    (next_channel_id db) (next_session_id db) (next_message_id db) (next_booking_id db).

Definition with_bookings (bs : list Booking) (n : nat) (db : DB) : DB :=
  mkDB (channels db) (sessions db) (messages db) (tokens db) bs
    (next_channel_id db) (next_session_id db) (next_message_id db) n.

(** The row of a session object, by primary key. *)
Definition find_session (sid : nat) (db : DB) : option ConversationSession :=
  head (filter (λ s, cs_id s = sid) (sessions db)).

(** Attribute writes [f] on a session object followed by [commit].  When
    the row changes an UPDATE is emitted, and the column default
    [onupdate=datetime.utcnow] of [updated_at] applies (every explicit
    write of [updated_at] in the sources is [datetime.utcnow()] too). *)
Definition update_session (now : Z) (sid : nat)
    (f : ConversationSession → ConversationSession) (db : DB) : DB :=
  with_sessions
    (fmap (λ s, if bool_decide (cs_id s = sid)
               then (if bool_decide (f s = s) then s else set_updated_at now (f s))
               else s)
         (sessions db))
    (next_session_id db) db.

(** [db.session.delete(session)] *)
Definition delete_session (sid : nat) (db : DB) : DB :=
  with_sessions (filter (λ s, cs_id s ≠ sid) (sessions db)) (next_session_id db) db.

(** [query.order_by(key.desc()).first()]: the first row, in table order,
    among those with the greatest key. *)
Fixpoint first_by_desc {A : Type} (key : A → Z) (l : list A) : option A :=
  match l with
  | [] => None
  | x :: l' =>
      match first_by_desc key l' with
      | Some y => if key x <? key y then Some y else Some x
      | None => Some x
      end
  end.

(** The environment readings of one call. *)
Record Env : Type := mkEnv {
  env_now : Z;          (* datetime.utcnow() *)
  env_uuid : string     (* str(uuid.uuid4()) *)
}.

(** ** channels/base.py *)

Module BaseChannel.

(** [_get_or_create_channel]: the channel row of that name, inserted
    when there is none. *)
Definition _get_or_create_channel (channel_name channel_type : string) (db : DB)
  : Channel * DB :=
  match head (filter (λ c, ch_name c = channel_name) (channels db)) with
  | Some c => (c, db)
  | None =>
      let c := mkChannel (next_channel_id db) channel_name channel_type true in
      (c, with_channels (channels db ++ [c]) (S (next_channel_id db)) db)
  end.

(** [create_session]; [channel_db_id] is [self.channel_db.id]. *)
Definition create_session (channel_db_id : nat) (env : Env)
    (user_id : option nat) (channel_user_id : option string)
    (context : option dict) (db : DB) : ConversationSession * DB :=
  let session :=
    mkSession (next_session_id db) (env_uuid env) user_id channel_db_id
      channel_user_id "active" context
      (env_now env) (env_now env) (env_now env) in
  let session :=
    match context with
    | Some d => if truthy_dict d then set_context (env_now env) d session else session
    | None => session
    end in
  (session,
   with_sessions (sessions db ++ [session]) (S (next_session_id db)) db).

(** [get_session] *)
Definition get_session (channel_db_id : nat)
    (session_id channel_user_id : option string) (db : DB)
  : option ConversationSession :=
  if truthy_str session_id then
    head (filter (λ s, Some (cs_session_id s) = session_id
                       ∧ cs_channel_id s = channel_db_id) (sessions db))
  else if truthy_str channel_user_id then
    first_by_desc cs_last_activity
      (filter (λ s, cs_channel_user_id s = channel_user_id
                    ∧ cs_channel_id s = channel_db_id
                    ∧ cs_status s = "active") (sessions db))
  else None.

(** [save_message]; [sid] is [session.id]. *)
Definition save_message (env : Env) (sid : nat) (content direction message_type : string)
    (content_url channel_message_id : option string) (db : DB)
  : ConversationMessage * DB :=
  let message :=
    mkMessage (next_message_id db) sid message_type direction content
      content_url channel_message_id (env_now env) in
  (message,
   update_session (env_now env) sid (set_last_activity (env_now env))
     (with_messages (messages db ++ [message]) (S (next_message_id db)) db)).

(** [update_session_context] *)
Definition update_session_context (env : Env) (sid : nat) (context_updates : dict)
    (db : DB) : DB :=
  update_session (env_now env) sid
    (λ s, set_context (env_now env) (dict_update (get_context s) context_updates) s)
    db.

End BaseChannel.

(** ** channels/website.py *)

Module WebsiteChannel.

(** [authenticate]; the result is the returned [user_id] or [None]. *)
Definition authenticate (channel_db_id : nat) (now : Z) (token : option string)
    (db : DB) : option nat * DB :=
  if negb (truthy_str token) then (None, db)
  else
    match head (filter (λ t, Some (at_token t) = token
                             ∧ at_channel_id t = Some channel_db_id
                             ∧ at_is_active t = true) (tokens db)) with
    | Some auth_token =>
        if is_valid now auth_token then
          (at_user_id auth_token,
           with_tokens
             (fmap (λ t, if bool_decide (at_id t = at_id auth_token)
                        then set_last_used now t else t) (tokens db))
             db)
        else (None, db)
    | None => (None, db)
    end.

(** [generate_token]; [token] is the reading of
    [secrets.token_urlsafe(32)].  The key of the new row is one more than
    the greatest key of the table (token rows are never deleted);
    [timedelta(days=expires_days)] is in microseconds. *)
Definition generate_token (channel_db_id : nat) (now : Z) (token : string)
    (user_id : option nat) (expires_days : Z) (db : DB) : string * DB :=
  let expires_at := now + expires_days * 86400000000 in
  let auth_token :=
    mkToken (S (max_list (at_id <$> tokens db))) token user_id (Some channel_db_id)
      (Some expires_at) true None in
  (token, with_tokens (tokens db ++ [auth_token]) db).

(** [send_message] *)
Definition send_message (env : Env) (sid : nat) (message : string) (db : DB)
  : ConversationMessage * DB :=
  BaseChannel.save_message env sid message "outbound" "text" None None db.

(** [receive_message]; [message] is [data.get('message', '')], the
    keyword arguments are [user_id], [session_id] and [channel_user_id].
    [None] is the [AttributeError] raised on [session.id] when the
    session_id names no session of the channel.  The session returned is
    the row as [save_message] leaves it.  [env_create] holds the readings
    of [create_session], [env] those of [save_message]. *)
Definition receive_message (channel_db_id : nat) (env_create env : Env)
    (message : string) (user_id : option nat)
    (session_id channel_user_id : option string) (db : DB)
  : option (ConversationSession * ConversationMessage * DB) :=
  let '(session, db1) :=
    if truthy_str session_id then
      (BaseChannel.get_session channel_db_id session_id None db, db)
    else
      match BaseChannel.get_session channel_db_id None channel_user_id db with
      | Some session => (Some session, db)
      | None =>
          let '(session, db1) :=
            BaseChannel.create_session channel_db_id env_create user_id
              channel_user_id None db in
          (Some session, db1)
      end in
  match session with
  | None => None
  | Some session =>
      let '(saved_message, db2) :=
        BaseChannel.save_message env (cs_id session) message "inbound" "text"
          None None db1 in
      Some (default session (find_session (cs_id session) db2), saved_message, db2)
  end.

End WebsiteChannel.

(** ** channels/instagram.py *)

Module InstagramChannel.

(** [authenticate]; [INSTAGRAM_VERIFY_TOKEN] is the value of
    [os.getenv('INSTAGRAM_VERIFY_TOKEN')], [None] when unset. *)
Definition authenticate (INSTAGRAM_VERIFY_TOKEN : option string)
    (verify_token mode challenge : option string) : option string :=
  let verify_token_set := INSTAGRAM_VERIFY_TOKEN in
  if bool_decide (mode = Some "subscribe")
     && bool_decide (verify_token = verify_token_set)
  then challenge
  else None.

Section Transport.

(** The POST to the provider's send API, for a recipient and a text:
    [None] when [requests.post], [raise_for_status] or [response.json]
    raises a [RequestException], else the [message_id] of the response
    body ([None] when it has none). *)
Variable post_message : string → string → option (option string).

(** [send_message]; [session] is the session object. *)
Definition send_message (env : Env) (session : ConversationSession) (message : string)
    (db : DB) : result (ConversationMessage * DB) :=
  match cs_channel_user_id session with
  | Some recipient_id =>
      if bool_decide (recipient_id = "") then Exn "ValueError"
      else
        match post_message recipient_id message with
        | Some message_id =>
            Ret (BaseChannel.save_message env (cs_id session) message "outbound" "text"
                   None message_id db)
        | None => Exn "RequestException"
        end
  | None => Exn "ValueError"
  end.

End Transport.

(** [receive_message]: the result is [None] when the payload names no
    sender, else the session and the saved message.  The store is only
    written in the last case.  A sender id or a text that is not a
    string, or a message id that is neither a string nor absent, is left
    out.  [env_create] holds the readings of [create_session], [env]
    those of [save_message]. *)
Definition receive_message (channel_db_id : nat) (env_create env : Env) (data : json)
    (db : DB)
  : result (option (ConversationSession * ConversationMessage) * DB) :=
  entry ← json_get "entry" (JArr [JObj ∅]) data ≫= json_first;
  messaging ← json_get "messaging" (JArr [JObj ∅]) entry ≫= json_first;
  sender_id ← json_get "sender" (JObj ∅) messaging ≫= json_get "id" JNull;
  message ← json_get "message" (JObj ∅) messaging;
  message_text ← json_get "text" (JStr "") message;
  message_id ← json_get "mid" JNull message;
  if negb (json_truthy sender_id) then Ret (None, db)
  else
    match sender_id, message_text with
    | JStr sender_id, JStr message_text =>
        message_id ←
          match message_id with
          | JStr mid => Ret (Some mid)
          | JNull => Ret None
          | _ => Unembedded
          end;
        let '(session, db1) :=
          match BaseChannel.get_session channel_db_id None (Some sender_id) db with
          | Some session => (session, db)
          | None =>
              BaseChannel.create_session channel_db_id env_create None (Some sender_id)
                None db
          end in
        let '(saved_message, db2) :=
          BaseChannel.save_message env (cs_id session) message_text "inbound" "text"
            None message_id db1 in
        Ret (Some (default session (find_session (cs_id session) db2), saved_message),
             db2)
    | _, _ => Unembedded
    end.

End InstagramChannel.

(** ** session_manager.py *)

(** The manager's cache [_channels] (channel name to the [channel_db.id]
    of the channel object) together with the store. *)
Record World : Type := mkWorld {
  _channels : gmap string nat;
  w_db : DB
}.

Definition empty_world : World := mkWorld ∅ empty_db.

Module SessionManager.

(** The [channel_type] each channel class passes to [BaseChannel]. *)
Definition channel_type_of (channel_name : string) : option string :=
  if bool_decide (channel_name = "website") then Some "chat"
  else if bool_decide (channel_name = "instagram") then Some "social"
  else if bool_decide (channel_name = "voice") then Some "voice"
  else None.

(** [_get_channel]; [None] is the [ValueError] for an unknown name. *)
Definition _get_channel (channel_name : string) (w : World) : option (nat * World) :=
  match _channels w !! channel_name with
  | Some cid => Some (cid, w)
  | None =>
      match channel_type_of channel_name with
      | Some ty =>
          let '(c, db') :=
            BaseChannel._get_or_create_channel channel_name ty (w_db w) in
          Some (ch_id c, mkWorld (<[channel_name := ch_id c]> (_channels w)) db')
      | None => None
      end
  end.

(** [get_or_create_session] *)
Definition get_or_create_session (env : Env) (channel_name : string)
    (user_id : option nat) (channel_user_id : option string)
    (context : option dict) (w : World) : option (ConversationSession * World) :=
  match _get_channel channel_name w with
  | None => None
  | Some (channel, w1) =>
      (* both creating branches pass the same arguments *)
      let fresh :=
        let '(session, db') :=
          BaseChannel.create_session channel env user_id channel_user_id
            (Some (match context with
                   | Some d => if truthy_dict d then d else ∅
                   | None => ∅
                   end)) (w_db w1) in
        Some (session, mkWorld (_channels w1) db') in
      match BaseChannel.get_session channel None channel_user_id (w_db w1) with
      | None => fresh
      | Some session =>
          if negb (bool_decide (cs_status session = "active")) then fresh
          else Some (session, w1)
      end
  end.

(** [transfer_session]; [sid] names the session object (a stale
    reference, whose row is gone, is [None]). *)
Definition transfer_session (env : Env) (sid : nat) (target_channel_name : string)
    (target_channel_user_id : option string) (w : World)
  : option (ConversationSession * World) :=
  match _get_channel target_channel_name w with
  | None => None
  | Some (target_channel, w1) =>
      match find_session sid (w_db w1) with
      | None => None
      | Some session =>
          let context := get_context session in
          let '(new_session, db1) :=
            BaseChannel.create_session target_channel env (cs_user_id session)
              target_channel_user_id (Some context) (w_db w1) in
          let db2 := update_session (env_now env) sid (set_status "transferred") db1 in
          Some (new_session, mkWorld (_channels w1) db2)
      end
  end.

(** [close_session] *)
Definition close_session (env : Env) (sid : nat) (w : World) : World :=
  mkWorld (_channels w)
    (update_session (env_now env) sid
       (λ s, set_updated_at (env_now env) (set_status "closed" s)) (w_db w)).

(** [update_session_context]; the owning channel is looked up by the
    name of the session's channel row. *)
Definition update_session_context (env : Env) (sid : nat) (context_updates : dict)
    (w : World) : option World :=
  match find_session sid (w_db w) with
  | None => None
  | Some session =>
      match head (filter (λ c, ch_id c = cs_channel_id session) (channels (w_db w))) with
      | None => None
      | Some c =>
          match _get_channel (ch_name c) w with
          | None => None
          | Some (_, w1) =>
              Some (mkWorld (_channels w1)
                      (BaseChannel.update_session_context env sid context_updates (w_db w1)))
          end
      end
  end.

(** [order_by(ConversationMessage.created_at.desc())] *)
Definition newest_first (a b : ConversationMessage) : Prop :=
  cm_created_at b ≤ cm_created_at a.

#[global] Instance newest_first_dec : RelDecision newest_first.
Proof. intros a b. unfold newest_first. apply _. Defined.

(** [get_conversation_history]; [sid] is [session.id]. *)
Definition get_conversation_history (sid : nat) (limit : nat) (db : DB)
  : list ConversationMessage :=
  let msgs :=
    take limit
      (merge_sort newest_first
         (filter (λ m, cm_session_id m = sid) (messages db))) in
  reverse msgs.

(** [timedelta(days=n)] in microseconds *)
Definition timedelta_days (n : Z) : Z := n * 86400000000.

Definition is_old (cutoff_date : Z) (s : ConversationSession) : Prop :=
  cs_status s = "closed" ∧ cs_updated_at s < cutoff_date.

#[global] Instance is_old_dec cutoff_date s : Decision (is_old cutoff_date s).
Proof. unfold is_old. apply _. Defined.

(** [cleanup_old_sessions] *)
Definition cleanup_old_sessions (now : Z) (days_inactive : Z) (db : DB) : nat * DB :=
  let cutoff_date := now - timedelta_days days_inactive in
  let old_sessions := filter (is_old cutoff_date) (sessions db) in
  let count := length old_sessions in
  (count, foldl (λ d session, delete_session (cs_id session) d) db old_sessions).

(** [order_by(ConversationSession.last_activity.desc())] *)
Definition latest_activity_first (a b : ConversationSession) : Prop :=
  cs_last_activity b ≤ cs_last_activity a.

#[global] Instance latest_activity_first_dec : RelDecision latest_activity_first.
Proof. intros a b. unfold latest_activity_first. apply _. Defined.

(** [get_user_sessions].  [self.channels] maps the three channel names to
    lambdas, so for one of these names [channel.channel_db] raises
    [AttributeError] ([None]); for any other name [get] finds nothing and
    the channel filter is skipped. *)
Definition get_user_sessions (user_id : option nat) (channel_name : option string)
    (active_only : bool) (db : DB) : option (list ConversationSession) :=
  let by_user := filter (λ s, cs_user_id s = user_id) (sessions db) in
  let listed (query : list ConversationSession) :=
    let query :=
      if active_only then filter (λ s, cs_status s = "active") query else query in
    merge_sort latest_activity_first query in
  if truthy_str channel_name then
    match channel_name ≫= channel_type_of with
    | Some _ => None
    | None => Some (listed by_user)
    end
  else Some (listed by_user).

End SessionManager.

(** ** api_routes.py *)

(** [s.replace(old, new)] for a non-empty [old]: the occurrences of [old]
    are replaced from the left, without overlap.  [skip] counts the
    characters of a matched occurrence still to pass over. *)
Fixpoint replace_from (old new : string) (skip : nat) (s : string) : string :=
  match s with
  | EmptyString => EmptyString
  | String c s' =>
      match skip with
      | S k => replace_from old new k s'
      | O =>
          if String.prefix old s
          then new +:+ replace_from old new (String.length old - 1) s'
          else String c (replace_from old new 0 s')
      end
  end.

Definition py_replace (old new s : string) : string := replace_from old new 0 s.


(** A request to the chat API: the cookie session's [user_id], the
    [Authorization] header and the [token] query argument when present,
    and the [message] and [session_id] of the JSON body. *)
Record ChatRequest : Type := mkChatRequest {
  cr_session_user : option nat;
  cr_authorization : option string;
  cr_arg_token : option string;
  cr_message : pyval;
  cr_session_id : pyval
}.

Inductive ApiResult : Type :=
| ChatReply (session_id response : string) (message_id : option nat)
| History (session_id : string) (msgs : list ConversationMessage)
| TokenIssued (token : string) (expires_days : Z)
| SessionCreated (session_id : string) (created_at : Z)
| Success
| ApiError (status : nat) (error : string)
| ApiNotEmbedded.      (* a body value of a type the embedding leaves out *)

Module ApiRoutes.

(** The token of a chat request: the header without 'Bearer ', or else
    the query argument. *)
Definition request_token (rq : ChatRequest) : option string :=
  let t := py_replace "Bearer " "" (default "" (cr_authorization rq)) in
  if negb (bool_decide (t = "")) then Some t else cr_arg_token rq.

(** The [user_id] the chat routes work for: the one of the cookie
    session, or else the one of an active, valid token (of any channel). *)
Definition request_user (now : Z) (rq : ChatRequest) (db : DB) : option nat :=
  match cr_session_user rq with
  | Some user_id => Some user_id
  | None =>
      let token := request_token rq in
      if truthy_str token then
        match head (filter (λ t, Some (at_token t) = token ∧ at_is_active t = true)
                      (tokens db)) with
        | Some auth_token =>
            if is_valid now auth_token then at_user_id auth_token else None
        | None => None
        end
      else None
  end.


(** [token_required]: the user the decorated view runs for, or the 401
    response. *)
Definition token_required (now : Z) (authorization arg_token : option string) (db : DB)
  : ApiResult + option nat :=
  let token :=
    if truthy_str authorization
    then Some (py_replace "Bearer " "" (default "" authorization))
    else arg_token in
  if negb (truthy_str token) then inl (ApiError 401 "Token required")
  else
    match head (filter (λ t, Some (at_token t) = token ∧ at_is_active t = true)
                  (tokens db)) with
    | Some auth_token =>
        if is_valid now auth_token then inr (at_user_id auth_token)
        else inl (ApiError 401 "Invalid or expired token")
    | None => inl (ApiError 401 "Invalid or expired token")
    end.

Section Routes.

(** [chatbot.get_chatbot_response] *)
Variable get_chatbot_response : string → string.


End Routes.




(** [revoke_token].  [get_or_404] raises inside the [try], and the
    [except Exception] turns it into the 500 response. *)
Definition revoke_token (session_user : option nat) (token_id : nat) (db : DB)
  : ApiResult * DB :=
  match session_user with
  | None => (ApiError 401 "Login required", db)
  | Some user_id =>
      match head (filter (λ t, at_id t = token_id) (tokens db)) with
      | None => (ApiError 500 "Failed to revoke token", db)
      | Some token =>
          if negb (bool_decide (at_user_id token = Some user_id))
          then (ApiError 403 "Unauthorized", db)
          else
            (Success,
             with_tokens
               (fmap (λ t, if bool_decide (at_id t = token_id)
                           then mkToken (at_id t) (at_token t) (at_user_id t)
                                  (at_channel_id t) (at_expires_at t) false
                                  (at_last_used t)
                           else t) (tokens db))
               db)
      end
  end.

(** How far the handling of a webhook request got: still going, stopped
    by an exception (the 500 response), or at a value the embedding
    leaves out. *)
Inductive Progress : Type := Going | Failed | LeftOut.

Section Webhook.

Variable get_chatbot_response : string → string.
Variable post_message : string → string → option (option string).

(** The readings of the environment in a request: three for the [k]-th
    messaging event handled, [env_at (3k)] for a session creation,
    [env_at (3k+1)] for the receipt and [env_at (3k+2)] for the reply. *)
Variable env_at : nat → Env.

(** The verification GET of [instagram_webhook]; the channel object is
    built first, which inserts the channel row when it is missing. *)
Definition instagram_webhook_get (INSTAGRAM_VERIFY_TOKEN : option string)
    (mode token challenge : option string) (db : DB) : (nat * string) * DB :=
  let '(_, db1) := BaseChannel._get_or_create_channel "instagram" "social" db in
  match InstagramChannel.authenticate INSTAGRAM_VERIFY_TOKEN token mode challenge with
  | Some result =>
      if negb (bool_decide (result = "")) then ((200%nat, result), db1)
      else ((403%nat, "Forbidden"), db1)
  | None => ((403%nat, "Forbidden"), db1)
  end.

(** The body of the inner loop, for one messaging event of [entry_item]. *)
Definition handle_event (channel_db_id : nat) (env_create env_receive env_send : Env)
    (entry_item : json) (db : DB) : Progress * DB :=
  match InstagramChannel.receive_message channel_db_id env_create env_receive
          (JObj {["entry" := JArr [entry_item]]}) db with
  | Ret (Some (session_obj, message), db1) =>
      let message_text := cm_content message in
      let bot_response := get_chatbot_response message_text in
      match InstagramChannel.send_message post_message env_send session_obj
              bot_response db1 with
      | Ret (_, db2) => (Going, db2)
      | Exn _ => (Failed, db1)
      | Unembedded => (LeftOut, db1)
      end
  | Ret (None, db1) => (Going, db1)
  | Exn _ => (Failed, db)
  | Unembedded => (LeftOut, db)
  end.

(** [for message_event in messaging]; [k] counts the events handled so
    far in the request. *)
Fixpoint handle_events (channel_db_id : nat) (messaging : list json) (k : nat)
    (entry_item : json) (db : DB) : Progress * nat * DB :=
  match messaging with
  | [] => (Going, k, db)
  | message_event :: messaging =>
      match handle_event channel_db_id (env_at (3 * k)%nat) (env_at (3 * k + 1)%nat)
              (env_at (3 * k + 2)%nat) entry_item db with
      | (Going, db1) => handle_events channel_db_id messaging (S k) entry_item db1
      | (stopped, db1) => (stopped, k, db1)
      end
  end.

(** [for entry_item in entry] *)
Fixpoint handle_entries (channel_db_id : nat) (entry : list json) (k : nat) (db : DB)
  : Progress * nat * DB :=
  match entry with
  | [] => (Going, k, db)
  | entry_item :: entry =>
      match json_get "messaging" (JArr []) entry_item ≫= json_iter with
      | Ret messaging =>
          match handle_events channel_db_id messaging k entry_item db with
          | (Going, k1, db1) => handle_entries channel_db_id entry k1 db1
          | stopped => stopped
          end
      | Exn _ => (Failed, k, db)
      | Unembedded => (LeftOut, k, db)
      end
  end.

(** The POST of [instagram_webhook]; [data] is [request.json]. *)
Definition instagram_webhook_post (data : json) (db : DB) : ApiResult * DB :=
  let '(channel, db1) := BaseChannel._get_or_create_channel "instagram" "social" db in
  let data := if json_truthy data then data else JObj ∅ in
  match json_get "entry" (JArr []) data ≫= json_iter with
  | Ret entry =>
      match handle_entries (ch_id channel) entry 0 db1 with
      | (Going, _, db2) => (Success, db2)
      | (Failed, _, db2) => (ApiError 500 "Webhook processing failed", db2)
      | (LeftOut, _, db2) => (ApiNotEmbedded, db2)
      end
  | Exn _ => (ApiError 500 "Webhook processing failed", db1)
  | Unembedded => (ApiNotEmbedded, db1)
  end.

End Webhook.

End ApiRoutes.

(** ** utils/encryption.py *)

Module EncryptionManager.

Section Cipher.

(** [EncryptionManager.encrypt] and [decrypt] on strings, for the key of
    the manager.  A Fernet token depends on the time and on a random IV,
    so two calls of [encrypt] differ: [encrypt k v] is the token made for
    the value [v] in the iteration of [encrypt_dict] for the dict key [k].
    [decrypt] is [None] when it raises. *)
Variable encrypt : string → string → string.
Variable decrypt : string → option string.

(** [encrypt_dict]: the non-empty string values are encrypted. *)
Definition encrypt_dict (data_dict : dict) : dict :=
  map_imap (λ key value,
              Some match value with
                   | VStr v =>
                       if negb (bool_decide (v = "")) then VStr (encrypt key v)
                       else value
                   | _ => value
                   end) data_dict.

(** [decrypt_dict]: a non-empty string value that does not decrypt is
    kept as it is. *)
Definition decrypt_dict (encrypted_dict : dict) : dict :=
  (λ value, match value with
            | VStr v =>
                if negb (bool_decide (v = "")) then VStr (default v (decrypt v))
                else value
            | _ => value
            end) <$> encrypted_dict.

End Cipher.

End EncryptionManager.

(** ** app.py: the booking wizard of the [chatbot] view *)

(** [int(s)] for a string: surrounding whitespace, an optional sign, and
    decimal digits that may be grouped by single underscores (ASCII
    only).  [None] is the [ValueError]. *)
Definition is_space (c : ascii) : bool :=
  let n := nat_of_ascii c in
  (bool_decide (n = 32%nat) || (bool_decide (9 ≤ n)%nat && bool_decide (n ≤ 13)%nat)
   || (bool_decide (28 ≤ n)%nat && bool_decide (n ≤ 31)%nat))%bool.

Definition digit_of (c : ascii) : option Z :=
  let n := nat_of_ascii c in
  if (bool_decide (48 ≤ n)%nat && bool_decide (n ≤ 57)%nat)%bool
  then Some (Z.of_nat n - 48) else None.

Fixpoint lstrip (l : list ascii) : list ascii :=
  match l with
  | c :: l' => if is_space c then lstrip l' else l
  | [] => []
  end.

(** Digits after the first one; [after_us] tells that the previous
    character was an underscore, after which a digit must follow. *)
Fixpoint digits_from (acc : Z) (after_us : bool) (l : list ascii) : option Z :=
  match l with
  | [] => if after_us then None else Some acc
  | c :: l' =>
      match digit_of c with
      | Some d => digits_from (10 * acc + d) false l'
      | None =>
          if bool_decide (c = "_"%char) then
            if after_us then None else digits_from acc true l'
          else None
      end
  end.

Definition unsigned_of (l : list ascii) : option Z :=
  match l with
  | c :: l' => d ← digit_of c; digits_from d false l'
  | [] => None
  end.

Definition py_int_of_string (s : string) : option Z :=
  let l := lstrip (reverse (lstrip (reverse (list_ascii_of_string s)))) in
  match l with
  | c :: l' =>
      if bool_decide (c = "-"%char) then Z.opp <$> unsigned_of l'
      else if bool_decide (c = "+"%char) then unsigned_of l'
      else unsigned_of l
  | [] => None
  end.

(** [int(v)]; [None] is the [ValueError] or [TypeError]. *)
Definition py_int (v : pyval) : option Z :=
  match v with
  | VNone => None
  | VBool b => Some (if b then 1 else 0)
  | VInt z => Some z
  | VStr s => py_int_of_string s
  end.

(** The cookie session of the web framework, as far as the view uses it. *)
Record FlaskSession : Type := mkFlask {
  fs_user_id : option nat;            (* session['user_id'] *)
  fs_chatbot_booking : option dict    (* session['chatbot_booking'] *)
}.

(** The JSON body of a POST to [/chatbot]; an absent key is [VNone]
    ([booking_data]: the empty dict). *)
Record Request : Type := mkRequest {
  rq_message : string;        (* data.get('message', '').strip() *)
  rq_action : pyval;
  rq_step : pyval;
  rq_booking_data : dict;
  rq_date : pyval;
  rq_time_slot : pyval;
  rq_visitors : pyval;
  rq_payment_type : pyval
}.

Record Button : Type := mkButton {
  btn_action : string;
  btn_value : pyval
}.

(** The text of a response, by its template and the values it shows. *)
Inductive Reply : Type :=
| PleaseAsk
| LoginFirst
| LetsBook
| PleaseSelectDate
| AllSlotsFull (target_date : Z)
| DateSelected (target_date : Z)
| PleaseSelectTimeSlot
| TimeSlotSelected (selected_slot : pyval)
| Between1And10
| BookingSummary (display_date : Z) (time_slot : pyval) (visitors amount : Z)
| BookingIncomplete
| OnlySpotsAvailable (available : Z) (time_slot : pyval)
| BookingConfirmedCash (booking : Booking)
| BookingCreatedOnline (booking : Booking)
| ErrorCreatingBooking.

Record Response : Type := mkResponse {
  rs_response : Reply;
  rs_step : option string;
  rs_action : option string;
  rs_buttons : list Button;
  rs_booking_data : option dict;
  rs_success : bool
}.

Inductive Outcome : Type :=
| Replied (r : Response)
| RedirectLogin                (* login_required *)
| Raised (exn : string)        (* an exception that leaves the view *)
| OtherBranch.                 (* a branch of the view that is not embedded *)

Record SlotInfo : Type := mkSlot {
  si_time_slot : string;
  si_remaining : Z;
  si_is_full : bool;
  si_capacity : Z
}.

(** An entry of the [slots] list of [/api/availability]. *)
Record Availability : Type := mkAvailability {
  av_time_slot : string;
  av_capacity : Z;
  av_booked : Z;
  av_remaining : Z;
  av_is_full : bool
}.

(** What the booking routes answer: the booking made (201, or the
    redirect to its payment page), an error with its status (for the
    form view, the form shown again), an uncaught exception of [int], or
    the redirect after a cancellation.  [bk_amount] 0 is the NULL amount
    of a booking made through [/api/book]. *)
Inductive BookResult : Type :=
| Booked (booking : Booking)
| BookError (status : nat) (error : string) (available : option Z)
| BookRaised
| Cancelled.

Module App.

Definition TIME_SLOTS : list string :=
  ["9AM–10AM"; "10AM–11AM"; "11AM–12PM"; "1PM–2PM"; "2PM–3PM"; "3PM–4PM"].

Definition SLOT_CAPACITY : gmap string Z :=
  list_to_map
    [("9AM–10AM", 20); ("10AM–11AM", 25); ("11AM–12PM", 25);
     ("1PM–2PM", 30); ("2PM–3PM", 30); ("3PM–4PM", 20)].

Definition TICKET_PRICE : Z := 100.

(** [SLOT_CAPACITY.get(slot, 20)] *)
Definition capacity_of (slot : pyval) : Z :=
  match slot with
  | VStr s => default 20 (SLOT_CAPACITY !! s)
  | _ => 20
  end.

(** [coalesce(sum(Booking.visitors), 0)] over
    [filter_by(date=target_date, time_slot=slot)], [or 0]. *)
Definition booked_sum (target_date : Z) (slot : pyval) (db : DB) : Z :=
  foldr Z.add 0
    (bk_visitors <$>
       (filter (λ b, bk_date b = target_date ∧ bk_time_slot b = slot) (bookings db))).

Definition slot_info (target_date : Z) (db : DB) (slot : string) : SlotInfo :=
  let booked := booked_sum target_date (VStr slot) db in
  let capacity := capacity_of (VStr slot) in
  mkSlot slot (Z.max 0 (capacity - booked)) (bool_decide (capacity ≤ booked)) capacity.

(** The dict held under [session['chatbot_booking']], created empty
    when the key is missing. *)
Definition booking_or_empty (sess : FlaskSession) : dict :=
  default ∅ (fs_chatbot_booking sess).

Definition set_booking (d : dict) (sess : FlaskSession) : FlaskSession :=
  mkFlask (fs_user_id sess) (Some d).

Definition reply (r : Reply) : Response := mkResponse r None None [] None false.

Section View.

(** [datetime.strptime(s, '%Y-%m-%d').date()] as a day ordinal, [None]
    when it raises; and [date.isoformat()]. *)
Variable strptime_ymd : string → option Z.
Variable isoformat : Z → string.

(** [date.today()] *)
Variable today : Z.

(** The date parse of the [select_date] and [select_visitors] steps:
    anything that does not parse is today. *)
Definition date_or_today (v : pyval) : Z :=
  if bool_decide (v = VStr "today") then today
  else if bool_decide (v = VStr "tomorrow") then today + 1
  else match v with
       | VStr s => default today (strptime_ymd s)
       | _ => today
       end.

(** The date parse of [confirm_and_pay]: [None] when it raises. *)
Definition date_or_raise (v : pyval) : option Z :=
  if bool_decide (v = VStr "today") then Some today
  else if bool_decide (v = VStr "tomorrow") then Some (today + 1)
  else match v with
       | VStr s => strptime_ymd s
       | _ => None
       end.

Definition start_booking (sess : FlaskSession) : Outcome * FlaskSession :=
  match fs_user_id sess with
  | None =>
      (Replied (mkResponse LoginFirst None None
                  [mkButton "login" VNone] None false), sess)
  | Some _ =>
      let st : dict :=
        <["step" := VStr "select_date"]>
          (<["date" := VNone]> (<["time_slot" := VNone]> {["visitors" := VNone]})) in
      (Replied (mkResponse LetsBook (Some "select_date") None
                  [mkButton "select_date" (VStr "today");
                   mkButton "select_date" (VStr "tomorrow");
                   mkButton "select_date" (VStr (isoformat (today + 7)));
                   mkButton "custom_date" VNone]
                  (Some st) false),
       set_booking st sess)
  end.

Definition select_date (req : Request) (sess : FlaskSession) (db : DB)
  : Outcome * FlaskSession :=
  let selected_date :=
    py_or (rq_date req) (dict_get (rq_booking_data req) "date") in
  if negb (truthy selected_date) then (Replied (reply PleaseSelectDate), sess)
  else
    let st : dict :=
      <["step" := VStr "select_time"]>
        (<["date" := selected_date]> (booking_or_empty sess)) in
    let sess' := set_booking st sess in
    let target_date := date_or_today selected_date in
    let slots_data := slot_info target_date db <$> TIME_SLOTS in
    let available_slots := filter (λ s, si_is_full s = false) slots_data in
    match available_slots with
    | [] =>
        (Replied (mkResponse (AllSlotsFull target_date) (Some "select_date") None
                    [mkButton "select_date" (VStr "tomorrow");
                     mkButton "select_date" (VStr (isoformat (target_date + 7)));
                     mkButton "start_booking" VNone]
                    None false),
         sess')
    | _ :: _ =>
        let slot_buttons :=
          fmap (λ s, mkButton "select_time" (VStr (si_time_slot s)))
              (filter (λ s, si_is_full s = false) slots_data) in
        (Replied (mkResponse (DateSelected target_date) (Some "select_time") None
                    slot_buttons (Some st) false),
         sess')
    end.

Definition visitor_buttons : list Button :=
  [mkButton "select_visitors" (VStr "1"); mkButton "select_visitors" (VStr "2");
   mkButton "select_visitors" (VStr "3"); mkButton "select_visitors" (VStr "4");
   mkButton "custom_visitors" VNone].

Definition select_time (req : Request) (sess : FlaskSession)
  : Outcome * FlaskSession :=
  let selected_slot :=
    py_or (rq_time_slot req) (dict_get (rq_booking_data req) "time_slot") in
  if negb (truthy selected_slot) then (Replied (reply PleaseSelectTimeSlot), sess)
  else
    match fs_chatbot_booking sess with
    | None => (Raised "KeyError", sess)
    | Some d =>
        let st : dict :=
          <["step" := VStr "select_visitors"]> (<["time_slot" := selected_slot]> d) in
        (Replied (mkResponse (TimeSlotSelected selected_slot) (Some "select_visitors")
                    None visitor_buttons (Some st) false),
         set_booking st sess)
    end.

Definition select_visitors (req : Request) (sess : FlaskSession)
  : Outcome * FlaskSession :=
  match py_int (py_or (rq_visitors req)
                  (py_or (dict_get (rq_booking_data req) "visitors") (VInt 1))) with
  | None => (Raised "ValueError", sess)
  | Some visitors =>
      if bool_decide (visitors < 1) || bool_decide (visitors > 10)
      then (Replied (reply Between1And10), sess)
      else
        match fs_chatbot_booking sess with
        | None => (Raised "KeyError", sess)
        | Some d =>
            let st : dict :=
              <["step" := VStr "confirm_booking"]> (<["visitors" := VInt visitors]> d) in
            let amount := visitors * TICKET_PRICE in
            let booking_date := dict_get st "date" in
            let time_slot := dict_get st "time_slot" in
            let display_date := date_or_today booking_date in
            (Replied (mkResponse
                        (BookingSummary display_date time_slot visitors amount)
                        (Some "confirm_booking") None
                        [mkButton "confirm_and_pay" (VStr "online");
                         mkButton "confirm_and_pay" (VStr "cash");
                         mkButton "start_booking" VNone]
                        (Some st) false),
             set_booking st sess)
        end
  end.

(** The [confirm_and_pay] action. *)
Definition confirm_and_pay (req : Request) (sess : FlaskSession) (db : DB)
  : Outcome * FlaskSession * DB :=
  let payment_type := rq_payment_type req in
  let booking_data_from_request := rq_booking_data req in
  (* merge the request's booking data into the session *)
  let '(booking_info, sess1) :=
    if truthy_dict booking_data_from_request then
      let d := dict_update (booking_or_empty sess) booking_data_from_request in
      (d, set_booking d sess)
    else (booking_or_empty sess, sess) in
  (* values with fallbacks *)
  let date_str :=
    py_or (dict_get booking_info "date")
      (py_or (dict_get booking_data_from_request "date") (rq_date req)) in
  let time_slot :=
    py_or (dict_get booking_info "time_slot")
      (py_or (dict_get booking_data_from_request "time_slot") (rq_time_slot req)) in
  let visitors_value :=
    py_or (dict_get booking_info "visitors")
      (py_or (dict_get booking_data_from_request "visitors") (rq_visitors req)) in
  let visitors :=
    match visitors_value with
    | VNone => 1
    | v => default 1 (py_int v)
    end in
  (* one more look at the session when something is missing *)
  let '(date_str, time_slot, visitors) :=
    if negb (truthy date_str) || negb (truthy time_slot) then
      let booking_info := booking_or_empty sess1 in
      if truthy_dict booking_info then
        (py_or (dict_get booking_info "date") date_str,
         py_or (dict_get booking_info "time_slot") time_slot,
         let visitors_value := dict_get booking_info "visitors" in
         if truthy visitors_value then default 1 (py_int visitors_value)
         else visitors)
      else (date_str, time_slot, visitors)
    else (date_str, time_slot, visitors) in
  if negb (truthy date_str) || negb (truthy time_slot) then
    (Replied (mkResponse BookingIncomplete None (Some "start_booking")
                [mkButton "start_booking" VNone] None false),
     sess1, db)
  else
    let failed :=
      (Replied (mkResponse ErrorCreatingBooking None (Some "start_booking")
                  [] None false),
       sess1, db) in
    match date_or_raise date_str with
    | None => failed
    | Some target_date =>
        (* check availability again *)
        let booked := booked_sum target_date time_slot db in
        let capacity := capacity_of time_slot in
        if bool_decide (booked + visitors > capacity) then
          let available := Z.max 0 (capacity - booked) in
          (Replied (mkResponse (OnlySpotsAvailable available time_slot)
                      (Some "select_time") None
                      [mkButton "select_date" date_str;
                       mkButton "start_booking" VNone]
                      None false),
           sess1, db)
        else
          match fs_user_id sess1 with
          | None => failed
          | Some uid =>
              let cash := bool_decide (payment_type = VStr "cash") in
              let booking :=
                mkBooking (next_booking_id db) uid target_date time_slot visitors
                  (if cash then "cash_pending" else "pending")
                  (visitors * TICKET_PRICE)
                  (if cash then Some "cash" else None) in
              let db' :=
                with_bookings (bookings db ++ [booking]) (S (next_booking_id db)) db in
              (* session.pop('chatbot_booking', None) *)
              let sess' := mkFlask (fs_user_id sess1) None in
              (Replied (mkResponse
                          (if cash then BookingConfirmedCash booking
                           else BookingCreatedOnline booking)
                          None None
                          (if cash
                           then [mkButton "pay_online" VNone;
                                 mkButton "view_bookings" VNone]
                           else [mkButton "pay_online" VNone;
                                 mkButton "change_to_cash" VNone;
                                 mkButton "view_bookings" VNone])
                          None true),
               sess', db')
          end
    end.

(** The POST branch of the [chatbot] view, up to [confirm_and_pay]. *)
Definition chatbot (req : Request) (sess : FlaskSession) (db : DB)
  : Outcome * FlaskSession * DB :=
  let user_message := rq_message req in
  let action := rq_action req in
  let step := rq_step req in
  match fs_user_id sess with
  | None => (RedirectLogin, sess, db)
  | Some _ =>
      if negb (truthy (VStr user_message)) && negb (truthy action) then
        (Replied (reply PleaseAsk), sess, db)
      else if bool_decide (action = VStr "start_booking") then
        let '(o, sess') := start_booking sess in (o, sess', db)
      else if bool_decide (step = VStr "select_date")
              || bool_decide (action = VStr "select_date") then
        let '(o, sess') := select_date req sess db in (o, sess', db)
      else if bool_decide (step = VStr "select_time")
              || bool_decide (action = VStr "select_time") then
        let '(o, sess') := select_time req sess in (o, sess', db)
      else if bool_decide (step = VStr "select_visitors")
              || bool_decide (action = VStr "select_visitors") then
        let '(o, sess') := select_visitors req sess in (o, sess', db)
      else if bool_decide (action = VStr "confirm_and_pay") then
        confirm_and_pay req sess db
      else (OtherBranch, sess, db)
  end.


(** [api_availability]: the [slots] of the answer, [None] for the 400
    answer to a date that does not parse. *)
Definition api_availability (date_str : string) (db : DB) : option (list Availability) :=
  target_date ← strptime_ymd date_str;
  Some ((λ slot,
           let booked := booked_sum target_date (VStr slot) db in
           let capacity := capacity_of (VStr slot) in
           mkAvailability slot capacity booked (Z.max 0 (capacity - booked))
             (bool_decide (capacity ≤ booked))) <$> TIME_SLOTS).

(** [api_book]: [date_str], [time_slot] and [visitors] are the values of
    the JSON body ([visitors] is [None] when the key is absent). *)
Definition api_book (session_user : option nat) (date_str time_slot : pyval)
    (visitors : option pyval) (db : DB) : BookResult * DB :=
  match session_user with
  | None => (BookError 401 "login_required" None, db)
  | Some user_id =>
      match py_int (default (VInt 1) visitors) with
      | None => (BookRaised, db)
      | Some visitors =>
          if negb (truthy date_str) || negb (truthy time_slot) then
            (BookError 400 "missing_date_or_slot" None, db)
          else
            match match date_str with VStr s => strptime_ymd s | _ => None end with
            | None => (BookError 400 "invalid_date_format" None, db)
            | Some target_date =>
                if negb (bool_decide (time_slot ∈ VStr <$> TIME_SLOTS)) then
                  (BookError 400 "invalid_time_slot" None, db)
                else
                  let booked := booked_sum target_date time_slot db in
                  let capacity := capacity_of time_slot in
                  if bool_decide (booked + visitors > capacity) then
                    (BookError 409 "slot_full_or_not_enough_capacity"
                       (Some (Z.max 0 (capacity - booked))), db)
                  else
                    let booking :=
                      mkBooking (next_booking_id db) user_id target_date time_slot
                        visitors "pending" 0 None in
                    (Booked booking,
                     with_bookings (bookings db ++ [booking])
                       (S (next_booking_id db)) db)
            end
      end
  end.

(** The POST of [book_ticket]; the form fields are strings, [None] when
    absent.  The view is under [login_required]. *)
Definition book_ticket (session_user : option nat) (date_str time_slot : option string)
    (visitors : option string) (db : DB) : BookResult * DB :=
  match session_user with
  | None => (BookError 302 "login" None, db)
  | Some user_id =>
      match from_option py_int_of_string (Some 1) visitors with
      | None => (BookRaised, db)
      | Some visitors =>
          if negb (truthy_str date_str) || negb (truthy_str time_slot) then
            (BookError 200 "missing_date_or_slot" None, db)
          else
            match date_str ≫= strptime_ymd, time_slot with
            | Some target_date, Some slot =>
                if negb (bool_decide (slot ∈ TIME_SLOTS)) then
                  (BookError 200 "invalid_time_slot" None, db)
                else
                  let booked := booked_sum target_date (VStr slot) db in
                  let capacity := capacity_of (VStr slot) in
                  if bool_decide (booked + visitors > capacity) then
                    (BookError 200 "slot_full_or_not_enough_capacity" None, db)
                  else
                    let booking :=
                      mkBooking (next_booking_id db) user_id target_date (VStr slot)
                        visitors "pending" (visitors * TICKET_PRICE) None in
                    (Booked booking,
                     with_bookings (bookings db ++ [booking])
                       (S (next_booking_id db)) db)
            | _, _ => (BookError 200 "invalid_date_format" None, db)
            end
      end
  end.

End View.

(** [cancel_booking], under [login_required]: the booking of that id that
    belongs to the user is deleted. *)
Definition cancel_booking (session_user : option nat) (booking_id : nat) (db : DB)
  : BookResult * DB :=
  match session_user with
  | None => (BookError 302 "login" None, db)
  | Some user_id =>
      match head (filter (λ b, bk_id b = booking_id ∧ bk_user_id b = user_id)
                    (bookings db)) with
      | None => (BookError 404 "Booking not found" None, db)
      | Some booking =>
          (Cancelled,
           with_bookings (filter (λ b, bk_id b ≠ bk_id booking) (bookings db))
             (next_booking_id db) db)
      end
  end.

(** The step the stored dialogue state is in. *)
Definition stored_step (sess : FlaskSession) : option pyval :=
  d ← fs_chatbot_booking sess; d !! "step".

(** The step a response reports, if it is a response. *)
Definition reported_step (o : Outcome) : option string :=
  match o with
  | Replied r => rs_step r
  | _ => None
  end.

End App.

(** ** app.py: the WebSocket events *)


Module Sockets.


Section Chat.

Variable get_chatbot_response : string → string.


End Chat.

End Sockets.

(** ** Sequences of session operations *)

(** One call of [SessionManager.get_or_create_session]. *)
Record Call : Type := mkCall {
  c_env : Env;
  c_channel_name : string;
  c_user_id : option nat;
  c_channel_user_id : option string;
  c_context : option dict
}.

(** The world after a call; a call that raises leaves it as it was. *)
Definition after_call (w : World) (c : Call) : World :=
  match SessionManager.get_or_create_session (c_env c) (c_channel_name c)
          (c_user_id c) (c_channel_user_id c) (c_context c) w with
  | Some (_, w') => w'
  | None => w
  end.


(** The operations on sessions that the session manager and the channels
    offer. *)
Inductive Op : Type :=
| OpGetOrCreate (c : Call)
| OpCreate (c : Call)                    (* channel.create_session *)
| OpTransfer (env : Env) (sid : nat) (target : string) (cuid : option string)
| OpClose (env : Env) (sid : nat)
| OpUpdateContext (env : Env) (sid : nat) (updates : dict)
| OpSaveMessage (env : Env) (sid : nat) (content direction message_type : string)
| OpCleanup (now days_inactive : Z).

Definition after_op (w : World) (o : Op) : World :=
  match o with
  | OpGetOrCreate c => after_call w c
  | OpCreate c =>
      match SessionManager._get_channel (c_channel_name c) w with
      | Some (channel, w1) =>
          mkWorld (_channels w1)
            (BaseChannel.create_session channel (c_env c) (c_user_id c)
               (c_channel_user_id c) (c_context c) (w_db w1)).2
      | None => w
      end
  | OpTransfer env sid target cuid =>
      match SessionManager.transfer_session env sid target cuid w with
      | Some (_, w') => w'
      | None => w
      end
  | OpClose env sid => SessionManager.close_session env sid w
  | OpUpdateContext env sid updates =>
      default w (SessionManager.update_session_context env sid updates w)
  | OpSaveMessage env sid content direction message_type =>
      mkWorld (_channels w)
        (BaseChannel.save_message env sid content direction message_type None None
           (w_db w)).2
  | OpCleanup now days_inactive =>
      mkWorld (_channels w)
        (SessionManager.cleanup_old_sessions now days_inactive (w_db w)).2
  end.


(** The sessions of the store that are active for an identity on a
    channel. *)
Definition active_for (channel_id : nat) (channel_user_id : option string) (db : DB)
  : list ConversationSession :=
  filter (λ s, cs_channel_id s = channel_id
               ∧ cs_channel_user_id s = channel_user_id
               ∧ cs_status s = "active") (sessions db).

(** ** Predicates and sample states of the properties *)

(** At most one active session for an identity on a channel. *)
Definition at_most_one_active (channel_id : nat) (channel_user_id : option string)
    (db : DB) : Prop :=
  (length (active_for channel_id channel_user_id db) ≤ 1)%nat.


#[global] Instance newest_first_total : Total SessionManager.newest_first.
Proof. intros a b. unfold SessionManager.newest_first. lia. Qed.

#[global] Instance newest_first_trans : Transitive SessionManager.newest_first.
Proof. intros a b c. unfold SessionManager.newest_first. lia. Qed.

(** Oldest first: creation times do not decrease. *)
Definition oldest_first (a b : ConversationMessage) : Prop :=
  cm_created_at a ≤ cm_created_at b.

(** The stored dialogue state left by [start_booking]. *)
Definition awaiting_date : FlaskSession :=
  mkFlask (Some 7%nat)
    (Some (<["step" := VStr "select_date"]>
             (<["date" := VNone]> (<["time_slot" := VNone]> {["visitors" := VNone]})))).

(** The stored dialogue state left by the [select_time] step for a visit
    tomorrow at 9AM. *)
Definition awaiting_visitors : FlaskSession :=
  mkFlask (Some 7%nat)
    (Some (<["step" := VStr "select_visitors"]>
             (<["date" := VStr "tomorrow"]>
                (<["time_slot" := VStr "9AM–10AM"]> {["visitors" := VNone]})))).

(** The request [{"action": "select_visitors", "visitors": v}]. *)
Definition submit_visitors (v : pyval) : Request :=
  mkRequest "" (VStr "select_visitors") VNone ∅ VNone VNone v VNone.

(** The stored dialogue state left by [select_visitors] for ten visitors
    today at 9AM. *)
Definition awaiting_confirmation : FlaskSession :=
  mkFlask (Some 7%nat)
    (Some (<["step" := VStr "confirm_booking"]>
             (<["date" := VStr "today"]>
                (<["time_slot" := VStr "9AM–10AM"]> {["visitors" := VInt 10]})))).


(** A store with fifteen visitors booked for the 9AM slot of the day. *)
Definition fifteen_booked (day : Z) : DB :=
  with_bookings [mkBooking 1 3 day (VStr "9AM–10AM") 15 "paid" 1500 None] 2 empty_db.

(** The channel table and the manager's cache agree: names and keys of
    the channel rows are unique, the keys were handed out by the store,
    and a cached key is the key of the row of that name. *)
Definition registry_ok (w : World) : Prop :=
  NoDup (ch_name <$> channels (w_db w))
  ∧ NoDup (ch_id <$> channels (w_db w))
  ∧ Forall (λ c, (ch_id c < next_channel_id (w_db w))%nat) (channels (w_db w))
  ∧ ∀ name cid, _channels w !! name = Some cid →
      ∃ c, c ∈ channels (w_db w) ∧ ch_name c = name ∧ ch_id c = cid.

#[global] Instance latest_activity_first_total :
  Total SessionManager.latest_activity_first.
Proof. intros a b. unfold SessionManager.latest_activity_first. lia. Qed.

#[global] Instance latest_activity_first_trans :
  Transitive SessionManager.latest_activity_first.
Proof. intros a b c. unfold SessionManager.latest_activity_first. lia. Qed.

(** No slot of any day holds more visitors than its capacity. *)
Definition never_overbooked (db : DB) : Prop :=
  ∀ target_date slot, App.booked_sum target_date slot db ≤ App.capacity_of slot.

(** The requests that create bookings: the wizard's [confirm_and_pay],
    [/api/book] and the booking form. *)
Inductive BookingOp : Type :=
| ByWizard (req : Request) (sess : FlaskSession)
| ByApi (session_user : option nat) (date_str time_slot : pyval) (visitors : option pyval)
| ByForm (session_user : option nat) (date_str time_slot visitors : option string).

Definition after_booking (strptime_ymd : string → option Z) (today : Z) (db : DB)
    (o : BookingOp) : DB :=
  match o with
  | ByWizard req sess => (App.confirm_and_pay strptime_ymd today req sess db).2
  | ByApi session_user date_str time_slot visitors =>
      (App.api_book strptime_ymd session_user date_str time_slot visitors db).2
  | ByForm session_user date_str time_slot visitors =>
      (App.book_ticket strptime_ymd session_user date_str time_slot visitors db).2
  end.

(** The primary keys of the session rows are unique and were handed out
    by the store. *)
Definition sessions_ok (db : DB) : Prop :=
  NoDup (cs_id <$> sessions db)
  ∧ Forall (λ s, (cs_id s < next_session_id db)%nat) (sessions db).

(** A request of the wizard that carries only an action and the values
    of its step. *)
Definition wizard_request (action : string) (date time_slot visitors payment_type : pyval)
  : Request :=
  mkRequest "" (VStr action) VNone ∅ date time_slot visitors payment_type.

(** * Properties *)

(** ** Lookups and creation *)

Lemma first_by_desc_elem_of {A : Type} (key : A → Z) (l : list A) (x : A) :
  first_by_desc key l = Some x → x ∈ l.
Proof.
  revert x. induction l as [|a l IH]; intros x; simpl; [done|].
  destruct (first_by_desc key l) as [y|] eqn:E.
  - destruct (key a <? key y); intros [= <-]; [right; by apply IH | left].
  - intros [= <-]. left.
Qed.

Lemma first_by_desc_None {A : Type} (key : A → Z) (l : list A) :
  first_by_desc key l = None → l = [].
Proof.
  destruct l as [|a l]; simpl; [done|].
  destruct (first_by_desc key l) as [y|]; [destruct (key a <? key y)|]; done.
Qed.

(** The row that is returned has the latest activity: the lookup
    targets the most recently active session. *)
Lemma first_by_desc_greatest {A : Type} (key : A → Z) (l : list A) (x y : A) :
  first_by_desc key l = Some x → y ∈ l → key y ≤ key x.
Proof.
  revert x. induction l as [|a l IH]; intros x; simpl; [done|].
  destruct (first_by_desc key l) as [m|] eqn:E.
  - destruct (key a <? key m) eqn:Hlt; intros [= <-] Hy;
      apply elem_of_cons in Hy as [->|Hy].
    + apply Z.ltb_lt in Hlt. lia.
    + by apply IH.
    + lia.
    + apply Z.ltb_ge in Hlt. specialize (IH m eq_refl Hy). lia.
  - intros [= <-] Hy. apply first_by_desc_None in E as ->.
    apply elem_of_cons in Hy as [->|Hy]; [lia | by apply elem_of_nil in Hy].
Qed.

(** What a lookup by channel identity returns. *)
Lemma get_session_by_identity channel_db_id channel_user_id db s :
  BaseChannel.get_session channel_db_id None channel_user_id db = Some s →
  s ∈ sessions db ∧ cs_channel_user_id s = channel_user_id
  ∧ cs_channel_id s = channel_db_id ∧ cs_status s = "active".
Proof.
  unfold BaseChannel.get_session. simpl.
  destruct (truthy_str channel_user_id); [|done].
  intros H%first_by_desc_elem_of.
  apply list_elem_of_filter in H as [(? & ? & ?) ?]. done.
Qed.

Lemma get_session_by_identity_None channel_db_id channel_user_id db :
  truthy_str channel_user_id = true →
  BaseChannel.get_session channel_db_id None channel_user_id db = None →
  active_for channel_db_id channel_user_id db = [].
Proof.
  unfold BaseChannel.get_session, active_for. simpl. intros ->.
  intros H%first_by_desc_None.
  induction (sessions db) as [|a l IH]; [done|].
  rewrite filter_cons in H. rewrite filter_cons.
  destruct (decide _) as [(? & ? & ?)|Hn] in H; [done|].
  rewrite decide_False by (intros (? & ? & ?); by apply Hn).
  by apply IH.
Qed.

Lemma create_session_result channel_db_id env user_id channel_user_id context db :
  let r := BaseChannel.create_session channel_db_id env user_id channel_user_id
             context db in
  sessions r.2 = sessions db ++ [r.1]
  ∧ cs_id r.1 = next_session_id db
  ∧ next_session_id r.2 = S (next_session_id db)
  ∧ cs_channel_id r.1 = channel_db_id
  ∧ cs_channel_user_id r.1 = channel_user_id
  ∧ cs_user_id r.1 = user_id
  ∧ cs_status r.1 = "active"
  ∧ cs_context r.1 = context.
Proof.
  unfold BaseChannel.create_session. simpl.
  destruct context as [d|]; simpl; [|done].
  destruct (truthy_dict d); done.
Qed.

Arguments BaseChannel.create_session : simpl never.

Lemma get_channel_sessions channel_name w channel w1 :
  SessionManager._get_channel channel_name w = Some (channel, w1) →
  sessions (w_db w1) = sessions (w_db w)
  ∧ next_session_id (w_db w1) = next_session_id (w_db w).
Proof.
  unfold SessionManager._get_channel, BaseChannel._get_or_create_channel.
  destruct (_channels w !! channel_name); [by intros [= _ <-]|].
  destruct (SessionManager.channel_type_of channel_name); [|done].
  destruct (head _); by intros [= _ <-].
Qed.


(** ** At most one active session per identity *)





(** ** The result of [get_or_create_session] is active *)



(** ** Updates and deletions of session rows *)


Lemma update_session_elem_of now sid f db s :
  s ∈ sessions db → cs_id s ≠ sid → s ∈ sessions (update_session now sid f db).
Proof.
  intros Hs Hne. unfold update_session. simpl.
  apply list_elem_of_fmap. exists s. by rewrite bool_decide_eq_false_2.
Qed.




(** ** Transfer *)







Lemma find_session_Some sid db s :
  find_session sid db = Some s → s ∈ sessions db ∧ cs_id s = sid.
Proof.
  unfold find_session. intros H%head_Some_elem_of.
  by apply list_elem_of_filter in H as [? ?].
Qed.




(** ** Cleanup *)

Lemma NoDup_fmap_eq {A B : Type} (f : A → B) (l : list A) (x y : A) :
  NoDup (f <$> l) → x ∈ l → y ∈ l → f x = f y → x = y.
Proof.
  induction l as [|a l IH]; intros Hnd Hx Hy Hf; [by apply elem_of_nil in Hx|].
  rewrite fmap_cons in Hnd. apply NoDup_cons in Hnd as [Ha Hnd].
  apply elem_of_cons in Hx as [->|Hx]; apply elem_of_cons in Hy as [->|Hy].
  - done.
  - exfalso. apply Ha. rewrite Hf. by apply list_elem_of_fmap_2.
  - exfalso. apply Ha. rewrite <- Hf. by apply list_elem_of_fmap_2.
  - by apply IH.
Qed.





(** ** History *)

(** C6: the history has at most [limit] messages, all of the session and
    of the store, in non-decreasing order of creation time, whatever the
    order of the rows in the store. *)
Theorem get_conversation_history_chronological sid limit db :
  let h := SessionManager.get_conversation_history sid limit db in
  (length h ≤ limit)%nat
  ∧ StronglySorted oldest_first h
  ∧ Forall (λ m, m ∈ messages db ∧ cm_session_id m = sid) h.
Proof.
  unfold SessionManager.get_conversation_history. cbv zeta.
  set (l := merge_sort _ _).
  assert (StronglySorted SessionManager.newest_first l) as Hl
    by (apply StronglySorted_merge_sort; apply _).
  split_and!.
  - rewrite length_reverse, length_take. lia.
  - apply Sorted_StronglySorted.
    { intros a b c. unfold oldest_first. lia. }
    apply (Sorted_reverse SessionManager.newest_first).
    apply StronglySorted_Sorted.
    rewrite <- (take_drop limit l) in Hl. by apply StronglySorted_app_1_l in Hl.
  - apply Forall_reverse, Forall_take, Forall_forall. intros m Hm.
    subst l. rewrite merge_sort_Permutation in Hm.
    apply list_elem_of_filter in Hm as [? ?]. done.
Qed.

(** ** Token authentication *)

Lemma is_valid_expired now t e :
  at_expires_at t = Some e → e < now → is_valid now t = false.
Proof.
  intros He Hlt. unfold is_valid. rewrite He.
  destruct (negb (at_is_active t)); [done|].
  by rewrite (proj2 (Z.ltb_lt e now) Hlt).
Qed.

(** C7: a token whose [expires_at] is before the time of the call is not
    accepted, whatever its [is_active] flag, and the store is left as it
    was; and whenever [authenticate] changes the store or returns a user,
    a matching active token passed [is_valid], the result is that
    token's user, and the change is the write of [last_used] on it. *)
Theorem authenticate_rejects_expired :
  (∀ channel_db_id now db t e,
     NoDup (at_token <$> tokens db) →
     t ∈ tokens db → at_expires_at t = Some e → e < now →
     WebsiteChannel.authenticate channel_db_id now (Some (at_token t)) db = (None, db))
  ∧ (∀ channel_db_id now token db,
       let r := WebsiteChannel.authenticate channel_db_id now token db in
       r = (None, db)
       ∨ ∃ t, t ∈ tokens db
              ∧ Some (at_token t) = token
              ∧ at_channel_id t = Some channel_db_id
              ∧ is_valid now t = true
              ∧ r.1 = at_user_id t
              ∧ r.2 = with_tokens
                        ((λ t', if bool_decide (at_id t' = at_id t)
                                then set_last_used now t' else t') <$> tokens db)
                        db).
Proof.
  split.
  - intros channel_db_id now db t e Hnd Ht He Hlt.
    unfold WebsiteChannel.authenticate.
    destruct (negb (truthy_str (Some (at_token t)))); [done|].
    destruct (head _) as [t'|] eqn:Hh; [|done].
    apply head_Some_elem_of, list_elem_of_filter in Hh as [([= Htok] & _ & _) Ht'].
    assert (t' = t) as -> by by apply (NoDup_fmap_eq at_token (tokens db)).
    by rewrite (is_valid_expired now t e He Hlt).
  - intros channel_db_id now token db. cbv zeta.
    unfold WebsiteChannel.authenticate.
    destruct (negb (truthy_str token)); [by left|].
    destruct (head _) as [t|] eqn:Hh; [|by left].
    destruct (is_valid now t) eqn:Hv; [|by left].
    apply head_Some_elem_of, list_elem_of_filter in Hh as [(Htok & Hch & _) Ht].
    right. exists t. by split_and!.
Qed.

Lemma authenticate_rejects_expired_witness :
  let expired := mkToken 1 "tok-1" (Some 7%nat) (Some 1%nat) (Some 100) true None in
  let db := with_tokens [expired] empty_db in
  WebsiteChannel.authenticate 1 200 (Some "tok-1") db = (None, db).
Proof.
  intros expired db.
  apply (proj1 authenticate_rejects_expired 1%nat 200 db expired 100).
  - by apply (bool_decide_unpack _).
  - left.
  - reflexivity.
  - reflexivity.
Defined.

(** ** The Instagram webhook handshake *)

(** C8: [authenticate] returns the challenge when [mode] is 'subscribe'
    and [verify_token] equals the configured verify token, and [None] in
    every other case; for a challenge that is present this is an
    equivalence. *)
Theorem instagram_authenticate_challenge secret verify_token mode challenge :
  (mode = Some "subscribe" ∧ verify_token = secret →
   InstagramChannel.authenticate secret verify_token mode challenge = challenge)
  ∧ (¬ (mode = Some "subscribe" ∧ verify_token = secret) →
     InstagramChannel.authenticate secret verify_token mode challenge = None)
  ∧ (∀ c, InstagramChannel.authenticate secret verify_token mode (Some c) = Some c
          ↔ mode = Some "subscribe" ∧ verify_token = secret).
Proof.
  unfold InstagramChannel.authenticate.
  destruct (decide (mode = Some "subscribe")) as [Hm|Hm],
           (decide (verify_token = secret)) as [Hv|Hv].
  - rewrite !bool_decide_eq_true_2 by done. simpl. split_and!; [done|tauto|done].
  - rewrite bool_decide_eq_true_2, bool_decide_eq_false_2 by done. simpl.
    split_and!; [tauto|done|]. intros c. split; [done|tauto].
  - rewrite bool_decide_eq_false_2 by done. simpl.
    split_and!; [tauto|done|]. intros c. split; [done|tauto].
  - rewrite bool_decide_eq_false_2 by done. simpl.
    split_and!; [tauto|done|]. intros c. split; [done|tauto].
Qed.

Lemma instagram_authenticate_challenge_witness :
  InstagramChannel.authenticate (Some "s3cret") (Some "s3cret") (Some "subscribe")
    (Some "1158201444") = Some "1158201444"
  ∧ InstagramChannel.authenticate (Some "s3cret") (Some "guess") (Some "subscribe")
      (Some "1158201444") = None.
Proof.
  split.
  - apply (proj1 (instagram_authenticate_challenge (Some "s3cret") (Some "s3cret")
                    (Some "subscribe") (Some "1158201444"))). by split.
  - apply (proj1 (proj2 (instagram_authenticate_challenge (Some "s3cret") (Some "guess")
                           (Some "subscribe") (Some "1158201444")))).
    intros [_ [=]].
Defined.

(** ** The booking wizard *)

(** What [select_visitors] does with the count that [int(...)] yields:
    outside [1,10] the request is answered with the re-prompt and the
    session is left as it was; inside, the stored state records the count
    and moves to [confirm_booking]. *)
Lemma select_visitors_on_count sp today req sess visitors :
  py_int (py_or (rq_visitors req)
            (py_or (dict_get (rq_booking_data req) "visitors") (VInt 1))) = Some visitors →
  (visitors < 1 ∨ visitors > 10 →
   App.select_visitors sp today req sess = (Replied (App.reply Between1And10), sess))
  ∧ (1 ≤ visitors ≤ 10 →
     ∀ d, fs_chatbot_booking sess = Some d →
       ∃ r, App.select_visitors sp today req sess
            = (Replied r,
               App.set_booking
                 (<["step" := VStr "confirm_booking"]> (<["visitors" := VInt visitors]> d))
                 sess)
            ∧ rs_step r = Some "confirm_booking").
Proof.
  intros Hv. unfold App.select_visitors. rewrite Hv. split.
  - intros Hout. repeat case_bool_decide; simpl; try done; lia.
  - intros Hin d Hd.
    rewrite !bool_decide_eq_false_2 by lia. simpl. rewrite Hd.
    eexists. split; reflexivity.
Qed.

(** A submitted count that is a non-zero integer is the count that is
    checked. *)
Lemma select_visitors_nonzero_int sp today req sess n :
  rq_visitors req = VInt n → n ≠ 0 →
  (n < 1 ∨ n > 10 →
   App.select_visitors sp today req sess = (Replied (App.reply Between1And10), sess))
  ∧ (1 ≤ n ≤ 10 →
     ∀ d, fs_chatbot_booking sess = Some d →
       App.stored_step (App.select_visitors sp today req sess).2
       = Some (VStr "confirm_booking")).
Proof.
  intros Hr Hn.
  assert (py_int (py_or (rq_visitors req)
                    (py_or (dict_get (rq_booking_data req) "visitors") (VInt 1))) = Some n)
    as Hv.
  { rewrite Hr. unfold py_or. simpl. by rewrite (proj2 (Z.eqb_neq n 0) Hn). }
  destruct (select_visitors_on_count sp today req sess n Hv) as [Hout Hin].
  split; [done|].
  intros Hrange d Hd. destruct (Hin Hrange d Hd) as (r & -> & _).
  unfold App.stored_step. simpl. by rewrite lookup_insert_eq.
Qed.

(** C9, where the code departs from it: the JSON number 0 is a count
    outside [1,10], yet it is falsy, so [or] replaces it by the default 1;
    the request is accepted, the stored state moves to [confirm_booking]
    and records one visitor.  (The string '0' is rejected, as are all
    other integers outside the range.) *)
Theorem select_visitors_zero_is_accepted sp iso today :
  let r := App.chatbot sp iso today (submit_visitors (VInt 0)) awaiting_visitors empty_db in
  App.reported_step r.1.1 = Some "confirm_booking"
  ∧ App.stored_step r.1.2 = Some (VStr "confirm_booking")
  ∧ (d ← fs_chatbot_booking r.1.2; d !! "visitors") = Some (VInt 1)
  ∧ App.stored_step
      (App.chatbot sp iso today (submit_visitors (VStr "0")) awaiting_visitors empty_db).1.2
    = Some (VStr "select_visitors")
  ∧ App.stored_step
      (App.chatbot sp iso today (submit_visitors (VInt 11)) awaiting_visitors empty_db).1.2
    = Some (VStr "select_visitors").
Proof.
  cbv zeta. split_and!; vm_compute; reflexivity.
Qed.




(** C3: at the final check of [confirm_and_pay],
    - whatever the request and the session, a booking is added to the
      store only if the visitors already booked for its date and slot
      plus its own visitors do not exceed the capacity of the slot, and
      at most one is added;
    - when the dialogue state holds a date that parses, a slot and a
      visitor count, and the booked visitors plus that count exceed the
      capacity, no booking is created, the response reports the places
      that remain and step [select_time], and the stored dialogue state
      is kept;
    - otherwise, under the same conditions, the booking is created. *)
Theorem confirm_and_pay_checks_capacity :
  (∀ sp today req sess db,
     let r := App.confirm_and_pay sp today req sess db in
     r.2 = db
     ∨ ∃ b, bookings r.2 = bookings db ++ [b]
            ∧ App.booked_sum (bk_date b) (bk_time_slot b) db + bk_visitors b
              ≤ App.capacity_of (bk_time_slot b))
  ∧ (∀ sp today req sess db uid date_str time_slot visitors target_date,
       let booking_info := dict_update (App.booking_or_empty sess) (rq_booking_data req) in
       let sess1 :=
         if truthy_dict (rq_booking_data req) then App.set_booking booking_info sess
         else sess in
       let booked := App.booked_sum target_date time_slot db in
       let capacity := App.capacity_of time_slot in
       fs_user_id sess = Some uid →
       dict_get booking_info "date" = date_str → truthy date_str = true →
       dict_get booking_info "time_slot" = time_slot → truthy time_slot = true →
       dict_get booking_info "visitors" = VInt visitors → visitors ≠ 0 →
       App.date_or_raise sp today date_str = Some target_date →
       (booked + visitors > capacity →
        App.confirm_and_pay sp today req sess db
        = (Replied (mkResponse
                      (OnlySpotsAvailable (Z.max 0 (capacity - booked)) time_slot)
                      (Some "select_time") None
                      [mkButton "select_date" date_str; mkButton "start_booking" VNone]
                      None false),
           sess1, db))
       ∧ (booked + visitors ≤ capacity →
          ∃ resp b,
            App.confirm_and_pay sp today req sess db
            = (Replied resp,
               mkFlask (Some uid) None,
               with_bookings (bookings db ++ [b]) (S (next_booking_id db)) db)
            ∧ rs_success resp = true
            ∧ bk_user_id b = uid ∧ bk_date b = target_date
            ∧ bk_time_slot b = time_slot ∧ bk_visitors b = visitors)).
Proof.
  split.
  - intros sp today req sess db. cbv zeta. unfold App.confirm_and_pay.
    repeat case_match; simpl; try (by left).
    all: right; eexists; split; [reflexivity|]; simpl.
    all: match goal with H : bool_decide (_ > _) = false |- _ =>
           apply bool_decide_eq_false in H; lia end.
  - intros sp today req sess db uid date_str time_slot visitors target_date
      booking_info sess1 booked capacity Hu Hd Hdt Ht Htt Hv Hv0 Hp.
    assert (truthy (VInt visitors) = true) as Hvt
      by (simpl; by rewrite (proj2 (Z.eqb_neq visitors 0) Hv0)).
    unfold App.confirm_and_pay.
    assert ((if truthy_dict (rq_booking_data req)
             then (dict_update (App.booking_or_empty sess) (rq_booking_data req),
                   App.set_booking
                     (dict_update (App.booking_or_empty sess) (rq_booking_data req)) sess)
             else (App.booking_or_empty sess, sess)) = (booking_info, sess1)) as ->.
    { subst booking_info sess1. destruct (truthy_dict (rq_booking_data req)) eqn:E; [done|].
      f_equal. unfold truthy_dict in E.
      apply negb_false_iff, bool_decide_eq_true in E. rewrite E.
      unfold dict_update. by rewrite (left_id_L ∅ (∪)). }
    assert (∀ x, py_or (dict_get booking_info "date") x = date_str) as E1
      by (intros x; unfold py_or; by rewrite Hd, Hdt).
    assert (∀ x, py_or (dict_get booking_info "time_slot") x = time_slot) as E2
      by (intros x; unfold py_or; by rewrite Ht, Htt).
    assert (∀ x, py_or (dict_get booking_info "visitors") x = VInt visitors) as E3
      by (intros x; unfold py_or; by rewrite Hv, Hvt).
    cbv beta iota zeta. rewrite E1, E2, E3, Hdt, Htt.
    cbn [negb orb py_int default]. rewrite Hdt, Htt. cbn [negb orb]. rewrite Hp.
    change (id visitors) with visitors.
    assert (fs_user_id sess1 = Some uid) as Hu1
      by (subst sess1; by destruct (truthy_dict _)).
    fold booked capacity. split.
    + intros Hex. by rewrite bool_decide_eq_true_2.
    + intros Hfit. rewrite bool_decide_eq_false_2 by lia. rewrite Hu1.
      eexists _, _. split; [reflexivity|]. by split_and!.
Qed.

Lemma confirm_and_pay_checks_capacity_witness :
  App.confirm_and_pay (λ _, None) 739000
    (mkRequest "" (VStr "confirm_and_pay") VNone ∅ VNone VNone VNone (VStr "cash"))
    awaiting_confirmation (fifteen_booked 739000)
  = (Replied (mkResponse (OnlySpotsAvailable 5 (VStr "9AM–10AM"))
                (Some "select_time") None
                [mkButton "select_date" (VStr "today"); mkButton "start_booking" VNone]
                None false),
     awaiting_confirmation, fifteen_booked 739000).
Proof.
  unshelve epose proof
    (proj1 (proj2 confirm_and_pay_checks_capacity (λ _, None) 739000
              (mkRequest "" (VStr "confirm_and_pay") VNone ∅ VNone VNone VNone
                 (VStr "cash"))
              awaiting_confirmation (fifteen_booked 739000) 7%nat
              (VStr "today") (VStr "9AM–10AM") 10 739000 _ _ _ _ _ _ _ _)) as H;
    [vm_compute; reflexivity .. | discriminate | vm_compute; reflexivity | ].
  vm_compute in H. vm_compute. apply H. reflexivity.
Defined.

(** * Further properties *)

(** ** Rows under updates *)

Lemma filter_fmap_commute {A : Type} (P : A → Prop) `{∀ x, Decision (P x)}
    (f : A → A) (l : list A) :
  (∀ x, P (f x) ↔ P x) → filter P (f <$> l) = f <$> filter P l.
Proof.
  intros Hf. induction l as [|a l IH]; [done|].
  rewrite fmap_cons, !filter_cons, IH.
  destruct (decide (P (f a))) as [H1|H1], (decide (P a)) as [H2|H2]; try done.
  - exfalso. by apply H2, Hf.
  - exfalso. by apply H1, Hf.
Qed.

Lemma filter_nothing {A : Type} (P : A → Prop) `{∀ x, Decision (P x)} (l : list A) :
  (∀ x, x ∈ l → ¬ P x) → filter P l = [].
Proof.
  induction l as [|a l IH]; intros Hn; [done|].
  rewrite filter_cons, decide_False by (apply Hn; left).
  apply IH. intros x Hx. apply Hn. by right.
Qed.

Lemma head_fmap_list {A B : Type} (f : A → B) (l : list A) :
  head (f <$> l) = f <$> head l.
Proof. by destruct l. Qed.

(** The row transformer of [update_session]. *)
Lemma update_session_rows now sid f db :
  sessions (update_session now sid f db)
  = (λ s, if bool_decide (cs_id s = sid)
          then (if bool_decide (f s = s) then s else set_updated_at now (f s))
          else s) <$> sessions db.
Proof. done. Qed.

Lemma create_session_stamps channel_db_id env user_id channel_user_id context db :
  let s := (BaseChannel.create_session channel_db_id env user_id channel_user_id
              context db).1 in
  cs_session_id s = env_uuid env ∧ cs_last_activity s = env_now env
  ∧ cs_created_at s = env_now env.
Proof.
  unfold BaseChannel.create_session. simpl.
  destruct context as [d|]; simpl; [|done].
  destruct (truthy_dict d); done.
Qed.

(** ** Lookup by session_id *)

(** X1: a session just created is found by its session_id, whatever
    channel_user_id is passed along, provided the id is non-empty and not
    that of an earlier session of the channel; and it is still found,
    with status 'closed', after [close_session]: the lookup by session_id
    does not look at the status. *)
Theorem created_session_found_by_session_id
    channel_db_id env env' user_id channel_user_id context db any_user chs :
  env_uuid env ≠ "" →
  (∀ s, s ∈ sessions db → cs_channel_id s = channel_db_id →
        cs_session_id s ≠ env_uuid env) →
  let r := BaseChannel.create_session channel_db_id env user_id channel_user_id
             context db in
  BaseChannel.get_session channel_db_id (Some (env_uuid env)) any_user r.2 = Some r.1
  ∧ ∃ s', BaseChannel.get_session channel_db_id (Some (env_uuid env)) any_user
            (w_db (SessionManager.close_session env' (cs_id r.1) (mkWorld chs r.2)))
          = Some s'
          ∧ cs_id s' = cs_id r.1 ∧ cs_status s' = "closed"
          ∧ cs_updated_at s' = env_now env'.
Proof.
  intros Hne Hfresh r.
  pose proof (create_session_result channel_db_id env user_id channel_user_id
                context db) as Hr.
  pose proof (create_session_stamps channel_db_id env user_id channel_user_id
                context db) as Hs.
  cbv zeta in Hr, Hs. fold r in Hr, Hs.
  destruct Hr as (Hss & Hid & _ & Hch & _ & _ & Hst & _). destruct Hs as (Huuid & _).
  clearbody r. destruct r as [s db1]. cbn [fst snd] in *.
  assert (filter (λ s, Some (cs_session_id s) = Some (env_uuid env)
                       ∧ cs_channel_id s = channel_db_id) (sessions db1) = [s]) as Hf.
  { rewrite Hss, filter_app.
    assert (filter (λ s, Some (cs_session_id s) = Some (env_uuid env)
                         ∧ cs_channel_id s = channel_db_id) (sessions db) = []) as ->.
    { apply filter_nothing. intros s0 Hs [[= Hu] Hc]. by apply (Hfresh s0). }
    rewrite filter_cons, decide_True by (by rewrite Huuid, Hch). done. }
  unfold BaseChannel.get_session. simpl truthy_str.
  rewrite bool_decide_eq_false_2 by done. simpl negb. cbv iota.
  split; [by rewrite Hf|].
  unfold SessionManager.close_session. cbn [w_db].
  rewrite update_session_rows, filter_fmap_commute, Hf.
  - simpl. rewrite bool_decide_eq_true_2 by done.
    rewrite bool_decide_eq_false_2.
    + eexists. split; [done|]. done.
    + destruct s; simpl in *. intros [= ? ?]. by subst.
  - intros x. repeat case_bool_decide; done.
Qed.

Lemma created_session_found_by_session_id_witness :
  let r := BaseChannel.create_session 1 (mkEnv 10 "u-1") (Some 7%nat) (Some "7") None
             empty_db in
  BaseChannel.get_session 1 (Some "u-1") None r.2 = Some r.1.
Proof.
  intros r.
  apply (proj1 (created_session_found_by_session_id 1 (mkEnv 10 "u-1") (mkEnv 20 "")
                  (Some 7%nat) (Some "7") None empty_db None ∅
                  ltac:(discriminate)
                  ltac:(intros s Hs; by apply elem_of_nil in Hs))).
Defined.

(** ** Creation and the identity lookup *)

(** X2: after [create_session] for a non-empty channel_user_id, at a time
    later than the last activity of every session in the store, the
    lookup by that identity on that channel returns the session just
    created (the most recently active one). *)
Theorem created_session_found_by_identity channel_db_id env user_id u context db :
  u ≠ "" →
  (∀ s, s ∈ sessions db → cs_last_activity s < env_now env) →
  let r := BaseChannel.create_session channel_db_id env user_id (Some u) context db in
  BaseChannel.get_session channel_db_id None (Some u) r.2 = Some r.1.
Proof.
  intros Hu Hold r.
  pose proof (create_session_result channel_db_id env user_id (Some u) context db) as Hr.
  pose proof (create_session_stamps channel_db_id env user_id (Some u) context db) as Hs.
  cbv zeta in Hr, Hs. fold r in Hr, Hs.
  destruct Hr as (Hss & _ & _ & Hch & Hcu & _ & Hst & _). destruct Hs as (_ & Hla & _).
  clearbody r. destruct r as [s db1]. cbn [fst snd] in *.
  unfold BaseChannel.get_session. simpl.
  rewrite bool_decide_eq_false_2 by done. simpl.
  rewrite Hss, filter_app, (filter_cons _ s), decide_True by done.
  rewrite filter_nil.
  destruct (first_by_desc cs_last_activity _) as [x|] eqn:Hx.
  - pose proof (first_by_desc_elem_of _ _ _ Hx) as Hin.
    pose proof (first_by_desc_greatest _ _ x s Hx) as Hge.
    apply elem_of_app in Hin as [Hin|Hin].
    + apply list_elem_of_filter in Hin as [_ Hin]. apply Hold in Hin.
      assert (cs_last_activity s ≤ cs_last_activity x)
        by (apply Hge, elem_of_app; right; left).
      lia.
    + apply list_elem_of_singleton in Hin. by subst.
  - apply first_by_desc_None in Hx. by destruct (filter _ (sessions db)).
Qed.

Lemma created_session_found_by_identity_witness :
  let r := BaseChannel.create_session 1 (mkEnv 10 "u-1") None (Some "ig-42") None
             empty_db in
  BaseChannel.get_session 1 None (Some "ig-42") r.2 = Some r.1.
Proof.
  intros r.
  apply (created_session_found_by_identity 1 (mkEnv 10 "u-1") None "ig-42" None empty_db
           ltac:(discriminate)
           ltac:(intros s Hs; by apply elem_of_nil in Hs)).
Defined.

(** ** Messages and history *)

Lemma save_message_result env sid content direction message_type content_url
    channel_message_id db :
  let r := BaseChannel.save_message env sid content direction message_type
             content_url channel_message_id db in
  messages r.2 = messages db ++ [r.1]
  ∧ r.1 = mkMessage (next_message_id db) sid message_type direction content
            content_url channel_message_id (env_now env)
  ∧ sessions r.2 = sessions (update_session (env_now env) sid
                               (set_last_activity (env_now env)) db)
  ∧ next_message_id r.2 = S (next_message_id db)
  ∧ next_session_id r.2 = next_session_id db
  ∧ channels r.2 = channels db ∧ tokens r.2 = tokens db ∧ bookings r.2 = bookings db.
Proof. done. Qed.

Arguments BaseChannel.save_message : simpl never.

(** The head of a list sorted newest first is its newest message. *)
Lemma newest_first_head (l : list ConversationMessage) (m : ConversationMessage) :
  StronglySorted SessionManager.newest_first l →
  m ∈ l → (∀ x, x ∈ l → x ≠ m → cm_created_at x < cm_created_at m) →
  head l = Some m.
Proof.
  intros Hs Hm Hlt. destruct l as [|h t]; [by apply elem_of_nil in Hm|].
  simpl. f_equal. destruct (decide (h = m)) as [|Hne]; [done|].
  exfalso. apply StronglySorted_inv in Hs as [_ Hall].
  apply elem_of_cons in Hm as [->|Hm]; [done|].
  rewrite Forall_forall in Hall. specialize (Hall m Hm).
  unfold SessionManager.newest_first in Hall.
  specialize (Hlt h ltac:(left) Hne). lia.
Qed.

(** X3: a message saved at a time later than every message of the
    session is the last entry of the session's history, for every limit
    of at least one; the history of every other session is as before. *)
Theorem saved_message_ends_history env sid content direction message_type content_url
    channel_message_id db limit :
  (∀ m, m ∈ messages db → cm_session_id m = sid → cm_created_at m < env_now env) →
  let r := BaseChannel.save_message env sid content direction message_type
             content_url channel_message_id db in
  last (SessionManager.get_conversation_history sid (S limit) r.2) = Some r.1
  ∧ cm_content r.1 = content ∧ cm_direction r.1 = direction
  ∧ ∀ sid' limit', sid' ≠ sid →
      SessionManager.get_conversation_history sid' limit' r.2
      = SessionManager.get_conversation_history sid' limit' db.
Proof.
  intros Hold r.
  pose proof (save_message_result env sid content direction message_type content_url
                channel_message_id db) as Hr.
  cbv zeta in Hr. fold r in Hr. destruct Hr as (Hm & Hnew & _).
  clearbody r. destruct r as [m db1]. cbn [fst snd] in *.
  split_and!.
  - unfold SessionManager.get_conversation_history.
    rewrite last_reverse, Hm, filter_app, (filter_cons _ m), decide_True
      by (by rewrite Hnew).
    rewrite filter_nil.
    set (l := merge_sort _ _).
    assert (head l = Some m) as Hh.
    { apply newest_first_head.
      - apply StronglySorted_merge_sort; apply _.
      - subst l. rewrite merge_sort_Permutation. apply elem_of_app. right. left.
      - intros x Hx Hne. subst l. rewrite merge_sort_Permutation in Hx.
        apply elem_of_app in Hx as [Hx|Hx].
        + apply list_elem_of_filter in Hx as [Hsid Hx].
          rewrite Hnew. simpl. by apply Hold.
        + apply list_elem_of_singleton in Hx. done. }
    destruct l; [done|]. done.
  - by rewrite Hnew.
  - by rewrite Hnew.
  - intros sid' limit' Hne. unfold SessionManager.get_conversation_history.
    rewrite Hm, filter_app, (filter_cons _ m), decide_False by (by rewrite Hnew).
    by rewrite filter_nil, app_nil_r.
Qed.

Lemma saved_message_ends_history_witness :
  let r := BaseChannel.save_message (mkEnv 30 "") 1 "hello" "inbound" "text" None None
             (BaseChannel.save_message (mkEnv 20 "") 1 "first" "inbound" "text"
                None None empty_db).2 in
  last (SessionManager.get_conversation_history 1 5 r.2) = Some r.1.
Proof.
  intros r.
  apply (saved_message_ends_history (mkEnv 30 "") 1 "hello" "inbound" "text" None None
           (BaseChannel.save_message (mkEnv 20 "") 1 "first" "inbound" "text"
              None None empty_db).2 4).
  intros m Hm _. apply list_elem_of_singleton in Hm. subst m. reflexivity.
Defined.

(** ** Context updates *)

Lemma find_session_update now sid f db sid' :
  (∀ s, cs_id (f s) = cs_id s) →
  find_session sid' (update_session now sid f db)
  = (λ s, if bool_decide (cs_id s = sid)
          then (if bool_decide (f s = s) then s else set_updated_at now (f s))
          else s) <$> find_session sid' db.
Proof.
  intros Hid. unfold find_session.
  rewrite update_session_rows, filter_fmap_commute, head_fmap_list; [done|].
  intros x. repeat case_bool_decide; simpl; by rewrite ?Hid.
Qed.

(** X4: [update_session_context] merges: afterwards a key of the updates
    has the value of the updates and every other key keeps the value it
    had; the status, the identity and the channel of the session stay,
    and the rows of the other sessions are untouched. *)
Theorem update_session_context_merges env sid context_updates w w' s :
  SessionManager.update_session_context env sid context_updates w = Some w' →
  find_session sid (w_db w) = Some s →
  ∃ s', find_session sid (w_db w') = Some s'
        ∧ (∀ k, get_context s' !! k
                = match context_updates !! k with
                  | Some v => Some v
                  | None => get_context s !! k
                  end)
        ∧ cs_status s' = cs_status s
        ∧ cs_channel_id s' = cs_channel_id s
        ∧ cs_channel_user_id s' = cs_channel_user_id s
        ∧ ∀ s0, s0 ∈ sessions (w_db w) → cs_id s0 ≠ sid → s0 ∈ sessions (w_db w').
Proof.
  unfold SessionManager.update_session_context. intros Hu Hf. rewrite Hf in Hu.
  destruct (head _) as [c|]; [|done].
  destruct (SessionManager._get_channel (ch_name c) w) as [[channel w1]|] eqn:Hch;
    [|done].
  injection Hu as <-. cbn [w_db].
  apply get_channel_sessions in Hch as [Hss _].
  assert (find_session sid (w_db w1) = Some s) as Hf1
    by (unfold find_session in *; by rewrite Hss).
  unfold BaseChannel.update_session_context.
  rewrite find_session_update, Hf1 by done. cbn [fmap option_fmap option_map].
  destruct (find_session_Some _ _ _ Hf) as [_ Hsid].
  rewrite (bool_decide_eq_true_2 _ Hsid).
  assert (∀ k, dict_update (get_context s) context_updates !! k
               = match context_updates !! k with
                 | Some v => Some v
                 | None => get_context s !! k
                 end) as Hk.
  { intros k. unfold dict_update. rewrite lookup_union.
    destruct (context_updates !! k), (get_context s !! k); done. }
  assert (get_context (set_context (env_now env)
                         (dict_update (get_context s) context_updates) s)
          = dict_update (get_context s) context_updates) as Hctx.
  { unfold get_context at 1. simpl.
    destruct (truthy_dict _) eqn:E; [done|].
    unfold truthy_dict in E. by apply negb_false_iff, bool_decide_eq_true in E. }
  eexists. split; [reflexivity|].
  case_bool_decide as Hsame.
  - split_and!; try done.
    + intros k. rewrite <- Hk, <- Hctx. by rewrite Hsame.
    + intros s0 Hs0 Hne. apply update_session_elem_of; [by rewrite Hss|done].
  - split_and!; try done.
    + intros k. rewrite <- Hk.
      transitivity
        (get_context (set_context (env_now env)
                        (dict_update (get_context s) context_updates) s) !! k);
        [done | by rewrite Hctx].
    + intros s0 Hs0 Hne. apply update_session_elem_of; [by rewrite Hss|done].
Qed.

Lemma update_session_context_merges_witness :
  ∃ w' s',
    SessionManager.update_session_context (mkEnv 20 "") 1
      {["date" := VStr "2024-12-21"]}
      (after_op empty_world
         (OpCreate (mkCall (mkEnv 10 "a") "website" (Some 7%nat) (Some "7")
                      (Some (<["step" := VStr "select_time"]>
                               {["date" := VStr "2024-12-20"]})))))
    = Some w'
    ∧ find_session 1 (w_db w') = Some s'
    ∧ get_context s' !! "date" = Some (VStr "2024-12-21")
    ∧ get_context s' !! "step" = Some (VStr "select_time").
Proof.
  eexists _. 
  edestruct (update_session_context_merges (mkEnv 20 "") 1
               {["date" := VStr "2024-12-21"]}
               (after_op empty_world
                  (OpCreate (mkCall (mkEnv 10 "a") "website" (Some 7%nat) (Some "7")
                               (Some (<["step" := VStr "select_time"]>
                                        {["date" := VStr "2024-12-20"]}))))))
    as (s' & Hf & Hk & _); [vm_compute; reflexivity | vm_compute; reflexivity |].
  exists s'. split; [reflexivity|]. split; [exact Hf|].
  split; [rewrite (Hk "date") | rewrite (Hk "step")]; vm_compute; reflexivity.
Defined.

(** ** Closing *)




(** ** The channel registry *)

Lemma get_or_create_channel_cases channel_name channel_type db :
  let r := BaseChannel._get_or_create_channel channel_name channel_type db in
  ch_name r.1 = channel_name ∧ r.1 ∈ channels r.2
  ∧ ((r.1 ∈ channels db ∧ r.2 = db)
     ∨ ((∀ c, c ∈ channels db → ch_name c ≠ channel_name)
        ∧ channels r.2 = channels db ++ [r.1]
        ∧ ch_id r.1 = next_channel_id db
        ∧ next_channel_id r.2 = S (next_channel_id db))).
Proof.
  unfold BaseChannel._get_or_create_channel.
  destruct (head _) as [c|] eqn:Hh; cbn [fst snd].
  - apply head_Some_elem_of, list_elem_of_filter in Hh as [Hn Hc].
    split_and!; [done|done|]. by left.
  - split_and!; [done| simpl; apply elem_of_app; right; left |].
    right. split_and!; try done.
    intros c Hc Hn.
    assert (c ∈ filter (λ c, ch_name c = channel_name) (channels db)) as Hin
      by by apply list_elem_of_filter.
    destruct (filter _ _); [by apply elem_of_nil in Hin | done].
Qed.

(** X6: the channel registry.  For a name that is neither cached nor one
    of 'website', 'instagram', 'voice', [_get_channel] raises and leaves
    the world as it is.  When it returns, the registry is still well
    formed, the rows that were there are kept, the key returned is the
    key of the row of that name, and asking again returns the same key
    and changes nothing; two different names never get the same key. *)
Theorem get_channel_registry w :
  registry_ok w →
  (∀ name, _channels w !! name = None →
           SessionManager.channel_type_of name = None →
           SessionManager._get_channel name w = None)
  ∧ (∀ name cid w1,
       SessionManager._get_channel name w = Some (cid, w1) →
       registry_ok w1
       ∧ (∀ c, c ∈ channels (w_db w) → c ∈ channels (w_db w1))
       ∧ (∃ c, c ∈ channels (w_db w1) ∧ ch_name c = name ∧ ch_id c = cid)
       ∧ SessionManager._get_channel name w1 = Some (cid, w1)
       ∧ ∀ name' cid' w2,
           SessionManager._get_channel name' w1 = Some (cid', w2) →
           name' ≠ name → cid' ≠ cid).
Proof.
  assert (∀ w name cid w1,
            registry_ok w →
            SessionManager._get_channel name w = Some (cid, w1) →
            registry_ok w1
            ∧ (∀ c, c ∈ channels (w_db w) → c ∈ channels (w_db w1))
            ∧ (∃ c, c ∈ channels (w_db w1) ∧ ch_name c = name ∧ ch_id c = cid)
            ∧ _channels w1 !! name = Some cid) as Hstep.
  { clear w. intros w name cid w1 (Hnn & Hni & Hlt & Hcache).
    unfold SessionManager._get_channel.
    destruct (_channels w !! name) as [cid0|] eqn:Hc.
    { intros [= <- <-]. split_and!; try done. by apply Hcache. }
    destruct (SessionManager.channel_type_of name) as [ty|]; [|done].
    pose proof (get_or_create_channel_cases name ty (w_db w)) as Hr. cbv zeta in Hr.
    destruct (BaseChannel._get_or_create_channel name ty (w_db w)) as [c db'].
    cbn [fst snd] in Hr. intros [= <- <-]. unfold registry_ok. cbn [w_db _channels].
    destruct Hr as (Hname & Hin & [[Hold ->]|(Hnew & Hch & Hid & Hnx)]).
    - split_and!; try done.
      + intros n i. rewrite lookup_insert.
        case_decide as Hn; [|by apply Hcache]. intros [= <-]. subst n. by exists c.
      + by exists c.
      + by rewrite lookup_insert_eq.
    - split_and!.
      + rewrite Hch, fmap_app. apply NoDup_app. split_and!; [done| |].
        * intros x (c0 & -> & Hc0)%list_elem_of_fmap Hx.
          simpl in Hx. apply list_elem_of_singleton in Hx.
          apply (Hnew c0 Hc0). congruence.
        * apply NoDup_singleton.
      + rewrite Hch, fmap_app. apply NoDup_app. split_and!; [done| |].
        * intros x (c0 & -> & Hc0)%list_elem_of_fmap Hx.
          simpl in Hx. apply list_elem_of_singleton in Hx. rewrite Hid in Hx.
          rewrite Forall_forall in Hlt. specialize (Hlt c0 Hc0). lia.
        * apply NoDup_singleton.
      + rewrite Hch, Hnx. apply Forall_app. split.
        * eapply Forall_impl; [exact Hlt|]. simpl. lia.
        * apply Forall_singleton. lia.
      + intros n i. rewrite lookup_insert.
        case_decide as Hn.
        * intros [= <-]. subst n. by exists c.
        * intros (c0 & ? & ? & ?)%Hcache. exists c0. split_and!; try done.
          rewrite Hch. apply elem_of_app. by left.
      + intros c0 Hc0. rewrite Hch. apply elem_of_app. by left.
      + by exists c.
      + by rewrite lookup_insert_eq. }
  intros Hok. split.
  - intros name Hc Hty. unfold SessionManager._get_channel. by rewrite Hc, Hty.
  - intros name cid w1 Hg.
    destruct (Hstep w name cid w1 Hok Hg) as (Hok1 & Hkeep & Hrow & Hcached).
    split_and!; try done.
    + unfold SessionManager._get_channel. by rewrite Hcached.
    + intros name' cid' w2 Hg' Hne ->.
      destruct (Hstep w1 name' cid w2 Hok1 Hg') as ((Hnn2 & Hni2 & _) & Hkeep2 & Hrow2 & _).
      destruct Hrow as (c & Hc & Hcn & Hci). destruct Hrow2 as (c' & Hc' & Hcn' & Hci').
      apply Hkeep2 in Hc.
      assert (c = c') as <-
        by (apply (NoDup_fmap_eq ch_id (channels (w_db w2))); congruence).
      congruence.
Qed.

Lemma get_channel_registry_witness :
  ∃ cid w1,
    SessionManager._get_channel "website" empty_world = Some (cid, w1)
    ∧ registry_ok w1
    ∧ SessionManager._get_channel "website" w1 = Some (cid, w1)
    ∧ SessionManager._get_channel "sms" empty_world = None.
Proof.
  assert (registry_ok empty_world) as Hok.
  { split_and!; try apply NoDup_nil_2; [apply Forall_nil_2|].
    intros name cid H. simpl in H. by rewrite lookup_empty in H. }
  destruct (get_channel_registry empty_world Hok) as [Hunknown Hknown].
  eexists _, _. split; [vm_compute; reflexivity|].
  edestruct (Hknown "website") as (H1 & _ & _ & H2 & _); [vm_compute; reflexivity|].
  split; [exact H1|]. split; [exact H2|].
  apply Hunknown; reflexivity.
Defined.

(** ** Sessions of a user *)

(** X7: [get_user_sessions] raises for the channel names 'website',
    'instagram' and 'voice' (the channel table of the manager holds
    functions, which have no [channel_db]); for any other name, or none,
    it lists the sessions of the user over all channels, only the active
    ones when [active_only], each once, latest activity first. *)
Theorem get_user_sessions_lists user_id channel_name active_only db :
  (is_Some (channel_name ≫= SessionManager.channel_type_of) →
   SessionManager.get_user_sessions user_id channel_name active_only db = None)
  ∧ (channel_name ≫= SessionManager.channel_type_of = None →
     ∃ l, SessionManager.get_user_sessions user_id channel_name active_only db = Some l
          ∧ l ≡ₚ filter (λ s, cs_user_id s = user_id
                              ∧ (active_only = true → cs_status s = "active"))
                   (sessions db)
          ∧ StronglySorted SessionManager.latest_activity_first l).
Proof.
  unfold SessionManager.get_user_sessions. split.
  - intros [ty Hty]. destruct channel_name as [name|]; [|done]. simpl in Hty.
    assert (name ≠ "") as Hne by (intros ->; done).
    simpl. rewrite bool_decide_eq_false_2 by done. simpl. by rewrite Hty.
  - intros Hty. rewrite Hty.
    eexists. split; [by destruct (truthy_str channel_name)|].
    split; [|apply StronglySorted_merge_sort; apply _].
    rewrite merge_sort_Permutation.
    destruct active_only.
    + rewrite list_filter_filter. erewrite list_filter_iff; [done|].
      intros s. simpl. split.
      * intros [Hst Hu]. split; [exact Hu | intros _; exact Hst].
      * intros [Hu Ha]. split; [by apply Ha | exact Hu].
    + erewrite list_filter_iff; [done|]. intros s. simpl. split.
      * intros Hu. split; [exact Hu | discriminate].
      * by intros [Hu _].
Qed.

Lemma get_user_sessions_lists_witness :
  SessionManager.get_user_sessions (Some 7%nat) (Some "website") true empty_db = None.
Proof.
  apply (proj1 (get_user_sessions_lists (Some 7%nat) (Some "website") true empty_db)).
  by eexists.
Defined.

(** ** Issued and revoked tokens *)

Lemma filter_unique_key {A B : Type} `{EqDecision B} (f : A → B) (l : list A) (x : A) :
  NoDup (f <$> l) → x ∈ l → filter (λ y, f y = f x) l = [x].
Proof.
  induction l as [|a l IH]; intros Hnd Hx; [by apply elem_of_nil in Hx|].
  rewrite fmap_cons in Hnd. apply NoDup_cons in Hnd as [Hni Hnd].
  rewrite filter_cons.
  apply elem_of_cons in Hx as [->|Hx].
  - rewrite decide_True by done. f_equal.
    apply filter_nothing. intros y Hy Heq. apply Hni. rewrite <- Heq.
    apply list_elem_of_fmap. by exists y.
  - rewrite decide_False; [by apply IH|].
    intros Heq. apply Hni. rewrite Heq. apply list_elem_of_fmap. by exists x.
Qed.

(** X8: a token issued by [generate_token] (a non-empty string that no
    row of the table holds yet) authenticates its user on the issuing
    channel up to and including the instant [expires_days] days after the
    issue, and the call stamps [last_used] on the new row only; after that
    instant, and on every other channel at any time, it is rejected and
    the store is left as it is. *)
Theorem generated_token_authenticates channel_db_id issued token user_id expires_days
    db now :
  token ≠ "" →
  (∀ t, t ∈ tokens db → at_token t ≠ token) →
  let r := WebsiteChannel.generate_token channel_db_id issued token user_id
             expires_days db in
  let row := mkToken (S (max_list (at_id <$> tokens db))) token user_id
               (Some channel_db_id) (Some (issued + expires_days * 86400000000))
               true None in
  r.1 = token
  ∧ tokens r.2 = tokens db ++ [row]
  ∧ (now ≤ issued + expires_days * 86400000000 →
     WebsiteChannel.authenticate channel_db_id now (Some token) r.2
     = (user_id, with_tokens (tokens db ++ [set_last_used now row]) r.2))
  ∧ (issued + expires_days * 86400000000 < now →
     WebsiteChannel.authenticate channel_db_id now (Some token) r.2 = (None, r.2))
  ∧ (∀ other_channel, other_channel ≠ channel_db_id →
       WebsiteChannel.authenticate other_channel now (Some token) r.2 = (None, r.2)).
Proof.
  intros Hne Hfresh r row. subst r. unfold WebsiteChannel.generate_token.
  cbn [fst snd]. fold row.
  assert (∀ cid, filter (λ t, Some (at_token t) = Some token
                              ∧ at_channel_id t = Some cid
                              ∧ at_is_active t = true) (tokens db) = []) as Hold.
  { intros cid. apply filter_nothing. intros t Ht [[= Heq] _]. by apply (Hfresh t). }
  split_and!; [done|done| | |].
  - intros Hle. unfold WebsiteChannel.authenticate. simpl truthy_str.
    rewrite bool_decide_eq_false_2 by done. simpl negb. cbv iota.
    cbn [tokens with_tokens].
    rewrite filter_app, Hold, filter_cons, decide_True by done.
    rewrite filter_nil. cbn [app head].
    unfold is_valid. cbn [row at_is_active at_expires_at negb at_user_id at_id].
    destruct (Z.ltb_spec (issued + expires_days * 86400000000) now); [lia|].
    f_equal. f_equal. rewrite fmap_app. f_equal.
    + rewrite <- (list_fmap_id (tokens db)) at 2.
      apply list_fmap_ext. intros i t Hit. simpl.
      rewrite bool_decide_eq_false_2; [done|].
      assert (at_id t ≤ max_list (at_id <$> tokens db))%nat; [|lia].
      apply max_list_elem_of_le, list_elem_of_fmap. exists t.
      split; [done|]. by eapply list_elem_of_lookup_2.
    + simpl. by rewrite bool_decide_eq_true_2.
  - intros Hlt. unfold WebsiteChannel.authenticate. simpl truthy_str.
    rewrite bool_decide_eq_false_2 by done. simpl negb. cbv iota.
    cbn [tokens with_tokens].
    rewrite filter_app, Hold, filter_cons, decide_True by done.
    rewrite filter_nil. cbn [app head].
    unfold is_valid. cbn [row at_is_active at_expires_at negb].
    by destruct (Z.ltb_spec (issued + expires_days * 86400000000) now); [|lia].
  - intros other Hother. unfold WebsiteChannel.authenticate. simpl truthy_str.
    rewrite bool_decide_eq_false_2 by done. simpl negb. cbv iota.
    cbn [tokens with_tokens].
    rewrite filter_app, Hold, filter_cons, decide_False; [done|].
    intros (_ & [= Hc] & _). done.
Qed.

Lemma generated_token_authenticates_witness :
  (WebsiteChannel.authenticate 1 (10 + 30 * 86400000000) (Some "tok-7")
     (WebsiteChannel.generate_token 1 10 "tok-7" (Some 7%nat) 30 empty_db).2).1
  = Some 7%nat
  ∧ (WebsiteChannel.authenticate 1 (11 + 30 * 86400000000) (Some "tok-7")
       (WebsiteChannel.generate_token 1 10 "tok-7" (Some 7%nat) 30 empty_db).2).1
    = None.
Proof.
  split.
  - edestruct (generated_token_authenticates 1 10 "tok-7" (Some 7%nat) 30 empty_db
                 (10 + 30 * 86400000000)) as (_ & _ & H & _).
    + discriminate.
    + intros t Ht. by apply elem_of_nil in Ht.
    + rewrite H; [reflexivity | lia].
  - edestruct (generated_token_authenticates 1 10 "tok-7" (Some 7%nat) 30 empty_db
                 (11 + 30 * 86400000000)) as (_ & _ & _ & H & _).
    + discriminate.
    + intros t Ht. by apply elem_of_nil in Ht.
    + rewrite H; [reflexivity | lia].
Defined.

(** X9: [revoke_token].  For a token row of the user (primary keys and
    token strings unique), the call succeeds and afterwards the token
    string is rejected by [authenticate] on every channel and by
    [token_required], at any time; the other rows are untouched.  A user
    who does not own the row gets 403 and the store is unchanged; an id
    that names no row gives the 500 response, not a 404. *)
Theorem revoke_token_ends_authentication db t user_id :
  NoDup (at_id <$> tokens db) →
  NoDup (at_token <$> tokens db) →
  t ∈ tokens db →
  at_user_id t = Some user_id →
  let r := ApiRoutes.revoke_token (Some user_id) (at_id t) db in
  r.1 = Success
  ∧ (∀ channel_db_id now,
       WebsiteChannel.authenticate channel_db_id now (Some (at_token t)) r.2 = (None, r.2))
  ∧ (∀ now, ∃ e, ApiRoutes.token_required now None (Some (at_token t)) r.2
                 = inl (ApiError 401 e))
  ∧ (∀ t', t' ∈ tokens db → t' ≠ t → t' ∈ tokens r.2)
  ∧ (∀ other, other ≠ user_id →
       ApiRoutes.revoke_token (Some other) (at_id t) db
       = (ApiError 403 "Unauthorized", db))
  ∧ (∀ user token_id, token_id ∉ at_id <$> tokens db →
       ApiRoutes.revoke_token (Some user) token_id db
       = (ApiError 500 "Failed to revoke token", db)).
Proof.
  intros Hid Htok Ht Hu r.
  pose proof (filter_unique_key at_id (tokens db) t Hid Ht) as Hf.
  set (g := λ t0 : AuthenticationToken,
         if bool_decide (at_id t0 = at_id t)
         then mkToken (at_id t0) (at_token t0) (at_user_id t0) (at_channel_id t0)
                (at_expires_at t0) false (at_last_used t0)
         else t0).
  assert (r = (Success, with_tokens (g <$> tokens db) db)) as Hr.
  { subst r. unfold ApiRoutes.revoke_token. rewrite Hf. cbn [head].
    rewrite bool_decide_eq_true_2 by done. done. }
  assert (∀ x, x ∈ tokens r.2 → at_token x = at_token t → at_is_active x = false)
    as Hoff.
  { rewrite Hr. cbn [snd tokens with_tokens].
    intros x (t0 & -> & Ht0)%list_elem_of_fmap Heq.
    assert (at_token (g t0) = at_token t0) as Hg
      by (unfold g; by case_bool_decide).
    assert (t0 = t) as ->
      by (apply (NoDup_fmap_eq at_token (tokens db)); congruence).
    unfold g. by rewrite bool_decide_eq_true_2. }
  split_and!.
  - by rewrite Hr.
  - intros channel_db_id now. unfold WebsiteChannel.authenticate.
    destruct (negb _); [done|].
    rewrite filter_nothing; [done|].
    intros x Hx ([= Heq] & _ & Hact). rewrite (Hoff x Hx Heq) in Hact. done.
  - intros now. unfold ApiRoutes.token_required. simpl truthy_str at 1. cbv iota.
    destruct (negb _); [by eexists|].
    rewrite filter_nothing; [by eexists|].
    intros x Hx ([= Heq] & Hact). rewrite (Hoff x Hx Heq) in Hact. done.
  - intros t' Ht' Hne. rewrite Hr. cbn [snd tokens with_tokens].
    apply list_elem_of_fmap. exists t'. split; [|done].
    unfold g. rewrite bool_decide_eq_false_2; [done|].
    intros Heq. apply Hne. by apply (NoDup_fmap_eq at_id (tokens db)).
  - intros other Hother. unfold ApiRoutes.revoke_token. rewrite Hf. cbn [head].
    rewrite bool_decide_eq_false_2; [done|]. rewrite Hu. congruence.
  - intros user token_id Hni. unfold ApiRoutes.revoke_token.
    rewrite filter_nothing; [done|].
    intros x Hx Heq. apply Hni, list_elem_of_fmap. by exists x.
Qed.

Lemma revoke_token_ends_authentication_witness :
  let db := (WebsiteChannel.generate_token 1 10 "tok-7" (Some 7%nat) 30 empty_db).2 in
  (ApiRoutes.revoke_token (Some 7%nat) 1 db).1 = Success
  ∧ (WebsiteChannel.authenticate 1 20 (Some "tok-7")
       (ApiRoutes.revoke_token (Some 7%nat) 1 db).2).1 = None.
Proof.
  intros db.
  edestruct (revoke_token_ends_authentication db
               (mkToken 1 "tok-7" (Some 7%nat) (Some 1%nat)
                  (Some (10 + 30 * 86400000000)) true None) 7%nat)
    as (H1 & H2 & _).
  - by apply (bool_decide_unpack _).
  - by apply (bool_decide_unpack _).
  - vm_compute. left.
  - reflexivity.
  - split; [exact H1|]. cbn [at_token at_id] in H2. by rewrite H2.
Defined.

(** ** Messages received on the website channel *)

(** What [save_message] does to the rows: the message is appended, and
    the session rows are mapped by a function that keeps keys, channel,
    identity and status. *)
Lemma save_message_rows env sid content direction message_type content_url
    channel_message_id db :
  let r := BaseChannel.save_message env sid content direction message_type
             content_url channel_message_id db in
  ∃ g : ConversationSession → ConversationSession,
    (∀ s, cs_id (g s) = cs_id s)
    ∧ sessions r.2 = g <$> sessions db
    ∧ (∀ channel_id channel_user_id,
         active_for channel_id channel_user_id r.2
         = g <$> active_for channel_id channel_user_id db)
    ∧ messages r.2 = messages db ++ [r.1]
    ∧ cm_session_id r.1 = sid ∧ cm_content r.1 = content
    ∧ cm_direction r.1 = direction ∧ cm_id r.1 = next_message_id db
    ∧ next_session_id r.2 = next_session_id db
    ∧ next_message_id r.2 = S (next_message_id db)
    ∧ ∀ s, cs_session_id (g s) = cs_session_id s
           ∧ cs_channel_id (g s) = cs_channel_id s
           ∧ cs_user_id (g s) = cs_user_id s.
Proof.
  intros r. subst r. unfold BaseChannel.save_message. cbn [fst snd].
  exists (λ s, if bool_decide (cs_id s = sid)
               then (if bool_decide (set_last_activity (env_now env) s = s) then s
                     else set_updated_at (env_now env)
                            (set_last_activity (env_now env) s))
               else s).
  split_and!; [|done| |done..|].
  - intros s. simpl. repeat case_bool_decide; done.
  - intros channel_id channel_user_id. unfold active_for.
    rewrite update_session_rows. apply filter_fmap_commute.
    intros x. simpl. repeat case_bool_decide; done.
  - intros s. simpl. repeat case_bool_decide; done.
Qed.

Lemma website_receive_message_cases channel_db_id env_create env message user_id
    session_id channel_user_id db :
  match WebsiteChannel.receive_message channel_db_id env_create env message user_id
          session_id channel_user_id db with
  | None =>
      truthy_str session_id = true
      ∧ BaseChannel.get_session channel_db_id session_id None db = None
  | Some (session, saved_message, db2) =>
      ∃ s0 db1,
        ((truthy_str session_id = true
          ∧ BaseChannel.get_session channel_db_id session_id None db = Some s0
          ∧ db1 = db)
         ∨ (truthy_str session_id = false
            ∧ BaseChannel.get_session channel_db_id None channel_user_id db = Some s0
            ∧ db1 = db)
         ∨ (truthy_str session_id = false
            ∧ BaseChannel.get_session channel_db_id None channel_user_id db = None
            ∧ BaseChannel.create_session channel_db_id env_create user_id
                channel_user_id None db = (s0, db1)))
        ∧ BaseChannel.save_message env (cs_id s0) message "inbound" "text" None None db1
          = (saved_message, db2)
        ∧ session = default s0 (find_session (cs_id s0) db2)
  end.
Proof.
  unfold WebsiteChannel.receive_message.
  destruct (truthy_str session_id) eqn:Ht.
  - destruct (BaseChannel.get_session channel_db_id session_id None db) as [s0|] eqn:Hg;
      [|done].
    destruct (BaseChannel.save_message _ _ _ _ _ _ _ _) as [m db2] eqn:Hs.
    exists s0, db. split_and!; [by left | done | done].
  - destruct (BaseChannel.get_session channel_db_id None channel_user_id db)
      as [s0|] eqn:Hg.
    + destruct (BaseChannel.save_message _ _ _ _ _ _ _ _) as [m db2] eqn:Hs.
      exists s0, db. split_and!; [right; by left | done | done].
    + destruct (BaseChannel.create_session _ _ _ _ _ _) as [s0 db1] eqn:Hc.
      destruct (BaseChannel.save_message _ _ _ _ _ _ _ _) as [m db2] eqn:Hs.
      exists s0, db1. split_and!; [right; by right | done | done].
Qed.

(** X10: on the website channel, two messages received one after the
    other for the same non-empty channel_user_id, without a session_id,
    are stored inbound in one and the same session: the first call finds
    the active session of the identity or creates it, the second call
    creates nothing, and the identity still has at most one active
    session.  A session_id that names no session of the channel makes
    [receive_message] raise. *)
Theorem website_receive_message_reuses_session channel_db_id create1 env1 create2 env2
    msg1 msg2 user1 user2 u db :
  u ≠ "" →
  at_most_one_active channel_db_id (Some u) db →
  (∃ s1 m1 db1 s2 m2 db2,
     WebsiteChannel.receive_message channel_db_id create1 env1 msg1 user1 None (Some u)
       db = Some (s1, m1, db1)
     ∧ WebsiteChannel.receive_message channel_db_id create2 env2 msg2 user2 None
         (Some u) db1 = Some (s2, m2, db2)
     ∧ cm_session_id m2 = cm_session_id m1
     ∧ messages db2 = messages db ++ [m1; m2]
     ∧ cm_content m1 = msg1 ∧ cm_direction m1 = "inbound"
     ∧ cm_content m2 = msg2 ∧ cm_direction m2 = "inbound"
     ∧ length (sessions db2) = length (sessions db1)
     ∧ (length (sessions db1) ≤ S (length (sessions db)))%nat
     ∧ length (active_for channel_db_id (Some u) db2) = 1%nat)
  ∧ (∀ env_create env msg user session_id any,
       session_id ≠ "" →
       (∀ s, s ∈ sessions db → cs_channel_id s = channel_db_id →
             cs_session_id s ≠ session_id) →
       WebsiteChannel.receive_message channel_db_id env_create env msg user
         (Some session_id) any db = None).
Proof.
  intros Hu Hone. split.
  - (* the first call *)
    pose proof (website_receive_message_cases channel_db_id create1 env1 msg1 user1 None
                  (Some u) db) as H1.
    destruct (WebsiteChannel.receive_message channel_db_id create1 env1 msg1 user1 None
                (Some u) db) as [[[s1 m1] db1]|] eqn:E1; [|by destruct H1].
    destruct H1 as (s0 & dbm & Hcase & Hsave1 & _).
    assert (active_for channel_db_id (Some u) dbm = [s0]
            ∧ messages dbm = messages db
            ∧ (length (sessions dbm) ≤ S (length (sessions db)))%nat)
      as (Hact & Hmsgs & Hlen).
    { destruct Hcase as [(Ht & _)|[(_ & Hg & ->)|(_ & Hg & Hc)]]; [done| |].
      - apply get_session_by_identity in Hg as (Hin & Hcu & Hch & Hst).
        assert (s0 ∈ active_for channel_db_id (Some u) db) as Hin'
          by by apply list_elem_of_filter.
        unfold at_most_one_active in Hone.
        destruct (active_for channel_db_id (Some u) db) as [|a [|b l]];
          [by apply elem_of_nil in Hin' | | simpl in Hone; lia].
        apply list_elem_of_singleton in Hin' as ->. split_and!; [done|done|lia].
      - apply get_session_by_identity_None in Hg;
          [|simpl; by rewrite bool_decide_eq_false_2].
        pose proof (create_session_result channel_db_id create1 user1 (Some u) None db)
          as Hr. cbv zeta in Hr. rewrite Hc in Hr. cbn [fst snd] in Hr.
        destruct Hr as (Hss & _ & _ & Hch & Hcu & _ & Hst & _).
        split_and!.
        + unfold active_for in *. rewrite Hss, filter_app, Hg.
          by rewrite filter_cons, decide_True.
        + unfold BaseChannel.create_session in Hc. by injection Hc as _ <-.
        + rewrite Hss, length_app. simpl. lia. }
    pose proof (save_message_rows env1 (cs_id s0) msg1 "inbound" "text" None None dbm)
      as Hr1. cbv zeta in Hr1. rewrite Hsave1 in Hr1. cbn [fst snd] in Hr1.
    destruct Hr1 as (g1 & Hg1 & Hss1 & Hact1 & Hm1 & Hsid1 & Hc1 & Hd1 & _).
    specialize (Hact1 channel_db_id (Some u)). rewrite Hact in Hact1.
    (* the second call *)
    pose proof (website_receive_message_cases channel_db_id create2 env2 msg2 user2 None
                  (Some u) db1) as H2.
    destruct (WebsiteChannel.receive_message channel_db_id create2 env2 msg2 user2 None
                (Some u) db1) as [[[s2 m2] db2]|] eqn:E2; [|by destruct H2].
    destruct H2 as (s0' & dbm' & Hcase' & Hsave2 & _).
    assert (s0' = g1 s0 ∧ dbm' = db1) as [-> ->].
    { destruct Hcase' as [(Ht & _)|[(_ & Hg & ->)|(_ & Hg & Hc)]]; [done| |].
      - apply get_session_by_identity in Hg as (Hin & Hcu & Hch & Hst).
        assert (s0' ∈ active_for channel_db_id (Some u) db1) as Hin'
          by by apply list_elem_of_filter.
        rewrite Hact1 in Hin'. simpl in Hin'.
        by apply list_elem_of_singleton in Hin' as ->.
      - apply get_session_by_identity_None in Hg;
          [|simpl; by rewrite bool_decide_eq_false_2].
        by rewrite Hact1 in Hg. }
    pose proof (save_message_rows env2 (cs_id (g1 s0)) msg2 "inbound" "text" None None
                  db1) as Hr2. cbv zeta in Hr2. rewrite Hsave2 in Hr2.
    cbn [fst snd] in Hr2.
    destruct Hr2 as (g2 & Hg2 & Hss2 & Hact2 & Hm2 & Hsid2 & Hc2 & Hd2 & _).
    exists s1, m1, db1, s2, m2, db2. split_and!; try done.
    + by rewrite Hsid2, Hsid1, Hg1.
    + by rewrite Hm2, Hm1, Hmsgs, <- app_assoc.
    + by rewrite Hss2, length_fmap.
    + by rewrite Hss1, length_fmap.
    + by rewrite Hact2, Hact1.
  - intros env_create env msg user session_id any Hne Hfresh.
    pose proof (website_receive_message_cases channel_db_id env_create env msg user
                  (Some session_id) any db) as H.
    destruct (WebsiteChannel.receive_message _ _ _ _ _ _ _ _) as [[[s m] db2]|];
      [|done].
    exfalso. destruct H as (s0 & db1 & Hcase & _).
    assert (truthy_str (Some session_id) = true) as Ht
      by (simpl; by rewrite bool_decide_eq_false_2).
    destruct Hcase as [(_ & Hg & _)|[(Hf & _)|(Hf & _)]]; [|congruence..].
    unfold BaseChannel.get_session in Hg. rewrite Ht in Hg.
    apply head_Some_elem_of, list_elem_of_filter in Hg as [[[= Hsid] Hch] Hin].
    by apply (Hfresh s0).
Qed.

Lemma website_receive_message_reuses_session_witness :
  ∃ s1 m1 db1 s2 m2 db2,
    WebsiteChannel.receive_message 1 (mkEnv 10 "a") (mkEnv 11 "") "hello" (Some 7%nat)
      None (Some "7") empty_db = Some (s1, m1, db1)
    ∧ WebsiteChannel.receive_message 1 (mkEnv 20 "b") (mkEnv 21 "") "tickets?"
        (Some 7%nat) None (Some "7") db1 = Some (s2, m2, db2)
    ∧ cm_session_id m2 = cm_session_id m1
    ∧ messages db2 = [m1; m2].
Proof.
  destruct (website_receive_message_reuses_session 1 (mkEnv 10 "a") (mkEnv 11 "")
              (mkEnv 20 "b") (mkEnv 21 "") "hello" "tickets?" (Some 7%nat) (Some 7%nat) "7" empty_db)
    as [(s1 & m1 & db1 & s2 & m2 & db2 & H1 & H2 & H3 & H4 & _) _].
  - discriminate.
  - unfold at_most_one_active. simpl. lia.
  - exists s1, m1, db1, s2, m2, db2. split_and!; done.
Defined.

(** ** The chat API *)








(** ** Bookings and capacity *)

Lemma foldr_add_app (l : list Z) (x : Z) :
  foldr Z.add 0 (l ++ [x]) = foldr Z.add 0 l + x.
Proof. induction l as [|a l IH]; simpl; lia. Qed.

Lemma booked_sum_add target_date slot b n db :
  App.booked_sum target_date slot (with_bookings (bookings db ++ [b]) n db)
  = App.booked_sum target_date slot db
    + (if decide (bk_date b = target_date ∧ bk_time_slot b = slot)
       then bk_visitors b else 0).
Proof.
  unfold App.booked_sum. cbn [bookings with_bookings].
  rewrite filter_app, fmap_app, filter_cons, filter_nil.
  destruct (decide (bk_date b = target_date ∧ bk_time_slot b = slot)); simpl.
  - by rewrite foldr_add_app.
  - rewrite app_nil_r. lia.
Qed.

Lemma capacity_of_pos slot : 0 < App.capacity_of slot.
Proof.
  destruct slot as [| |z|s]; simpl; try lia.
  destruct (App.SLOT_CAPACITY !! s) as [c|] eqn:E; simpl; [|lia].
  apply elem_of_list_to_map_2 in E.
  repeat (apply elem_of_cons in E as [[= -> ->]|E]; [lia|]).
  by apply elem_of_nil in E.
Qed.

Lemma TIME_SLOTS_truthy slot : slot ∈ App.TIME_SLOTS → slot ≠ "".
Proof.
  intros H ->. unfold App.TIME_SLOTS in H.
  repeat (apply elem_of_cons in H as [H|H]; [discriminate|]).
  by apply elem_of_nil in H.
Qed.

(** Each of the three booking requests leaves the store as it is or
    appends one booking that fits its slot. *)
Lemma after_booking_cases sp today db o :
  after_booking sp today db o = db
  ∨ ∃ b, after_booking sp today db o
         = with_bookings (bookings db ++ [b]) (S (next_booking_id db)) db
         ∧ bk_id b = next_booking_id db
         ∧ App.booked_sum (bk_date b) (bk_time_slot b) db + bk_visitors b
           ≤ App.capacity_of (bk_time_slot b).
Proof.
  destruct o as [req sess|session_user date_str time_slot visitors
                 |session_user date_str time_slot visitors];
    unfold after_booking.
  - unfold App.confirm_and_pay.
    repeat case_match; simpl; try (by left).
    all: right; eexists; split; [reflexivity|]; simpl; split; [done|].
    all: match goal with H : bool_decide (_ > _) = false |- _ =>
           apply bool_decide_eq_false in H; lia end.
  - unfold App.api_book.
    repeat case_match; simpl; try (by left).
    all: right; eexists; split; [reflexivity|]; simpl; split; [done|].
    all: match goal with H : bool_decide (_ > _) = false |- _ =>
           apply bool_decide_eq_false in H; lia end.
  - unfold App.book_ticket.
    repeat case_match; simpl; try (by left).
    all: right; eexists; split; [reflexivity|]; simpl; split; [done|].
    all: match goal with H : bool_decide (_ > _) = false |- _ =>
           apply bool_decide_eq_false in H; simpl in H; lia end.
Qed.

(** X13: no sequence of booking requests, through the wizard's
    [confirm_and_pay], [/api/book] and the booking form in any order and
    with any arguments, overbooks a slot: if every slot of every day
    holds at most its capacity before, it does so after; the bookings
    that were there are kept, and each request adds at most one. *)
Theorem bookings_never_exceed_capacity sp today db (ops : list BookingOp) :
  never_overbooked db →
  let db' := foldl (after_booking sp today) db ops in
  never_overbooked db'
  ∧ ∃ added, bookings db' = bookings db ++ added ∧ (length added ≤ length ops)%nat.
Proof.
  revert db. induction ops as [|o ops IH]; intros db Hok; cbn [foldl].
  { split; [done|]. exists []. by rewrite app_nil_r. }
  destruct (after_booking_cases sp today db o) as [->|(b & -> & _ & Hfit)].
  { destruct (IH db Hok) as (Hok' & added & Hb & Hlen).
    split; [done|]. exists added. split; [done|]. simpl. lia. }
  set (db1 := with_bookings (bookings db ++ [b]) (S (next_booking_id db)) db).
  assert (never_overbooked db1) as Hok1.
  { intros target_date slot. subst db1. rewrite booked_sum_add.
    case_decide as Hb; [|specialize (Hok target_date slot); lia].
    destruct Hb as [<- <-]. lia. }
  destruct (IH db1 Hok1) as (Hok' & added & Hb & Hlen).
  split; [done|]. exists (b :: added). split; [|simpl; lia].
  rewrite Hb. subst db1. cbn [bookings with_bookings]. by rewrite <- app_assoc.
Qed.

Lemma bookings_never_exceed_capacity_witness :
  never_overbooked
    (foldl (after_booking (λ _, Some 739001) 739000) empty_db
       [ByApi (Some 7%nat) (VStr "2024-04-28") (VStr "9AM–10AM") (Some (VInt 15));
        ByForm (Some 8%nat) (Some "2024-04-28") (Some "9AM–10AM") (Some "6");
        ByWizard
          (mkRequest "" (VStr "confirm_and_pay") VNone ∅ VNone VNone VNone (VStr "cash"))
          awaiting_confirmation]).
Proof.
  apply (bookings_never_exceed_capacity (λ _, Some 739001) 739000 empty_db).
  intros target_date slot. pose proof (capacity_of_pos slot).
  unfold App.booked_sum. simpl. lia.
Defined.



Lemma filter_everything {A : Type} (P : A → Prop) `{∀ x, Decision (P x)} (l : list A) :
  (∀ x, x ∈ l → P x) → filter P l = l.
Proof.
  induction l as [|a l IH]; intros Hall; [done|].
  rewrite filter_cons, decide_True by (apply Hall; left).
  f_equal. apply IH. intros x Hx. apply Hall. by right.
Qed.

Lemma booked_sum_remove target_date slot b db n :
  NoDup (bk_id <$> bookings db) → b ∈ bookings db →
  App.booked_sum target_date slot
    (with_bookings (filter (λ x, bk_id x ≠ bk_id b) (bookings db)) n db)
  = App.booked_sum target_date slot db
    - (if decide (bk_date b = target_date ∧ bk_time_slot b = slot)
       then bk_visitors b else 0).
Proof.
  unfold App.booked_sum. cbn [bookings with_bookings].
  induction (bookings db) as [|a l IH]; intros Hnd Hb; [by apply elem_of_nil in Hb|].
  rewrite fmap_cons in Hnd. apply NoDup_cons in Hnd as [Hni Hnd].
  apply elem_of_cons in Hb as [->|Hb].
  - rewrite filter_cons, decide_False by (intros H; by apply H).
    rewrite (filter_cons _ a).
    assert (filter (λ x, bk_id x ≠ bk_id a) l = l) as ->.
    { apply filter_everything. intros x Hx Heq. apply Hni.
      rewrite <- Heq. apply list_elem_of_fmap. by exists x. }
    destruct (decide (bk_date a = target_date ∧ bk_time_slot a = slot));
        rewrite ?fmap_cons; cbn [foldr]; lia.
  - rewrite filter_cons, decide_True.
    + rewrite !filter_cons. specialize (IH Hnd Hb).
      destruct (decide (bk_date a = target_date ∧ bk_time_slot a = slot));
        rewrite ?fmap_cons; cbn [foldr]; lia.
    + intros Heq. apply Hni. rewrite Heq. apply list_elem_of_fmap. by exists b.
Qed.

(** X15: [cancel_booking] deletes a booking only for its owner.  With
    unique primary keys, the owner's call removes exactly that booking,
    so the booked visitors of its slot and day go down by its count and
    those of every other slot stay; the call of any other user is
    answered with 404 and leaves the store as it is. *)
Theorem cancel_booking_frees_capacity user_id b db :
  NoDup (bk_id <$> bookings db) →
  b ∈ bookings db →
  bk_user_id b = user_id →
  let r := App.cancel_booking (Some user_id) (bk_id b) db in
  r.1 = Cancelled
  ∧ (∀ x, x ∈ bookings r.2 ↔ x ∈ bookings db ∧ x ≠ b)
  ∧ App.booked_sum (bk_date b) (bk_time_slot b) r.2
    = App.booked_sum (bk_date b) (bk_time_slot b) db - bk_visitors b
  ∧ (∀ target_date slot,
       ¬ (bk_date b = target_date ∧ bk_time_slot b = slot) →
       App.booked_sum target_date slot r.2 = App.booked_sum target_date slot db)
  ∧ (∀ other, other ≠ user_id →
       App.cancel_booking (Some other) (bk_id b) db
       = (BookError 404 "Booking not found" None, db)).
Proof.
  intros Hnd Hb Hu r.
  pose proof (filter_unique_key bk_id (bookings db) b Hnd Hb) as Hf.
  assert (∀ u, filter (λ x, bk_id x = bk_id b ∧ bk_user_id x = u) (bookings db)
               = if decide (u = user_id) then [b] else []) as Hfu.
  { intros u.
    rewrite (list_filter_iff _ (λ x, bk_user_id x = u ∧ bk_id x = bk_id b))
      by (intros x; tauto).
    rewrite <- (list_filter_filter (λ x, bk_user_id x = u)
                  (λ x, bk_id x = bk_id b)), Hf.
    rewrite filter_cons, filter_nil. rewrite Hu.
    destruct (decide (user_id = u)), (decide (u = user_id)); congruence. }
  assert (r = (Cancelled,
               with_bookings (filter (λ x, bk_id x ≠ bk_id b) (bookings db))
                 (next_booking_id db) db)) as Hr.
  { subst r. unfold App.cancel_booking. by rewrite Hfu, decide_True. }
  rewrite Hr. cbn [fst snd]. split_and!.
  - done.
  - intros x. cbn [bookings with_bookings]. rewrite list_elem_of_filter. split.
    + intros [Hne Hx]. split; [done|]. by intros ->.
    + intros [Hx Hne]. split; [|done]. intros Heq. apply Hne.
      by apply (NoDup_fmap_eq bk_id (bookings db)).
  - rewrite booked_sum_remove, decide_True by done. done.
  - intros target_date slot Hother.
    rewrite booked_sum_remove, decide_False by done. lia.
  - intros other Hother. unfold App.cancel_booking.
    by rewrite Hfu, decide_False.
Qed.

Lemma cancel_booking_frees_capacity_witness :
  let b := mkBooking 1 3 739001 (VStr "9AM–10AM") 15 "paid" 1500 None in
  (App.cancel_booking (Some 3%nat) 1 (fifteen_booked 739001)).1 = Cancelled
  ∧ App.cancel_booking (Some 7%nat) 1 (fifteen_booked 739001)
    = (BookError 404 "Booking not found" None, fifteen_booked 739001).
Proof.
  intros b.
  edestruct (cancel_booking_frees_capacity 3%nat b (fifteen_booked 739001))
    as (H1 & _ & _ & _ & H2).
  - by apply (bool_decide_unpack _).
  - vm_compute. left.
  - reflexivity.
  - split; [exact H1|]. apply (H2 7%nat). discriminate.
Defined.

(** ** The wizard, step by step *)

Lemma filter_fmap_pre {A B : Type} (P : B → Prop) `{∀ y, Decision (P y)}
    (f : A → B) (l : list A) :
  filter P (f <$> l) = f <$> filter (λ x, P (f x)) l.
Proof.
  induction l as [|a l IH]; [done|].
  rewrite fmap_cons, !filter_cons, IH. by destruct (decide (P (f a))).
Qed.

(** X16: when a date is selected and some slot of TIME_SLOTS still has
    room on it, [select_date] answers with step 'select_time' and one
    button per slot with room, none for a full slot, in the order of
    TIME_SLOTS; the stored dialogue state moves to 'select_time'. *)
Theorem select_date_offers_open_slots sp iso today req sess db selected_date :
  py_or (rq_date req) (dict_get (rq_booking_data req) "date") = selected_date →
  truthy selected_date = true →
  let target_date := App.date_or_today sp today selected_date in
  let open_slots :=
    filter (λ slot, App.booked_sum target_date (VStr slot) db
                    < App.capacity_of (VStr slot)) App.TIME_SLOTS in
  open_slots ≠ [] →
  let r := App.select_date sp iso today req sess db in
  ∃ resp, r.1 = Replied resp
          ∧ rs_response resp = DateSelected target_date
          ∧ rs_step resp = Some "select_time"
          ∧ rs_buttons resp
            = (λ slot, mkButton "select_time" (VStr slot)) <$> open_slots
          ∧ App.stored_step r.2 = Some (VStr "select_time").
Proof.
  intros Hsel Htr target_date open_slots Hopen r. subst r.
  unfold App.select_date. rewrite Hsel, Htr. simpl negb. cbv iota.
  fold target_date.
  assert (filter (λ s, si_is_full s = false)
            (App.slot_info target_date db <$> App.TIME_SLOTS)
          = App.slot_info target_date db <$> open_slots) as ->.
  { rewrite filter_fmap_pre. f_equal. apply list_filter_iff. intros slot. simpl.
    rewrite bool_decide_eq_false. lia. }
  destruct open_slots as [|slot0 rest] eqn:E; [done|].
  rewrite fmap_cons. cbv iota. cbn [fst snd].
  eexists. split; [reflexivity|]. cbn [rs_response rs_step rs_buttons].
  split_and!; [done|done| |].
  - rewrite <- fmap_cons, <- list_fmap_compose. done.
  - unfold App.stored_step. simpl. by rewrite lookup_insert_eq.
Qed.

Lemma select_date_offers_open_slots_witness :
  ∃ resp,
    (App.select_date (λ _, None) (λ _, "") 739000
       (mkRequest "" (VStr "select_date") VNone ∅ (VStr "today") VNone VNone VNone)
       awaiting_date
       (with_bookings
          [mkBooking 1 3 739000 (VStr "9AM–10AM") 20 "paid" 2000 None] 2 empty_db)).1
    = Replied resp
    ∧ rs_buttons resp
      = [mkButton "select_time" (VStr "10AM–11AM");
         mkButton "select_time" (VStr "11AM–12PM");
         mkButton "select_time" (VStr "1PM–2PM");
         mkButton "select_time" (VStr "2PM–3PM");
         mkButton "select_time" (VStr "3PM–4PM")].
Proof.
  edestruct (select_date_offers_open_slots (λ _, None) (λ _, "") 739000
               (mkRequest "" (VStr "select_date") VNone ∅ (VStr "today") VNone VNone
                  VNone)
               awaiting_date
               (with_bookings
                  [mkBooking 1 3 739000 (VStr "9AM–10AM") 20 "paid" 2000 None] 2
                  empty_db)
               (VStr "today"))
    as (resp & H1 & _ & _ & H2 & _).
  - reflexivity.
  - reflexivity.
  - vm_compute. discriminate.
  - exists resp. split; [exact H1|]. rewrite H2. vm_compute. reflexivity.
Defined.

Ltac decide_names :=
  repeat first [rewrite bool_decide_eq_true_2 by done
               |rewrite bool_decide_eq_false_2 by done].

Lemma select_date_state sp iso today req sess db :
  truthy (py_or (rq_date req) (dict_get (rq_booking_data req) "date")) = true →
  (App.select_date sp iso today req sess db).2
  = App.set_booking
      (<["step" := VStr "select_time"]>
         (<["date" := py_or (rq_date req) (dict_get (rq_booking_data req) "date")]>
            (App.booking_or_empty sess))) sess.
Proof.
  intros H. unfold App.select_date. rewrite H. simpl negb. cbv iota.
  by destruct (filter _ _).
Qed.

(** The stored dialogue state after each of the first four steps of the
    wizard, for a logged-in user. *)
Lemma wizard_step_states sp iso today user_id db :
  (∀ booking0,
     (App.chatbot sp iso today
        (wizard_request "start_booking" VNone VNone VNone VNone)
        (mkFlask (Some user_id) booking0) db).1.2
     = mkFlask (Some user_id)
         (Some (<["step" := VStr "select_date"]>
                  (<["date" := VNone]>
                     (<["time_slot" := VNone]> {["visitors" := VNone]})))))
  ∧ (∀ d date, date ≠ "" →
       (App.chatbot sp iso today
          (wizard_request "select_date" (VStr date) VNone VNone VNone)
          (mkFlask (Some user_id) (Some d)) db).1.2
       = mkFlask (Some user_id)
           (Some (<["step" := VStr "select_time"]> (<["date" := VStr date]> d))))
  ∧ (∀ d slot, slot ≠ "" →
       (App.chatbot sp iso today
          (wizard_request "select_time" VNone (VStr slot) VNone VNone)
          (mkFlask (Some user_id) (Some d)) db).1.2
       = mkFlask (Some user_id)
           (Some (<["step" := VStr "select_visitors"]>
                    (<["time_slot" := VStr slot]> d))))
  ∧ (∀ d visitors, 1 ≤ visitors ≤ 10 →
       (App.chatbot sp iso today
          (wizard_request "select_visitors" VNone VNone (VInt visitors) VNone)
          (mkFlask (Some user_id) (Some d)) db).1.2
       = mkFlask (Some user_id)
           (Some (<["step" := VStr "confirm_booking"]>
                    (<["visitors" := VInt visitors]> d)))).
Proof.
  split_and!.
  - intros booking0. unfold App.chatbot, wizard_request.
    cbn [fs_user_id rq_message rq_action rq_step]. simpl truthy.
    decide_names. cbn [negb andb orb]. done.
  - intros d date Hd. unfold App.chatbot, wizard_request.
    cbn [fs_user_id rq_message rq_action rq_step]. simpl truthy.
    decide_names. cbn [negb andb orb].
    match goal with |- context [App.select_date ?a ?b ?c ?r ?s ?d] =>
      pose proof (select_date_state a b c r s d) as E;
      destruct (App.select_date a b c r s d) as [o sess'] end.
    unfold py_or in E. cbn [rq_date rq_booking_data truthy] in E.
    rewrite bool_decide_eq_false_2 in E by done. cbn [negb fst snd] in *.
    rewrite E; [done|]. simpl. by rewrite bool_decide_eq_false_2.
  - intros d slot Hs. unfold App.chatbot, wizard_request.
    cbn [fs_user_id rq_message rq_action rq_step]. simpl truthy.
    decide_names. cbn [negb andb orb].
    assert (truthy (VStr slot) = true) as Ht
      by (simpl; by rewrite bool_decide_eq_false_2).
    unfold App.select_time, py_or. cbn [rq_time_slot fs_chatbot_booking].
    rewrite !Ht. reflexivity.
  - intros d visitors Hv. unfold App.chatbot, wizard_request.
    cbn [fs_user_id rq_message rq_action rq_step]. simpl truthy.
    decide_names. cbn [negb andb orb].
    match goal with |- context [App.select_visitors ?a ?b ?r ?s] =>
      destruct (select_visitors_on_count a b r s visitors) as [_ E] end.
    { unfold py_or. cbn [rq_visitors truthy].
      destruct (Z.eqb_spec visitors 0); [lia|done]. }
    destruct (E Hv d eq_refl) as (resp & -> & _). done.
Qed.

(** What [confirm_and_pay] answers when the stored dialogue state holds a
    date, a slot and a visitor count. *)
Lemma confirm_and_pay_outcomes sp today req sess db uid date_str time_slot visitors :
  let booking_info := dict_update (App.booking_or_empty sess) (rq_booking_data req) in
  let sess1 :=
    if truthy_dict (rq_booking_data req) then App.set_booking booking_info sess
    else sess in
  fs_user_id sess = Some uid →
  dict_get booking_info "date" = date_str → truthy date_str = true →
  dict_get booking_info "time_slot" = time_slot → truthy time_slot = true →
  dict_get booking_info "visitors" = VInt visitors → visitors ≠ 0 →
  App.confirm_and_pay sp today req sess db
  = match App.date_or_raise sp today date_str with
    | None =>
        (Replied (mkResponse ErrorCreatingBooking None (Some "start_booking")
                    [] None false),
         sess1, db)
    | Some target_date =>
        let booked := App.booked_sum target_date time_slot db in
        let capacity := App.capacity_of time_slot in
        if bool_decide (booked + visitors > capacity) then
          (Replied (mkResponse
                      (OnlySpotsAvailable (Z.max 0 (capacity - booked)) time_slot)
                      (Some "select_time") None
                      [mkButton "select_date" date_str; mkButton "start_booking" VNone]
                      None false),
           sess1, db)
        else
          let cash := bool_decide (rq_payment_type req = VStr "cash") in
          let booking :=
            mkBooking (next_booking_id db) uid target_date time_slot visitors
              (if cash then "cash_pending" else "pending")
              (visitors * App.TICKET_PRICE)
              (if cash then Some "cash" else None) in
          (Replied (mkResponse
                      (if cash then BookingConfirmedCash booking
                       else BookingCreatedOnline booking)
                      None None
                      (if cash
                       then [mkButton "pay_online" VNone;
                             mkButton "view_bookings" VNone]
                       else [mkButton "pay_online" VNone;
                             mkButton "change_to_cash" VNone;
                             mkButton "view_bookings" VNone])
                      None true),
           mkFlask (Some uid) None,
           with_bookings (bookings db ++ [booking]) (S (next_booking_id db)) db)
    end.
Proof.
  intros booking_info sess1 Hu Hd Hdt Ht Htt Hv Hv0.
  assert (truthy (VInt visitors) = true) as Hvt
    by (simpl; by rewrite (proj2 (Z.eqb_neq visitors 0) Hv0)).
  unfold App.confirm_and_pay.
  assert ((if truthy_dict (rq_booking_data req)
           then (dict_update (App.booking_or_empty sess) (rq_booking_data req),
                 App.set_booking
                   (dict_update (App.booking_or_empty sess) (rq_booking_data req)) sess)
           else (App.booking_or_empty sess, sess)) = (booking_info, sess1)) as ->.
  { subst booking_info sess1. destruct (truthy_dict (rq_booking_data req)) eqn:E; [done|].
    f_equal. unfold truthy_dict in E.
    apply negb_false_iff, bool_decide_eq_true in E. rewrite E.
    unfold dict_update. by rewrite (left_id_L ∅ (∪)). }
  assert (∀ x, py_or (dict_get booking_info "date") x = date_str) as E1
    by (intros x; unfold py_or; by rewrite Hd, Hdt).
  assert (∀ x, py_or (dict_get booking_info "time_slot") x = time_slot) as E2
    by (intros x; unfold py_or; by rewrite Ht, Htt).
  assert (∀ x, py_or (dict_get booking_info "visitors") x = VInt visitors) as E3
    by (intros x; unfold py_or; by rewrite Hv, Hvt).
  cbv beta iota zeta. rewrite E1, E2, E3, Hdt, Htt.
  cbn [negb orb py_int default]. rewrite Hdt, Htt. cbn [negb orb].
  change (id visitors) with visitors.
  assert (fs_user_id sess1 = Some uid) as Hu1
    by (subst sess1; by destruct (truthy_dict _)).
  destruct (App.date_or_raise sp today date_str) as [target_date|]; [|done].
  case_bool_decide; [done|]. by rewrite Hu1.
Qed.

(** X17: the wizard books what was chosen.  For a logged-in user, after
    [start_booking], [select_date] with a non-empty date string,
    [select_time] with a non-empty slot string (the wizard does not check
    it against TIME_SLOTS) and [select_visitors] with a count from 1 to
    10, [confirm_and_pay] creates one booking of that user for that day,
    slot and count, priced at the count times TICKET_PRICE, and clears
    the dialogue state, when the count fits the slot; when it does not
    fit, nothing is stored and the dialogue state is kept; and when the
    date string does not parse (which [select_date] accepted, falling
    back to today) the answer is the booking error and nothing is
    stored. *)
Theorem wizard_books_the_choices sp iso today user_id booking0 db date slot visitors
    payment_type :
  date ≠ "" → slot ≠ "" → 1 ≤ visitors ≤ 10 →
  let step req sess := (App.chatbot sp iso today req sess db).1.2 in
  let sess4 :=
    step (wizard_request "select_visitors" VNone VNone (VInt visitors) VNone)
      (step (wizard_request "select_time" VNone (VStr slot) VNone VNone)
         (step (wizard_request "select_date" (VStr date) VNone VNone VNone)
            (step (wizard_request "start_booking" VNone VNone VNone VNone)
               (mkFlask (Some user_id) booking0)))) in
  let r := App.chatbot sp iso today
             (wizard_request "confirm_and_pay" VNone VNone VNone payment_type)
             sess4 db in
  let cash := bool_decide (payment_type = VStr "cash") in
  match App.date_or_raise sp today (VStr date) with
  | Some target_date =>
      let booked := App.booked_sum target_date (VStr slot) db in
      let capacity := App.capacity_of (VStr slot) in
      (booked + visitors ≤ capacity →
       ∃ resp,
         r = (Replied resp, mkFlask (Some user_id) None,
              with_bookings
                (bookings db
                 ++ [mkBooking (next_booking_id db) user_id target_date (VStr slot)
                       visitors (if cash then "cash_pending" else "pending")
                       (visitors * App.TICKET_PRICE)
                       (if cash then Some "cash" else None)])
                (S (next_booking_id db)) db)
         ∧ rs_success resp = true)
      ∧ (booked + visitors > capacity →
         r.2 = db ∧ r.1.2 = sess4
         ∧ ∃ resp, r.1.1 = Replied resp
                   ∧ rs_response resp
                     = OnlySpotsAvailable (Z.max 0 (capacity - booked)) (VStr slot))
  | None =>
      r.2 = db ∧ r.1.2 = sess4
      ∧ ∃ resp, r.1.1 = Replied resp ∧ rs_response resp = ErrorCreatingBooking
  end.
Proof.
  intros Hd Hs Hv step sess4 r cash.
  destruct (wizard_step_states sp iso today user_id db) as (H1 & H2 & H3 & H4).
  assert (∃ d, sess4 = mkFlask (Some user_id) (Some d)
               ∧ dict_get d "date" = VStr date
               ∧ dict_get d "time_slot" = VStr slot
               ∧ dict_get d "visitors" = VInt visitors) as (d & Hsess & Hdd & Hds & Hdv).
  { eexists. subst sess4 step. cbv beta.
    rewrite H1, (H2 _ _ Hd), (H3 _ _ Hs), (H4 _ _ Hv).
    split; [reflexivity|]. unfold dict_get.
    split_and!.
    - rewrite !lookup_insert_ne by done. by rewrite lookup_insert_eq.
    - rewrite !lookup_insert_ne by done. by rewrite lookup_insert_eq.
    - rewrite !lookup_insert_ne by done. by rewrite lookup_insert_eq. }
  clearbody sess4. subst sess4.
  assert (r = App.confirm_and_pay sp today
                (wizard_request "confirm_and_pay" VNone VNone VNone payment_type)
                (mkFlask (Some user_id) (Some d)) db) as Hr.
  { subst r. unfold App.chatbot, wizard_request.
    cbn [fs_user_id rq_message rq_action rq_step]. simpl truthy.
    decide_names. cbn [negb andb orb]. reflexivity. }
  assert (dict_update (App.booking_or_empty (mkFlask (Some user_id) (Some d))) ∅ = d)
    as Hinfo by (unfold dict_update; apply (left_id_L ∅ (∪))).
  rewrite (confirm_and_pay_outcomes sp today _ _ db user_id (VStr date) (VStr slot)
             visitors) in Hr.
  - cbn [rq_booking_data rq_payment_type wizard_request] in Hr. fold cash in Hr.
    change (truthy_dict ∅) with false in Hr. cbv iota in Hr.
    destruct (App.date_or_raise sp today (VStr date)) as [target_date|].
    + cbv zeta in Hr. cbv zeta. split.
      * intros Hfit. rewrite bool_decide_eq_false_2 in Hr by lia.
        eexists. split; [exact Hr|]. done.
      * intros Hfull. rewrite bool_decide_eq_true_2 in Hr by lia.
        rewrite Hr. split_and!; [done|done|]. by eexists.
    + rewrite Hr. split_and!; [done|done|]. by eexists.
  - done.
  - cbn [rq_booking_data wizard_request]. by rewrite Hinfo.
  - simpl. by rewrite bool_decide_eq_false_2.
  - cbn [rq_booking_data wizard_request]. by rewrite Hinfo.
  - simpl. by rewrite bool_decide_eq_false_2.
  - cbn [rq_booking_data wizard_request]. by rewrite Hinfo.
  - lia.
Qed.

Lemma wizard_books_the_choices_witness :
  let step req sess :=
    (App.chatbot (λ _, Some 739010) (λ _, "") 739000 req sess empty_db).1.2 in
  let sess4 :=
    step (wizard_request "select_visitors" VNone VNone (VInt 4) VNone)
      (step (wizard_request "select_time" VNone (VStr "1PM–2PM") VNone VNone)
         (step (wizard_request "select_date" (VStr "2024-05-07") VNone VNone VNone)
            (step (wizard_request "start_booking" VNone VNone VNone VNone)
               (mkFlask (Some 7%nat) None)))) in
  bookings
    (App.chatbot (λ _, Some 739010) (λ _, "") 739000
       (wizard_request "confirm_and_pay" VNone VNone VNone (VStr "cash"))
       sess4 empty_db).2
  = [mkBooking 1 7 739010 (VStr "1PM–2PM") 4 "cash_pending" 400 (Some "cash")].
Proof.
  intros step sess4.
  pose proof (wizard_books_the_choices (λ _, Some 739010) (λ _, "") 739000 7%nat None
                empty_db "2024-05-07" "1PM–2PM" 4 (VStr "cash")
                ltac:(discriminate) ltac:(discriminate) ltac:(lia)) as H.
  cbv zeta in H.
  change (App.date_or_raise (λ _, Some 739010) 739000 (VStr "2024-05-07"))
    with (Some 739010) in H.
  cbv iota beta in H. destruct H as [H _].
  destruct H as (resp & H & _); [vm_compute; discriminate|].
  subst step sess4. cbv beta. rewrite H. reflexivity.
Defined.

(** ** Messages received on the Instagram channel *)

Lemma sessions_ok_create channel_db_id env user_id channel_user_id context db :
  sessions_ok db →
  sessions_ok (BaseChannel.create_session channel_db_id env user_id channel_user_id
                 context db).2.
Proof.
  intros [Hnd Hlt].
  pose proof (create_session_result channel_db_id env user_id channel_user_id
                context db) as Hr. cbv zeta in Hr.
  destruct Hr as (Hss & Hid & Hnx & _).
  rewrite Forall_forall in Hlt. split.
  - rewrite Hss, fmap_app. apply NoDup_app. split_and!; [done| |apply NoDup_singleton].
    intros x (s & -> & Hs)%list_elem_of_fmap Hx. cbn [fmap list_fmap] in Hx.
    apply list_elem_of_singleton in Hx. rewrite Hid in Hx.
    specialize (Hlt s Hs). lia.
  - rewrite Hss, Hnx. apply Forall_app. split.
    + apply Forall_forall. intros s Hs. specialize (Hlt s Hs). lia.
    + apply Forall_singleton. lia.
Qed.

Lemma sessions_ok_save env sid content direction message_type content_url
    channel_message_id db :
  sessions_ok db →
  sessions_ok (BaseChannel.save_message env sid content direction message_type
                 content_url channel_message_id db).2.
Proof.
  intros [Hnd Hlt].
  pose proof (save_message_rows env sid content direction message_type content_url
                channel_message_id db) as Hr. cbv zeta in Hr.
  destruct Hr as (g & Hg & Hss & _ & _ & _ & _ & _ & _ & Hns & _).
  split.
  - rewrite Hss, <- list_fmap_compose.
    erewrite list_fmap_ext; [exact Hnd|]. intros i x _. simpl. apply Hg.
  - rewrite Hss, Hns. apply Forall_fmap. eapply Forall_impl; [exact Hlt|].
    intros x Hx. simpl. by rewrite Hg.
Qed.

(** [receive_message] on a payload whose first entry's first messaging
    event names a sender and carries a text. *)
Lemma instagram_receive_first_event channel_db_id env_create env dt en ev sd msg sender
    text mid rest rest_entries db :
  dt !! "entry" = Some (JArr (JObj en :: rest_entries)) →
  en !! "messaging" = Some (JArr (JObj ev :: rest)) →
  ev !! "sender" = Some (JObj sd) → sd !! "id" = Some (JStr sender) →
  ev !! "message" = Some (JObj msg) → msg !! "text" = Some (JStr text) →
  msg !! "mid" = JStr <$> mid →
  sender ≠ "" →
  InstagramChannel.receive_message channel_db_id env_create env (JObj dt) db
  = let '(session, db1) :=
      match BaseChannel.get_session channel_db_id None (Some sender) db with
      | Some session => (session, db)
      | None =>
          BaseChannel.create_session channel_db_id env_create None (Some sender) None db
      end in
    let '(saved_message, db2) :=
      BaseChannel.save_message env (cs_id session) text "inbound" "text" None mid db1 in
    Ret (Some (default session (find_session (cs_id session) db2), saved_message), db2).
Proof.
  intros H1 H2 H3 H4 H5 H6 H7 Hne.
  unfold InstagramChannel.receive_message, json_get.
  rewrite H1. cbn [from_option id mbind result_bind json_first].
  rewrite H2. cbn [from_option id mbind result_bind json_first].
  rewrite H3. cbn [from_option id mbind result_bind].
  rewrite H4, H5. cbn [from_option id mbind result_bind].
  rewrite H6, H7. cbn [from_option id mbind result_bind json_truthy].
  rewrite bool_decide_eq_false_2 by done. cbn [negb].
  by destruct mid.
Qed.

Lemma instagram_receive_result channel_db_id env_create env dt en ev sd msg sender text
    mid rest rest_entries db :
  dt !! "entry" = Some (JArr (JObj en :: rest_entries)) →
  en !! "messaging" = Some (JArr (JObj ev :: rest)) →
  ev !! "sender" = Some (JObj sd) → sd !! "id" = Some (JStr sender) →
  ev !! "message" = Some (JObj msg) → msg !! "text" = Some (JStr text) →
  msg !! "mid" = JStr <$> mid →
  sender ≠ "" →
  sessions_ok db →
  ∃ session m db2,
    InstagramChannel.receive_message channel_db_id env_create env (JObj dt) db
    = Ret (Some (session, m), db2)
    ∧ sessions_ok db2
    ∧ messages db2 = messages db ++ [m]
    ∧ m = mkMessage (next_message_id db) (cs_id session) "text" "inbound" text None mid
            (env_now env)
    ∧ session ∈ sessions db2
    ∧ cs_channel_user_id session = Some sender
    ∧ cs_channel_id session = channel_db_id
    ∧ cs_status session = "active"
    ∧ (length (sessions db) ≤ length (sessions db2) ≤ S (length (sessions db)))%nat
    ∧ (is_Some (BaseChannel.get_session channel_db_id None (Some sender) db) →
       length (sessions db2) = length (sessions db))
    ∧ (at_most_one_active channel_db_id (Some sender) db →
       length (active_for channel_db_id (Some sender) db2) = 1%nat).
Proof.
  intros H1 H2 H3 H4 H5 H6 H7 Hne Hok.
  rewrite (instagram_receive_first_event channel_db_id env_create env dt en ev sd msg
             sender text mid rest rest_entries db) by done.
  assert (∃ s0 db1,
            match BaseChannel.get_session channel_db_id None (Some sender) db with
            | Some session => (session, db)
            | None =>
                BaseChannel.create_session channel_db_id env_create None (Some sender)
                  None db
            end = (s0, db1)
            ∧ sessions_ok db1
            ∧ s0 ∈ active_for channel_db_id (Some sender) db1
            ∧ messages db1 = messages db
            ∧ next_message_id db1 = next_message_id db
            ∧ (length (sessions db) ≤ length (sessions db1) ≤ S (length (sessions db)))%nat
            ∧ (is_Some (BaseChannel.get_session channel_db_id None (Some sender) db) →
               db1 = db)
            ∧ (at_most_one_active channel_db_id (Some sender) db →
               active_for channel_db_id (Some sender) db1 = [s0]))
    as (s0 & db1 & -> & Hok1 & Hact & Hms & Hnm & Hlen & Hsame & Hone).
  { destruct (BaseChannel.get_session channel_db_id None (Some sender) db)
      as [s0|] eqn:Hg.
    - exists s0, db.
      apply get_session_by_identity in Hg as (Hin & Hcu & Hch & Hst).
      assert (s0 ∈ active_for channel_db_id (Some sender) db) as Hin'
        by by apply list_elem_of_filter.
      split_and!; try done; [lia|].
      unfold at_most_one_active. intros Hone.
      destruct (active_for channel_db_id (Some sender) db) as [|a [|b l]];
        [by apply elem_of_nil in Hin' | | simpl in Hone; lia].
      by apply list_elem_of_singleton in Hin' as ->.
    - apply get_session_by_identity_None in Hg;
        [|simpl; by rewrite bool_decide_eq_false_2].
      pose proof (create_session_result channel_db_id env_create None (Some sender) None
                    db) as Hr.
      pose proof (sessions_ok_create channel_db_id env_create None (Some sender) None db
                    Hok) as Hok1.
      cbv zeta in Hr.
      destruct (BaseChannel.create_session channel_db_id env_create None (Some sender)
                  None db) as [s0 db1] eqn:Hc.
      cbn [fst snd] in Hr, Hok1.
      destruct Hr as (Hss & _ & _ & Hch & Hcu & _ & Hst & _).
      assert (active_for channel_db_id (Some sender) db1 = [s0]) as Hact.
      { unfold active_for in *. rewrite Hss, filter_app, Hg.
        by rewrite filter_cons, decide_True. }
      exists s0, db1. split_and!; try done.
      + rewrite Hact. left.
      + unfold BaseChannel.create_session in Hc. by injection Hc as _ <-.
      + unfold BaseChannel.create_session in Hc. by injection Hc as _ <-.
      + rewrite Hss, length_app. simpl. lia.
      + rewrite Hss, length_app. simpl. lia. }
  pose proof (save_message_rows env (cs_id s0) text "inbound" "text" None mid db1) as Hr.
  pose proof (save_message_result env (cs_id s0) text "inbound" "text" None mid db1)
    as Hr'.
  pose proof (sessions_ok_save env (cs_id s0) text "inbound" "text" None mid db1 Hok1)
    as Hok2.
  cbv zeta in Hr, Hr'.
  destruct (BaseChannel.save_message env (cs_id s0) text "inbound" "text" None mid db1)
    as [m db2] eqn:Hs.
  cbn [fst snd] in Hr, Hr', Hok2.
  destruct Hr as (g & Hg & Hss & Hactg & Hm & _).
  destruct Hr' as (_ & Hmsg & _).
  assert (find_session (cs_id s0) db2 = Some (g s0)) as Hfind.
  { unfold find_session. rewrite Hss, filter_fmap_commute, head_fmap_list.
    - destruct Hok1 as [Hnd _].
      apply list_elem_of_filter in Hact as [_ Hin].
      by rewrite (filter_unique_key cs_id (sessions db1) s0 Hnd Hin).
    - intros x. by rewrite Hg. }
  rewrite Hfind. cbn [default from_option id].
  assert (g s0 ∈ active_for channel_db_id (Some sender) db2) as Hin2.
  { rewrite Hactg. apply list_elem_of_fmap. by exists s0. }
  apply list_elem_of_filter in Hin2 as ((Hch2 & Hcu2 & Hst2) & Hin2).
  exists (g s0), m, db2. split_and!; try done.
  - by rewrite Hm, Hms.
  - by rewrite Hmsg, Hg, Hnm.
  - rewrite Hss, length_fmap. lia.
  - rewrite Hss, length_fmap. lia.
  - intros Hsome. by rewrite Hss, length_fmap, (Hsame Hsome).
  - intros H. by rewrite Hactg, (Hone H).
Qed.

(** X18: [receive_message] of the Instagram channel reads the first
    messaging event of the first entry of the payload and nothing else.
    When that event names a non-empty sender and carries a text, the
    text is stored as one inbound message, with the event's mid, in a
    session of the channel that is active for the sender: the one found
    by the identity lookup, or a new one when there is none; a sender
    with at most one active session before has exactly one after.  A
    payload that is an empty object names no sender: the result is
    [None] and the store is untouched.  An empty entry list raises
    IndexError, and a payload that is a list raises AttributeError. *)
Theorem instagram_receive_message_first_event channel_db_id env_create env dt en ev sd
    msg sender text mid rest rest_entries db :
  dt !! "entry" = Some (JArr (JObj en :: rest_entries)) →
  en !! "messaging" = Some (JArr (JObj ev :: rest)) →
  ev !! "sender" = Some (JObj sd) → sd !! "id" = Some (JStr sender) →
  ev !! "message" = Some (JObj msg) → msg !! "text" = Some (JStr text) →
  msg !! "mid" = JStr <$> mid →
  sender ≠ "" →
  sessions_ok db →
  (∃ session m db2,
     InstagramChannel.receive_message channel_db_id env_create env (JObj dt) db
     = Ret (Some (session, m), db2)
     ∧ messages db2 = messages db ++ [m]
     ∧ cm_content m = text ∧ cm_direction m = "inbound"
     ∧ cm_channel_message_id m = mid ∧ cm_session_id m = cs_id session
     ∧ session ∈ sessions db2
     ∧ cs_channel_user_id session = Some sender
     ∧ cs_channel_id session = channel_db_id
     ∧ cs_status session = "active"
     ∧ (is_Some (BaseChannel.get_session channel_db_id None (Some sender) db) →
        length (sessions db2) = length (sessions db))
     ∧ (length (sessions db2) ≤ S (length (sessions db)))%nat
     ∧ (at_most_one_active channel_db_id (Some sender) db →
        length (active_for channel_db_id (Some sender) db2) = 1%nat))
  ∧ InstagramChannel.receive_message channel_db_id env_create env (JObj ∅) db
    = Ret (None, db)
  ∧ InstagramChannel.receive_message channel_db_id env_create env
      (JObj {["entry" := JArr []]}) db = Exn "IndexError"
  ∧ (∀ l, InstagramChannel.receive_message channel_db_id env_create env (JArr l) db
          = Exn "AttributeError").
Proof.
  intros H1 H2 H3 H4 H5 H6 H7 Hne Hok. split_and!.
  - destruct (instagram_receive_result channel_db_id env_create env dt en ev sd msg
                sender text mid rest rest_entries db)
      as (session & m & db2 & Hr & _ & Hm & Hmsg & Hin & Hcu & Hch & Hst & Hlen & Hsame
          & Hone); try done.
    exists session, m, db2. split_and!; try done; try (by rewrite Hmsg). lia.
  - reflexivity.
  - reflexivity.
  - intros l. reflexivity.
Qed.

Lemma instagram_receive_message_first_event_witness :
  ∃ session m db2,
    InstagramChannel.receive_message 1 (mkEnv 10 "s-1") (mkEnv 11 "")
      (JObj {["entry" :=
                JArr [JObj {["messaging" :=
                               JArr [JObj (<["sender" := JObj {["id" := JStr "ig-42"]}]>
                                             {["message" :=
                                                 JObj (<["text" := JStr "hello"]>
                                                         {["mid" := JStr "m-1"]})]})]]}]]})
      empty_db
    = Ret (Some (session, m), db2)
    ∧ cm_content m = "hello" ∧ cs_channel_user_id session = Some "ig-42".
Proof.
  edestruct (instagram_receive_message_first_event 1 (mkEnv 10 "s-1") (mkEnv 11 "")
               {["entry" :=
                   JArr [JObj {["messaging" :=
                                  JArr [JObj (<["sender" := JObj {["id" := JStr "ig-42"]}]>
                                                {["message" :=
                                                    JObj (<["text" := JStr "hello"]>
                                                            {["mid" := JStr "m-1"]})]})]]}]]}
               {["messaging" :=
                   JArr [JObj (<["sender" := JObj {["id" := JStr "ig-42"]}]>
                                 {["message" :=
                                     JObj (<["text" := JStr "hello"]>
                                             {["mid" := JStr "m-1"]})]})]]}
               (<["sender" := JObj {["id" := JStr "ig-42"]}]>
                  {["message" := JObj (<["text" := JStr "hello"]> {["mid" := JStr "m-1"]})]})
               {["id" := JStr "ig-42"]}
               (<["text" := JStr "hello"]> {["mid" := JStr "m-1"]})
               "ig-42" "hello" (Some "m-1") [] [] empty_db)
    as [(session & m & db2 & Hr & _ & Hc & _ & _ & _ & _ & Hcu & _) _].
  - reflexivity.
  - reflexivity.
  - reflexivity.
  - reflexivity.
  - reflexivity.
  - reflexivity.
  - reflexivity.
  - discriminate.
  - split; [apply NoDup_nil_2 | apply Forall_nil_2].
  - exists session, m, db2. split_and!; done.
Defined.

(** ** The Instagram webhook *)

Lemma handle_event_first get_chatbot_response post_message channel_db_id env_create env
    env_send en ev sd msg sender text mid rest out_id db :
  en !! "messaging" = Some (JArr (JObj ev :: rest)) →
  ev !! "sender" = Some (JObj sd) → sd !! "id" = Some (JStr sender) →
  ev !! "message" = Some (JObj msg) → msg !! "text" = Some (JStr text) →
  msg !! "mid" = JStr <$> mid →
  sender ≠ "" →
  post_message sender (get_chatbot_response text) = Some out_id →
  sessions_ok db →
  ∃ db' m_in m_out,
    ApiRoutes.handle_event get_chatbot_response post_message channel_db_id env_create
      env env_send (JObj en) db = (ApiRoutes.Going, db')
    ∧ sessions_ok db'
    ∧ messages db' = messages db ++ [m_in; m_out]
    ∧ cm_direction m_in = "inbound" ∧ cm_content m_in = text
    ∧ cm_direction m_out = "outbound" ∧ cm_content m_out = get_chatbot_response text
    ∧ cm_session_id m_out = cm_session_id m_in
    ∧ (length (sessions db) ≤ length (sessions db'))%nat.
Proof.
  intros H2 H3 H4 H5 H6 H7 Hne Hpost Hok.
  destruct (instagram_receive_result channel_db_id env_create env
              {["entry" := JArr [JObj en]]} en ev sd msg sender text mid rest [] db)
    as (session & m & db2 & Hr & Hok2 & Hm & Hmsg & Hin & Hcu & Hch & Hst & Hlen & _);
    try done.
  unfold ApiRoutes.handle_event. rewrite Hr.
  unfold InstagramChannel.send_message. rewrite Hcu.
  rewrite bool_decide_eq_false_2 by done.
  assert (cm_content m = text) as -> by by rewrite Hmsg.
  rewrite Hpost.
  pose proof (save_message_rows env_send (cs_id session) (get_chatbot_response text)
                "outbound" "text" None out_id db2) as Hs.
  pose proof (sessions_ok_save env_send (cs_id session) (get_chatbot_response text)
                "outbound" "text" None out_id db2 Hok2) as Hok3.
  cbv zeta in Hs.
  destruct (BaseChannel.save_message env_send (cs_id session)
              (get_chatbot_response text) "outbound" "text" None out_id db2)
    as [m_out db3].
  cbn [fst snd] in Hs, Hok3.
  destruct Hs as (g & _ & Hss & _ & Hm3 & Hsid & Hc & Hd & _).
  exists db3, m, m_out. split_and!; try done.
  - by rewrite Hm3, Hm, <- app_assoc.
  - by rewrite Hmsg.
  - by rewrite Hmsg.
  - by rewrite Hsid, Hmsg.
  - rewrite Hss, length_fmap. lia.
Qed.

(** The inner loop runs once per messaging event, and every run handles
    the first event of the entry. *)
Lemma handle_events_repeat get_chatbot_response post_message env_at channel_db_id en ev
    sd msg sender text mid rest out_id (messaging : list json) :
  en !! "messaging" = Some (JArr (JObj ev :: rest)) →
  ev !! "sender" = Some (JObj sd) → sd !! "id" = Some (JStr sender) →
  ev !! "message" = Some (JObj msg) → msg !! "text" = Some (JStr text) →
  msg !! "mid" = JStr <$> mid →
  sender ≠ "" →
  post_message sender (get_chatbot_response text) = Some out_id →
  ∀ k db, sessions_ok db →
    ∃ db' new,
      ApiRoutes.handle_events get_chatbot_response post_message env_at channel_db_id
        messaging k (JObj en) db = (ApiRoutes.Going, (k + length messaging)%nat, db')
      ∧ sessions_ok db'
      ∧ messages db' = messages db ++ new
      ∧ (λ m, (cm_direction m, cm_content m)) <$> new
        = mjoin (replicate (length messaging)
                   [("inbound", text); ("outbound", get_chatbot_response text)]).
Proof.
  intros H2 H3 H4 H5 H6 H7 Hne Hpost.
  induction messaging as [|e l IH]; intros k db Hok.
  { exists db, []. cbn [ApiRoutes.handle_events length]. rewrite Nat.add_0_r.
    split_and!; try done. by rewrite app_nil_r. }
  destruct (handle_event_first get_chatbot_response post_message channel_db_id
              (env_at (3 * k)%nat) (env_at (3 * k + 1)%nat) (env_at (3 * k + 2)%nat)
              en ev sd msg sender text mid rest out_id db)
    as (db1 & m_in & m_out & He & Hok1 & Hm1 & Hd1 & Hc1 & Hd2 & Hc2 & _); try done.
  destruct (IH (S k) db1 Hok1) as (db' & new & Hl & Hok' & Hm' & Hnew).
  exists db', (m_in :: m_out :: new).
  cbn [ApiRoutes.handle_events]. rewrite He, Hl. split_and!.
  - f_equal. f_equal. simpl. lia.
  - done.
  - rewrite Hm', Hm1, <- app_assoc. done.
  - cbn [length replicate mjoin list_join]. rewrite !fmap_cons, Hnew, Hd1, Hc1, Hd2, Hc2.
    done.
Qed.

(** X19: the POST of [instagram_webhook] handles the first messaging
    event of an entry once for every event the entry carries, and never
    reads the others.  For a payload with one entry whose first event
    names a non-empty sender and carries a text (the send API accepting
    the reply), the request succeeds and stores, for an entry of n
    events, n times the first event's text inbound followed by the reply
    to it outbound, whatever the other events are. *)
Theorem instagram_webhook_repeats_first_event get_chatbot_response post_message env_at
    dt en ev sd msg sender text mid rest out_id db :
  dt !! "entry" = Some (JArr [JObj en]) →
  en !! "messaging" = Some (JArr (JObj ev :: rest)) →
  ev !! "sender" = Some (JObj sd) → sd !! "id" = Some (JStr sender) →
  ev !! "message" = Some (JObj msg) → msg !! "text" = Some (JStr text) →
  msg !! "mid" = JStr <$> mid →
  sender ≠ "" →
  post_message sender (get_chatbot_response text) = Some out_id →
  sessions_ok db →
  ∃ db' new,
    ApiRoutes.instagram_webhook_post get_chatbot_response post_message env_at
      (JObj dt) db = (Success, db')
    ∧ messages db' = messages db ++ new
    ∧ (λ m, (cm_direction m, cm_content m)) <$> new
      = mjoin (replicate (S (length rest))
                 [("inbound", text); ("outbound", get_chatbot_response text)]).
Proof.
  intros H1 H2 H3 H4 H5 H6 H7 Hne Hpost Hok.
  unfold ApiRoutes.instagram_webhook_post.
  pose proof (get_or_create_channel_cases "instagram" "social" db) as Hc.
  cbv zeta in Hc.
  destruct (BaseChannel._get_or_create_channel "instagram" "social" db)
    as [channel db1] eqn:Hch.
  cbn [fst snd] in Hc.
  assert (sessions db1 = sessions db ∧ next_session_id db1 = next_session_id db
          ∧ messages db1 = messages db) as (Hss & Hns & Hms).
  { unfold BaseChannel._get_or_create_channel in Hch.
    destruct (head _); by injection Hch as _ <-. }
  assert (sessions_ok db1) as Hok1
    by (unfold sessions_ok; by rewrite Hss, Hns).
  assert (json_truthy (JObj dt) = true) as ->.
  { simpl. rewrite bool_decide_eq_false_2; [done|].
    intros Hempty. apply map_to_list_empty_iff in Hempty. subst dt.
    by rewrite lookup_empty in H1. }
  unfold json_get. rewrite H1.
  cbn [from_option id mbind result_bind json_iter ApiRoutes.handle_entries].
  unfold json_get. rewrite H2.
  cbn [from_option id mbind result_bind json_iter].
  destruct (handle_events_repeat get_chatbot_response post_message env_at (ch_id channel)
              en ev sd msg sender text mid rest out_id (JObj ev :: rest)
              H2 H3 H4 H5 H6 H7 Hne Hpost 0%nat db1 Hok1)
    as (db' & new & -> & _ & Hm & Hnew).
  exists db', new. split_and!; [done| by rewrite Hm, Hms | done].
Qed.

Lemma instagram_webhook_repeats_first_event_witness :
  let first :=
    <["sender" := JObj {["id" := JStr "ig-42"]}]>
      {["message" := JObj (<["text" := JStr "hello"]> {["mid" := JStr "m-1"]})]} in
  let second :=
    JObj (<["sender" := JObj {["id" := JStr "ig-77"]}]>
            {["message" := JObj (<["text" := JStr "bye"]> {["mid" := JStr "m-2"]})]}) in
  ∃ db' new,
    ApiRoutes.instagram_webhook_post (λ _, "hi") (λ _ _, Some None) (λ k, mkEnv 10 "s-1")
      (JObj {["entry" := JArr [JObj {["messaging" := JArr [JObj first; second]]}]]})
      empty_db = (Success, db')
    ∧ messages db' = new
    ∧ cm_content <$> new = ["hello"; "hi"; "hello"; "hi"].
Proof.
  intros first second.
  edestruct (instagram_webhook_repeats_first_event (λ _, "hi") (λ _ _, Some None)
               (λ k, mkEnv 10 "s-1")
               {["entry" := JArr [JObj {["messaging" := JArr [JObj first; second]]}]]}
               {["messaging" := JArr [JObj first; second]]}
               first {["id" := JStr "ig-42"]}
               (<["text" := JStr "hello"]> {["mid" := JStr "m-1"]})
               "ig-42" "hello" (Some "m-1") [second] None empty_db)
    as (db' & new & Hr & Hm & Hnew).
  - reflexivity.
  - reflexivity.
  - reflexivity.
  - reflexivity.
  - reflexivity.
  - reflexivity.
  - reflexivity.
  - discriminate.
  - reflexivity.
  - split; [apply NoDup_nil_2 | apply Forall_nil_2].
  - exists db', new. split_and!; [exact Hr | exact Hm |].
    apply (f_equal (fmap snd)) in Hnew. rewrite <- list_fmap_compose in Hnew.
    exact Hnew.
Defined.

(** X20: the verification GET of [instagram_webhook] answers 200 with
    the challenge exactly when the mode is 'subscribe', the token equals
    the configured one and the challenge is a non-empty string, and 403
    'Forbidden' otherwise; when the variable is not configured, a request
    without a token passes the comparison.  The request builds the
    channel object, so afterwards the channel table has a row named
    'instagram'; sessions and messages are not touched. *)
Theorem instagram_webhook_get_answers INSTAGRAM_VERIFY_TOKEN mode token challenge db :
  let r := ApiRoutes.instagram_webhook_get INSTAGRAM_VERIFY_TOKEN mode token challenge
             db in
  (∀ c, r.1 = (200%nat, c)
        ↔ mode = Some "subscribe" ∧ token = INSTAGRAM_VERIFY_TOKEN
          ∧ challenge = Some c ∧ c ≠ "")
  ∧ (r.1.1 ≠ 200%nat → r.1 = (403%nat, "Forbidden"))
  ∧ (INSTAGRAM_VERIFY_TOKEN = None → mode = Some "subscribe" → token = None →
     ∀ c, challenge = Some c → c ≠ "" → r.1 = (200%nat, c))
  ∧ (∃ c, c ∈ channels r.2 ∧ ch_name c = "instagram")
  ∧ sessions r.2 = sessions db ∧ messages r.2 = messages db.
Proof.
  intros r. subst r.
  pose proof (get_or_create_channel_cases "instagram" "social" db) as Hc.
  cbv zeta in Hc.
  destruct (BaseChannel._get_or_create_channel "instagram" "social" db)
    as [channel db1] eqn:Hch.
  cbn [fst snd] in Hc. destruct Hc as (Hname & Hin & _).
  assert (sessions db1 = sessions db ∧ messages db1 = messages db) as [Hss Hms].
  { unfold BaseChannel._get_or_create_channel in Hch.
    destruct (head _); by injection Hch as _ <-. }
  assert ((ApiRoutes.instagram_webhook_get INSTAGRAM_VERIFY_TOKEN mode token challenge
             db).1
          = if decide (mode = Some "subscribe" ∧ token = INSTAGRAM_VERIFY_TOKEN)
            then match challenge with
                 | Some c => if decide (c = "") then (403%nat, "Forbidden")
                             else (200%nat, c)
                 | None => (403%nat, "Forbidden")
                 end
            else (403%nat, "Forbidden")) as Hr.
  { unfold ApiRoutes.instagram_webhook_get. rewrite Hch.
    unfold InstagramChannel.authenticate.
    destruct (decide (mode = Some "subscribe" ∧ token = INSTAGRAM_VERIFY_TOKEN))
      as [[Hm Ht]|Hn].
    - rewrite (bool_decide_eq_true_2 _ Hm), (bool_decide_eq_true_2 _ Ht). cbn [andb].
      destruct challenge as [c0|]; [|done].
      destruct (decide (c0 = "")) as [->|Hc0].
      + by rewrite bool_decide_eq_true_2.
      + by rewrite bool_decide_eq_false_2.
    - destruct (bool_decide (mode = Some "subscribe")) eqn:E1;
        destruct (bool_decide (token = INSTAGRAM_VERIFY_TOKEN)) eqn:E2;
        cbn [andb]; try done.
      apply bool_decide_eq_true in E1, E2. by destruct Hn. }
  assert ((ApiRoutes.instagram_webhook_get INSTAGRAM_VERIFY_TOKEN mode token challenge
             db).2 = db1) as Hdb.
  { unfold ApiRoutes.instagram_webhook_get. rewrite Hch.
    by repeat case_match. }
  rewrite Hr, Hdb. clear Hr Hdb. split_and!.
  - intros c.
    destruct (decide (mode = Some "subscribe" ∧ token = INSTAGRAM_VERIFY_TOKEN))
      as [[Hm Ht]|Hn].
    + destruct challenge as [c0|].
      * destruct (decide (c0 = "")) as [->|Hc0].
        -- split; [done|]. by intros (_ & _ & [= <-] & ?).
        -- split; [by intros [= <-] | by intros (_ & _ & [= <-] & _)].
      * split; [done | by intros (_ & _ & ? & _)].
    + split; [done|]. intros (? & ? & _). by destruct Hn.
  - destruct (decide (mode = Some "subscribe" ∧ token = INSTAGRAM_VERIFY_TOKEN));
      [|done].
    destruct challenge as [c0|]; [|done]. by destruct (decide (c0 = "")).
  - intros -> -> -> c -> Hc.
    rewrite decide_True by done. by rewrite decide_False.
  - by exists channel.
  - done.
  - done.
Qed.

Lemma instagram_webhook_get_answers_witness :
  (ApiRoutes.instagram_webhook_get None (Some "subscribe") None (Some "1158201444")
     empty_db).1 = (200%nat, "1158201444")
  ∧ (ApiRoutes.instagram_webhook_get (Some "s3cret") (Some "subscribe") (Some "guess")
       (Some "1158201444") empty_db).1 = (403%nat, "Forbidden").
Proof.
  split.
  - apply (proj1 (instagram_webhook_get_answers None (Some "subscribe") None
                    (Some "1158201444") empty_db) "1158201444").
    + done.
  - apply (proj1 (proj2 (instagram_webhook_get_answers (Some "s3cret")
                           (Some "subscribe") (Some "guess") (Some "1158201444")
                           empty_db))).
    vm_compute. discriminate.
Defined.

(** X21: when the send API refuses the reply to the first event, the
    POST of [instagram_webhook] answers 500, yet the inbound message is
    already stored and stays; no outbound message is stored and no
    further event is handled.  The same happens, with the ValueError of
    [send_message] in place of the refused request, whenever the send
    API is not reached at all: nothing is posted for a session without
    channel_user_id. *)
Theorem instagram_webhook_failed_send_keeps_inbound get_chatbot_response post_message
    env_at dt en ev sd msg sender text mid rest db :
  dt !! "entry" = Some (JArr [JObj en]) →
  en !! "messaging" = Some (JArr (JObj ev :: rest)) →
  ev !! "sender" = Some (JObj sd) → sd !! "id" = Some (JStr sender) →
  ev !! "message" = Some (JObj msg) → msg !! "text" = Some (JStr text) →
  msg !! "mid" = JStr <$> mid →
  sender ≠ "" →
  post_message sender (get_chatbot_response text) = None →
  sessions_ok db →
  (∃ db' m_in,
     ApiRoutes.instagram_webhook_post get_chatbot_response post_message env_at
       (JObj dt) db = (ApiError 500 "Webhook processing failed", db')
     ∧ messages db' = messages db ++ [m_in]
     ∧ cm_direction m_in = "inbound" ∧ cm_content m_in = text)
  ∧ (∀ env session message db0,
       cs_channel_user_id session = None ∨ cs_channel_user_id session = Some "" →
       InstagramChannel.send_message post_message env session message db0
       = Exn "ValueError").
Proof.
  intros H1 H2 H3 H4 H5 H6 H7 Hne Hpost Hok. split.
  - unfold ApiRoutes.instagram_webhook_post.
    destruct (BaseChannel._get_or_create_channel "instagram" "social" db)
      as [channel db1] eqn:Hch.
    assert (sessions db1 = sessions db ∧ next_session_id db1 = next_session_id db
            ∧ messages db1 = messages db) as (Hss & Hns & Hms).
    { unfold BaseChannel._get_or_create_channel in Hch.
      destruct (head _); by injection Hch as _ <-. }
    assert (sessions_ok db1) as Hok1
      by (unfold sessions_ok; by rewrite Hss, Hns).
    assert (json_truthy (JObj dt) = true) as ->.
    { simpl. rewrite bool_decide_eq_false_2; [done|].
      intros Hempty. apply map_to_list_empty_iff in Hempty. subst dt.
      by rewrite lookup_empty in H1. }
    unfold json_get. rewrite H1.
    cbn [from_option id mbind result_bind json_iter ApiRoutes.handle_entries].
    unfold json_get. rewrite H2.
    cbn [from_option id mbind result_bind json_iter ApiRoutes.handle_events].
    destruct (instagram_receive_result (ch_id channel) (env_at (3 * 0)%nat)
                (env_at (3 * 0 + 1)%nat) {["entry" := JArr [JObj en]]} en ev sd msg
                sender text mid rest [] db1)
      as (session & m & db2 & Hr & _ & Hm & Hmsg & _ & Hcu & _); try done.
    unfold ApiRoutes.handle_event. rewrite Hr.
    unfold InstagramChannel.send_message. rewrite Hcu.
    rewrite bool_decide_eq_false_2 by done.
    assert (cm_content m = text) as -> by by rewrite Hmsg.
    rewrite Hpost. exists db2, m. split_and!; [done| by rewrite Hm, Hms |..];
      by rewrite Hmsg.
  - intros env session message db0 [Hn|Hn];
      unfold InstagramChannel.send_message; by rewrite Hn.
Qed.

Lemma instagram_webhook_failed_send_keeps_inbound_witness :
  let first :=
    <["sender" := JObj {["id" := JStr "ig-42"]}]>
      {["message" := JObj (<["text" := JStr "hello"]> {["mid" := JStr "m-1"]})]} in
  ∃ db' m_in,
    ApiRoutes.instagram_webhook_post (λ _, "hi") (λ _ _, None) (λ k, mkEnv 10 "s-1")
      (JObj {["entry" := JArr [JObj {["messaging" := JArr [JObj first]]}]]})
      empty_db = (ApiError 500 "Webhook processing failed", db')
    ∧ messages db' = [m_in] ∧ cm_content m_in = "hello".
Proof.
  intros first.
  edestruct (instagram_webhook_failed_send_keeps_inbound (λ _, "hi") (λ _ _, None)
               (λ k, mkEnv 10 "s-1")
               {["entry" := JArr [JObj {["messaging" := JArr [JObj first]]}]]}
               {["messaging" := JArr [JObj first]]}
               first {["id" := JStr "ig-42"]}
               (<["text" := JStr "hello"]> {["mid" := JStr "m-1"]})
               "ig-42" "hello" (Some "m-1") [] empty_db)
    as [(db' & m_in & Hr & Hm & _ & Hc) _].
  - reflexivity.
  - reflexivity.
  - reflexivity.
  - reflexivity.
  - reflexivity.
  - reflexivity.
  - reflexivity.
  - discriminate.
  - reflexivity.
  - split; [apply NoDup_nil_2 | apply Forall_nil_2].
  - exists db', m_in. split_and!; [exact Hr | exact Hm | exact Hc].
Defined.

(** ** Encrypted dicts *)

(** X22: [decrypt_dict] undoes [encrypt_dict], for a cipher whose
    [decrypt] returns what [encrypt] was given and whose tokens are never
    the empty string: keys, non-string values and empty strings are left
    alone by both, and every other value comes back.  And a dict whose
    non-empty strings are not tokens of the cipher is returned unchanged
    by [decrypt_dict]: a failed decryption keeps the value. *)
Theorem decrypt_dict_undoes_encrypt_dict encrypt decrypt (d : dict) :
  ((∀ k v, decrypt (encrypt k v) = Some v) →
   (∀ k v, encrypt k v ≠ "") →
   EncryptionManager.decrypt_dict decrypt (EncryptionManager.encrypt_dict encrypt d) = d)
  ∧ ((∀ k v, d !! k = Some (VStr v) → decrypt v = None) →
     EncryptionManager.decrypt_dict decrypt d = d)
  ∧ (∀ k, is_Some (EncryptionManager.encrypt_dict encrypt d !! k) ↔ is_Some (d !! k))
  ∧ (∀ k v, d !! k = Some (VStr v) → v ≠ "" →
       EncryptionManager.encrypt_dict encrypt d !! k = Some (VStr (encrypt k v))).
Proof.
  unfold EncryptionManager.decrypt_dict, EncryptionManager.encrypt_dict. split_and!.
  - intros Hrt Hne. apply map_eq. intros k.
    rewrite lookup_fmap, map_lookup_imap.
    destruct (d !! k) as [[| | |v]|]; try done. simpl.
    destruct (decide (v = "")) as [->|Hv].
    + rewrite bool_decide_eq_true_2 by done. done.
    + rewrite (bool_decide_eq_false_2 _ Hv). simpl.
      rewrite bool_decide_eq_false_2 by apply Hne. simpl. by rewrite Hrt.
  - intros Hplain. apply map_eq. intros k. rewrite lookup_fmap.
    destruct (d !! k) as [[| | |v]|] eqn:E; try done. simpl.
    destruct (negb _); [|done]. by rewrite (Hplain k v E).
  - intros k. rewrite map_lookup_imap.
    destruct (d !! k); simpl; split; intros [? ?]; try done; by eexists.
  - intros k v Hk Hv. rewrite map_lookup_imap, Hk. simpl.
    by rewrite (bool_decide_eq_false_2 _ Hv).
Qed.

Lemma decrypt_dict_undoes_encrypt_dict_witness :
  let encrypt (k v : string) := "t:" +:+ v in
  let decrypt (t : string) :=
    match t with
    | String "t" (String ":" v) => Some v
    | _ => None
    end in
  let d : dict := <["email" := VStr "a@b.c"]> (<["note" := VStr ""]> {["age" := VInt 30]}) in
  EncryptionManager.decrypt_dict decrypt (EncryptionManager.encrypt_dict encrypt d) = d.
Proof.
  intros encrypt decrypt d.
  apply (proj1 (decrypt_dict_undoes_encrypt_dict encrypt decrypt d)).
  - intros k v. reflexivity.
  - intros k v. discriminate.
Defined.

(** ** Availability *)

Lemma api_book_result sp user_id date_str slot visitors target_date db :
  date_str ≠ "" → sp date_str = Some target_date → slot ∈ App.TIME_SLOTS →
  App.api_book sp (Some user_id) (VStr date_str) (VStr slot) (Some (VInt visitors)) db
  = if bool_decide (App.booked_sum target_date (VStr slot) db + visitors
                    > App.capacity_of (VStr slot))
    then (BookError 409 "slot_full_or_not_enough_capacity"
            (Some (Z.max 0 (App.capacity_of (VStr slot)
                            - App.booked_sum target_date (VStr slot) db))), db)
    else (Booked (mkBooking (next_booking_id db) user_id target_date (VStr slot)
                    visitors "pending" 0 None),
          with_bookings
            (bookings db
             ++ [mkBooking (next_booking_id db) user_id target_date (VStr slot)
                   visitors "pending" 0 None])
            (S (next_booking_id db)) db).
Proof.
  intros Hd Hsp Hslot.
  pose proof (TIME_SLOTS_truthy slot Hslot) as Hs.
  assert (VStr slot ∈ VStr <$> App.TIME_SLOTS) as Hin
    by (apply list_elem_of_fmap; by exists slot).
  unfold App.api_book.
  change (py_int (default (VInt 1) (Some (VInt visitors)))) with (Some visitors).
  cbv beta iota. simpl truthy.
  rewrite !bool_decide_eq_false_2 by done. cbn [negb orb]. rewrite Hsp.
  rewrite (bool_decide_eq_true_2 _ Hin). cbn [negb]. done.
Qed.

(** X23: [/api/availability] and [/api/book] agree.  For a date that
    parses, the answer lists the TIME_SLOTS in order, each with its
    capacity, the visitors booked, [remaining = max(0, capacity -
    booked)] and [is_full] exactly when nothing remains; and [/api/book]
    accepts a count of at least one for a listed slot exactly when the
    count is at most the [remaining] listed for it.  A date that does
    not parse gives the 400 answer. *)
Theorem api_availability_agrees_with_api_book sp date_str db :
  date_str ≠ "" →
  match App.api_availability sp date_str db with
  | None => sp date_str = None
  | Some slots =>
      av_time_slot <$> slots = App.TIME_SLOTS
      ∧ ∀ a, a ∈ slots →
          av_remaining a = Z.max 0 (av_capacity a - av_booked a)
          ∧ av_capacity a = App.capacity_of (VStr (av_time_slot a))
          ∧ (av_is_full a = true ↔ av_remaining a = 0)
          ∧ ∀ user_id visitors, 1 ≤ visitors →
              (∃ b db', App.api_book sp (Some user_id) (VStr date_str)
                          (VStr (av_time_slot a)) (Some (VInt visitors)) db
                        = (Booked b, db'))
              ↔ visitors ≤ av_remaining a
  end.
Proof.
  intros Hd. unfold App.api_availability.
  destruct (sp date_str) as [target_date|] eqn:Hsp; [|done].
  cbn [mbind option_bind]. split.
  - rewrite <- list_fmap_compose. apply list_fmap_id.
  - intros a (slot & -> & Hslot)%list_elem_of_fmap.
    cbn [av_remaining av_capacity av_booked av_is_full av_time_slot].
    split_and!; [done|done| |].
    + rewrite bool_decide_eq_true. lia.
    + intros user_id visitors Hv.
      rewrite (api_book_result sp user_id date_str slot visitors target_date db)
        by done.
      case_bool_decide as Hfull; split.
      * by intros (b & db' & ?).
      * intros Hle. lia.
      * intros _. lia.
      * intros _. by eexists _, _.
Qed.

Lemma api_availability_agrees_with_api_book_witness :
  ∃ slots,
    App.api_availability (λ _, Some 739001) "2024-04-28" (fifteen_booked 739001)
    = Some slots
    ∧ av_remaining <$> slots = [5; 25; 25; 30; 30; 20].
Proof.
  pose proof (api_availability_agrees_with_api_book (λ _, Some 739001) "2024-04-28"
                (fifteen_booked 739001) ltac:(discriminate)) as H.
  destruct (App.api_availability (λ _, Some 739001) "2024-04-28"
              (fifteen_booked 739001)) as [slots|] eqn:E; [|discriminate H].
  exists slots. split; [reflexivity|].
  vm_compute in E. injection E as <-. reflexivity.
Defined.

(** ** Reading the token of a request *)

Lemma prefix_Bearer_space s :
  String.prefix "Bearer " s = true → " "%char ∈ list_ascii_of_string s.
Proof.
  intros H.
  do 7 (destruct s as [|? s]; [done|]; cbn [String.prefix] in H;
        destruct (Ascii.ascii_dec _ _) as [<-|]; [|done]).
  simpl. do 6 right. left.
Qed.

Lemma replace_from_no_space s :
  " "%char ∉ list_ascii_of_string s → replace_from "Bearer " "" 0 s = s.
Proof.
  induction s as [|c s IH]; intros Hns; [done|].
  cbn [replace_from].
  destruct (String.prefix "Bearer " (String c s)) eqn:E.
  - exfalso. by apply Hns, prefix_Bearer_space.
  - f_equal. apply IH. intros Hin. apply Hns. simpl. by right.
Qed.

Lemma py_replace_Bearer t :
  " "%char ∉ list_ascii_of_string t →
  py_replace "Bearer " "" ("Bearer " +:+ t) = t
  ∧ py_replace "Bearer " "" t = t
  ∧ py_replace "Bearer " "" "Bearer " = "".
Proof.
  intros Hns. unfold py_replace. split_and!.
  - destruct t as [|c t']; [reflexivity|].
    change (replace_from "Bearer " "" 0 (String c t') = String c t').
    by apply replace_from_no_space.
  - by apply replace_from_no_space.
  - reflexivity.
Qed.

Lemma active_token_row db t :
  NoDup (at_token <$> tokens db) → t ∈ tokens db → at_is_active t = true →
  filter (λ x, Some (at_token x) = Some (at_token t) ∧ at_is_active x = true) (tokens db)
  = [t].
Proof.
  intros Hnd Ht Hact.
  rewrite (list_filter_iff _ (λ x, at_is_active x = true ∧ at_token x = at_token t)).
  - rewrite <- (list_filter_filter (λ x, at_is_active x = true)
                  (λ x, at_token x = at_token t)).
    rewrite (filter_unique_key at_token (tokens db) t Hnd Ht).
    by rewrite filter_cons, decide_True.
  - intros x. split; [intros [[= ?] ?] | intros [? ?]]; split; congruence.
Qed.

(** X24: how the chat API reads the token of a request.  For an active,
    valid token of a user (token strings unique, without a space), both
    [token_required] and the check of [chat_message] accept it in the
    header 'Bearer <token>', in the bare header and in the query
    argument, whatever channel the token was issued for.  They differ
    when the header is just 'Bearer ' and the token comes in the query
    argument: the check of [chat_message] falls back to the argument and
    accepts, [token_required] answers 401 'Token required'. *)
Theorem api_token_reading now db t user_id message session_id :
  NoDup (at_token <$> tokens db) →
  t ∈ tokens db → at_is_active t = true → is_valid now t = true →
  at_user_id t = Some user_id →
  at_token t ≠ "" → " "%char ∉ list_ascii_of_string (at_token t) →
  let rq authorization arg_token :=
    mkChatRequest None authorization arg_token message session_id in
  (∀ any,
     ApiRoutes.token_required now (Some ("Bearer " +:+ at_token t)) any db
     = inr (Some user_id)
     ∧ ApiRoutes.request_user now (rq (Some ("Bearer " +:+ at_token t)) any) db
       = Some user_id
     ∧ ApiRoutes.token_required now (Some (at_token t)) any db = inr (Some user_id)
     ∧ ApiRoutes.request_user now (rq (Some (at_token t)) any) db = Some user_id)
  ∧ ApiRoutes.token_required now None (Some (at_token t)) db = inr (Some user_id)
  ∧ ApiRoutes.request_user now (rq None (Some (at_token t))) db = Some user_id
  ∧ ApiRoutes.request_user now (rq (Some "Bearer ") (Some (at_token t))) db
    = Some user_id
  ∧ ApiRoutes.token_required now (Some "Bearer ") (Some (at_token t)) db
    = inl (ApiError 401 "Token required").
Proof.
  intros Hnd Ht Hact Hvalid Hu Hne Hns rq.
  destruct (py_replace_Bearer (at_token t) Hns) as (Hb1 & Hb2 & Hb3).
  pose proof (active_token_row db t Hnd Ht Hact) as Hrow.
  assert (∀ s, truthy_str (Some ("Bearer " +:+ s)) = true) as Htb by done.
  assert (truthy_str (Some (at_token t)) = true) as Htt
    by (simpl; by rewrite bool_decide_eq_false_2).
  assert (∀ authorization arg_token,
            ApiRoutes.request_token (rq authorization arg_token)
            = Some (at_token t) →
            ApiRoutes.request_user now (rq authorization arg_token) db = Some user_id)
    as Hreq.
  { intros authorization arg_token Htok. unfold ApiRoutes.request_user.
    rewrite Htok. cbn [rq cr_session_user]. rewrite Htt, Hrow. cbn [head]. by rewrite Hvalid, Hu. }
  split_and!.
  - intros any. split_and!.
    + unfold ApiRoutes.token_required. rewrite Htb.
      cbn [default from_option id]. rewrite Hb1, Htt. cbn [negb].
      rewrite Hrow. cbn [head]. by rewrite Hvalid, Hu.
    + apply Hreq. unfold ApiRoutes.request_token.
      cbn [rq cr_authorization cr_arg_token default from_option id].
      by rewrite Hb1, (bool_decide_eq_false_2 _ Hne).
    + unfold ApiRoutes.token_required. rewrite Htt. cbv iota.
      cbn [default from_option id]. rewrite Hb2. rewrite Htt. cbn [negb].
      rewrite Hrow. cbn [head]. by rewrite Hvalid, Hu.
    + apply Hreq. unfold ApiRoutes.request_token.
      cbn [rq cr_authorization cr_arg_token default from_option id].
      by rewrite Hb2, (bool_decide_eq_false_2 _ Hne).
  - unfold ApiRoutes.token_required. change (truthy_str None) with false. cbv iota.
    rewrite Htt. cbn [negb].
    rewrite Hrow. cbn [head]. by rewrite Hvalid, Hu.
  - apply Hreq. unfold ApiRoutes.request_token.
    cbn [rq cr_authorization cr_arg_token default from_option id].
    change (py_replace "Bearer " "" "") with "".
    by rewrite bool_decide_eq_true_2.
  - apply Hreq. unfold ApiRoutes.request_token.
    cbn [rq cr_authorization cr_arg_token default from_option id].
    rewrite Hb3. by rewrite bool_decide_eq_true_2.
  - unfold ApiRoutes.token_required.
    change (truthy_str (Some "Bearer ")) with true. cbv iota.
    cbn [default from_option id]. rewrite Hb3. done.
Qed.

Lemma api_token_reading_witness :
  let db := (WebsiteChannel.generate_token 1 10 "tok-7" (Some 7%nat) 30 empty_db).2 in
  ApiRoutes.request_user 20
    (mkChatRequest None (Some "Bearer ") (Some "tok-7") (VStr "hello") VNone) db
  = Some 7%nat
  ∧ ApiRoutes.token_required 20 (Some "Bearer ") (Some "tok-7") db
    = inl (ApiError 401 "Token required").
Proof.
  intros db.
  edestruct (api_token_reading 20 db
               (mkToken 1 "tok-7" (Some 7%nat) (Some 1%nat)
                  (Some (10 + 30 * 86400000000)) true None)
               7%nat (VStr "hello") VNone)
    as (_ & _ & _ & H1 & H2).
  - by apply (bool_decide_unpack _).
  - vm_compute. left.
  - reflexivity.
  - reflexivity.
  - reflexivity.
  - discriminate.
  - by apply (bool_decide_unpack _).
  - split; [exact H1 | exact H2].
Defined.

(** ** The socket chat *)



(** ** From an issued token to a session *)





